(** * MetaTagWebApp: a shallow embedding of [MetaTagWebApp1.3.py]

    The application uploads images, asks a vision-language model for
    descriptive metadata, embeds the metadata into JPEG / PNG files, or
    strips metadata from images.  This development embeds the non-UI part of
    the program (the analyse-and-retry loop, the two metadata-writer
    branches, the stripper, the batch loops and the download section) and
    proves the properties the specification states about them.

    Conventions.
    - A Python [str] is the list of its code points ([pystr]); file
      contents are [bytes].
    - Values produced by [json.loads] are [pyval].
    - Effects are threaded through a state-and-exception monad [M] over a
      [world]: the file system, the Streamlit session state, a counter of
      model calls and a chronological log of observable events.
    - Third-party libraries (google.generativeai, json, iptcinfo3, PIL,
      rawpy) are not part of the repository; their calls are the fields of
      the record [externals], over which every result is quantified.  So
      are the answer of the operating system to [open(path, "wb")] and
      what a save that raises leaves on disk. *)

From Stdlib Require Import ZArith NArith List String Ascii Bool Lia.
From stdpp Require Import base option list gmap fin_maps.
From Equations Require Import Equations.
Import ListNotations.

Set Warnings "-register-all".

Local Open Scope N_scope.

(** ** Python strings *)

Module PyStr.

(** A [str] as the sequence of its Unicode code points. *)
Definition pystr : Type := list N.

(** A literal: the code points of an ASCII Rocq string. *)
Definition py (s : string) : pystr :=
  map N_of_ascii (list_ascii_of_string s).

Definition sep : N := 47.      (* "/" *)
Definition extsep : N := 46.   (* "." *)

(** [str.isspace] for one code point (CPython's [_PyUnicode_IsWhitespace]). *)
Definition isspace (c : N) : bool :=
  ((9 <=? c) && (c <=? 13)) || ((28 <=? c) && (c <=? 32))
  || (c =? 133) || (c =? 160) || (c =? 5760)
  || ((8192 <=? c) && (c <=? 8202))
  || (c =? 8232) || (c =? 8233) || (c =? 8239) || (c =? 8287) || (c =? 12288).

(** Line boundaries of [str.splitlines] (CPython's [_PyUnicode_IsLinebreak]). *)
Definition islinebreak (c : N) : bool :=
  ((10 <=? c) && (c <=? 13)) || ((28 <=? c) && (c <=? 30))
  || (c =? 133) || (c =? 8232) || (c =? 8233).

Fixpoint lstrip (s : pystr) : pystr :=
  match s with
  | c :: s' => if isspace c then lstrip s' else s
  | [] => []
  end.

Definition rstrip (s : pystr) : pystr := rev (lstrip (rev s)).

(** [s.strip()] *)
Definition strip (s : pystr) : pystr := rstrip (lstrip s).

(** [s.startswith(p)] *)
Fixpoint startswith (p s : pystr) : bool :=
  match p, s with
  | [], _ => true
  | a :: p', b :: s' => (a =? b) && startswith p' s'
  | _ :: _, [] => false
  end.

(** [s.endswith(p)] *)
Definition endswith (p s : pystr) : bool := startswith (rev p) (rev s).

(** [s == t] *)
Definition eqb (s t : pystr) : bool := bool_decide (s = t).

(** [s.splitlines()]: [cur] is the current line, reversed.  A carriage
    return followed by a line feed is a single boundary, and a trailing
    boundary opens no further line. *)
Fixpoint splitlines_aux (cur : pystr) (s : pystr) : list pystr :=
  match s with
  | [] => match cur with [] => [] | _ => [rev cur] end
  | c :: s' =>
      if islinebreak c then
        match c, s' with
        | 13, 10 :: s'' => rev cur :: splitlines_aux [] s''
        | _, _ => rev cur :: splitlines_aux [] s'
        end
      else splitlines_aux (c :: cur) s'
  end.

Definition splitlines (s : pystr) : list pystr := splitlines_aux [] s.

(** [d.join(parts)] *)
Fixpoint join (d : pystr) (parts : list pystr) : pystr :=
  match parts with
  | [] => []
  | [p] => p
  | p :: rest => p ++ d ++ join d rest
  end.

(** [s.lower()] on the ASCII letters.  The other cased code points map to
    code points outside ASCII, except U+212A and U+0130 whose images
    contain the ASCII letters k and i; none of the suffixes the program
    compares with ([.jpg], [.jpeg], [.png], [.cr2]) contains one of those
    two letters, so every comparison below has the value it has in Python. *)
Definition lower_char (c : N) : N :=
  if (65 <=? c) && (c <=? 90) then c + 32 else c.

Definition lower (s : pystr) : pystr := map lower_char s.

(** The code points of the character class of line 129: U+0000..U+001F,
    U+007F..U+009F, U+2000..U+200D and U+FEFF. *)
Definition is_control (c : N) : bool :=
  (c <=? 31) || ((127 <=? c) && (c <=? 159))
  || ((8192 <=? c) && (c <=? 8205)) || (c =? 65279).

(** [re.sub(r'[...]', '', s)] for that class. *)
Definition remove_control (s : pystr) : pystr :=
  List.filter (fun c => negb (is_control c)) s.

(** Lone surrogates, which the strict UTF-8 encoder refuses. *)
Definition is_surrogate (c : N) : bool := (55296 <=? c) && (c <=? 57343).

End PyStr.
Export PyStr.

(** ** [os.path] (POSIX flavour) *)

Module OsPath.

(** [p.rfind(c)]: the highest index of [c] in [p], or [-1]. *)
Fixpoint rfind_aux (c : N) (p : pystr) (i last : Z) : Z :=
  match p with
  | [] => last
  | x :: p' => rfind_aux c p' (i + 1)%Z (if x =? c then i else last)
  end.

Definition rfind (c : N) (p : pystr) : Z := rfind_aux c p 0%Z (-1)%Z.

(** [p[i:j]] for indices that are not negative. *)
Definition slice (p : pystr) (i j : Z) : pystr :=
  firstn (Z.to_nat j - Z.to_nat i) (skipn (Z.to_nat i) p).

(** [os.path.splitext]: the extension starts at the last dot of the last
    path component, unless that component has only dots before it. *)
Definition splitext (p : pystr) : pystr * pystr :=
  let sepIndex := rfind sep p in
  let dotIndex := rfind extsep p in
  if (sepIndex <? dotIndex)%Z
     && existsb (fun c => negb (c =? extsep)) (slice p (sepIndex + 1) dotIndex)
  then (firstn (Z.to_nat dotIndex) p, skipn (Z.to_nat dotIndex) p)
  else (p, []).

(** [os.path.basename] *)
Definition basename (p : pystr) : pystr :=
  skipn (Z.to_nat (rfind sep p + 1)) p.

(** [os.path.join(a, b)] *)
Definition join (a b : pystr) : pystr :=
  if startswith [sep] b then b
  else if match a with [] => true | _ => endswith [sep] a end then a ++ b
  else a ++ sep :: b.

End OsPath.

(** ** Python values, exceptions and results *)

(** What [json.loads] can return.  A float is kept as its IEEE-754 binary64
    bit pattern; a dictionary is a finite map from keys to values. *)
Inductive pyval : Type :=
| PNone
| PBool (b : bool)
| PInt (z : Z)
| PFloat (bits : N)
| PStr (s : pystr)
| PList (l : list pyval)
| PDict (d : gmap pystr pyval).

(** The exceptions that occur; all of them derive from [Exception]. *)
Inductive pyexc : Type :=
| JSONDecodeError
| AttributeError
| KeyError
| UnicodeEncodeError
| FileNotFoundError
| TypeError
| ValueError
| LibraryError (code : N).

(** The outcome of a computation that may raise. *)
Inductive result (A : Type) : Type :=
| Ret (a : A)
| Raise (e : pyexc).
Arguments Ret {A} a.
Arguments Raise {A} e.

Definition rbind {A B} (r : result A) (f : A -> result B) : result B :=
  match r with
  | Ret a => f a
  | Raise e => Raise e
  end.

Declare Scope result_scope.
Delimit Scope result_scope with R.
Notation "x <- r ;; k" := (rbind r (fun x => k))
  (at level 100, r at next level, k at level 200, right associativity)
  : result_scope.

(** A list comprehension whose element expression may raise. *)
Fixpoint rmap {A B} (f : A -> result B) (l : list A) : result (list B) :=
  match l with
  | [] => Ret []
  | x :: l' => (y <- f x ;; ys <- rmap f l' ;; Ret (y :: ys))%R
  end.

(** Truth value of a Python object ([bool(v)]).  A float is false exactly
    when it is plus or minus zero. *)
Definition truthy (v : pyval) : bool :=
  match v with
  | PNone => false
  | PBool b => b
  | PInt z => negb (z =? 0)%Z
  | PFloat bits => negb (N.land bits (2 ^ 63 - 1) =? 0)
  | PStr s => match s with [] => false | _ => true end
  | PList l => match l with [] => false | _ => true end
  | PDict d => negb (Nat.eqb (size d) 0)
  end.

(** [isinstance(v, list)] *)
Definition is_list (v : pyval) : bool :=
  match v with PList _ => true | _ => false end.

(** [metadata.get(key)]: only a dictionary has the method. *)
Definition py_get (metadata : pyval) (key : pystr) : result pyval :=
  match metadata with
  | PDict d => Ret (default PNone (d !! key))
  | _ => Raise AttributeError
  end.

(** [metadata[key]] for a string [key]: the value of the key in a
    dictionary; no other value can be indexed by a string. *)
Definition py_getitem (metadata : pyval) (key : pystr) : result pyval :=
  match metadata with
  | PDict d => match d !! key with Some v => Ret v | None => Raise KeyError end
  | _ => Raise TypeError
  end.

(** [v.encode('utf-8').decode('utf-8', errors='ignore')].  Only [str] has
    [encode]; the strict encoder raises on a lone surrogate, and what it
    produces is valid UTF-8, which decodes to the string it came from. *)
Definition recode (v : pyval) : result pystr :=
  match v with
  | PStr s => if existsb is_surrogate s then Raise UnicodeEncodeError else Ret s
  | _ => Raise AttributeError
  end.

(** The elements a comprehension iterates over when [isinstance(v, list)]. *)
Definition list_items (v : pyval) : list pyval :=
  match v with PList l => l | _ => [] end.

(** ** Files, images and the external libraries *)

Definition bytes : Type := list Byte.byte.

(** The value of an IPTC dataset: one string, or a list of strings. *)
Inductive iptc_value : Type :=
| IText (s : pystr)
| IList (l : list pystr).

(** A numpy array of pixel values. *)
Definition ndarray : Type := list N.

(** A decoded PIL image. *)
Record image : Type := mkImage {
  mode : pystr;
  size : N * N;
  pixels : ndarray;
  info : list (pystr * pystr)
}.

(** What a file on disk holds, by the call that wrote it. *)
Inductive file_content : Type :=
| FBytes (b : bytes)                                    (* f.write(...) *)
| FIptcJpeg (src : file_content) (data : gmap pystr iptc_value)
                                                        (* info.save_as *)
| FImage (im : image) (fmt : option pystr) (quality : option N)
         (text : list (pystr * pystr))                  (* Image.save *)
| FZip (members : list (pystr * file_content)).         (* zipfile *)

(** An uploaded file: its name, and what [getvalue()] gives. *)
Record uploaded_file : Type := mkUpload {
  name : pystr;
  getvalue : result bytes
}.

(** The calls into third-party libraries.  A field of type [result _]
    stands for a call that either returns or raises. *)
Record externals : Type := mkExternals {
  (* base64.b64encode(data).decode("utf-8") *)
  b64encode : bytes -> pystr;
  (* genai.configure(api_key=...) followed by genai.GenerativeModel(...) *)
  genai_configure : pystr -> result unit;
  (* the text of the response to the n-th model call of the session, for
     an API key and an encoded image; raising covers both the call and
     the access to response.text *)
  generate_content : nat -> pystr -> pystr -> result pystr;
  (* json.loads *)
  json_loads : pystr -> result pyval;
  (* IPTCInfo(path, force=True), from the content of the file at path *)
  IPTCInfo : file_content -> result (gmap pystr iptc_value);
  (* info.save_as(output_path): the library returns True once it has
     written the file, and logs an error and returns None (here false)
     without writing when the file it was opened on is not a JPEG *)
  iptc_save_as : file_content -> gmap pystr iptc_value -> pystr -> result bool;
  (* Image.open(path) *)
  Image_open : file_content -> result image;
  (* im.save(path, format, quality=..., pnginfo=...) *)
  Image_save : image -> pystr -> option pystr -> option N ->
               list (pystr * pystr) -> result unit;
  (* whether [import rawpy, numpy] succeeded *)
  RAW_SUCCESS : bool;
  (* rawpy.imread(path) then raw.postprocess() with default arguments *)
  rawpy_postprocess : file_content -> result ndarray;
  (* Image.fromarray(rgb_image) *)
  Image_fromarray : ndarray -> result image;
  (* open(path, "wb"): whether the operating system lets the file be
     created or truncated *)
  open_wb : pystr -> result unit;
  (* what a save that raises leaves at its path, for the content it was to
     write and what the path held before: nothing new, or a truncated or
     partial file *)
  save_leftover : pystr -> file_content -> option file_content ->
                  option file_content
}.

(** ** The world and the monad *)

(** What the program lets the outside observe, in the order it happens. *)
Inductive event : Type :=
| EvGenerate (n : nat)                   (* model.generate_content(...) *)
| EvSleep (seconds : N)                  (* time.sleep(...) *)
| EvError (file_name : pystr) (e : pyexc)  (* st.error(...) *)
| EvZip (zip_path : pystr) (members : list (pystr * pystr))
                                         (* one zipf.write per member *)
| EvDownload (file_name : pystr) (data : file_content)
                                         (* st.download_button(...) *)
| EvSuccess.                             (* st.success(...) *)

Record world : Type := mkWorld {
  fs : gmap pystr file_content;          (* the files on disk *)
  temp_dir : pystr;                      (* st.session_state.temp_dir *)
  processed_files : list pystr;          (* st.session_state.processed_files *)
  calls : nat;                           (* model calls made so far *)
  log : list event
}.

Definition set_fs (f : gmap pystr file_content -> gmap pystr file_content)
    (w : world) : world :=
  mkWorld (f (fs w)) (temp_dir w) (processed_files w) (calls w) (log w).

Definition set_processed_files (l : list pystr) (w : world) : world :=
  mkWorld (fs w) (temp_dir w) l (calls w) (log w).

Definition emit (e : event) (w : world) : world :=
  mkWorld (fs w) (temp_dir w) (processed_files w) (calls w) (log w ++ [e]).

Definition count_call (w : world) : world :=
  mkWorld (fs w) (temp_dir w) (processed_files w) (S (calls w)) (log w).

(** A statement: from a world to an outcome and the world it leaves. *)
Definition M (A : Type) : Type := world -> result A * world.

Definition ret {A} (a : A) : M A := fun w => (Ret a, w).

Definition raise {A} (e : pyexc) : M A := fun w => (Raise e, w).

Definition bind {A B} (m : M A) (f : A -> M B) : M B :=
  fun w =>
    match m w with
    | (Ret a, w') => f a w'
    | (Raise e, w') => (Raise e, w')
    end.

(** An expression that may raise, evaluated in the current world. *)
Definition lift {A} (r : result A) : M A := fun w => (r, w).

(** [try: body / except Exception as e: handler e] *)
Definition try_except {A} (body : M A) (handler : pyexc -> M A) : M A :=
  fun w =>
    match body w with
    | (Ret a, w') => (Ret a, w')
    | (Raise e, w') => handler e w'
    end.

(** [try: body / finally: cleanup] *)
Definition try_finally {A} (body : M A) (cleanup : M unit) : M A :=
  fun w =>
    match body w with
    | (r, w') =>
        match cleanup w' with
        | (Ret _, w'') => (r, w'')
        | (Raise e, w'') => (Raise e, w'')
        end
    end.

Definition modify (f : world -> world) : M unit := fun w => (Ret tt, f w).

Definition gets {A} (f : world -> A) : M A := fun w => (Ret (f w), w).

Declare Scope M_scope.
Delimit Scope M_scope with M.
Bind Scope M_scope with M.
Notation "x <- m ;; k" := (bind m (fun x => k))
  (at level 100, m at next level, k at level 200, right associativity)
  : M_scope.
Notation "m ;; k" := (bind m (fun _ => k))
  (at level 100, k at level 200, right associativity) : M_scope.

(** [for x in xs: body x] *)
Fixpoint for_each {A} (xs : list A) (body : A -> M unit) : M unit :=
  match xs with
  | [] => ret tt
  | x :: xs' => (body x ;; for_each xs' body)%M
  end.

(** A [for] loop that threads the local variables [s] of its body. *)
Fixpoint for_fold {A S} (xs : list A) (body : A -> S -> M S) (s : S) : M S :=
  match xs with
  | [] => ret s
  | x :: xs' => (s' <- body x s ;; for_fold xs' body s')%M
  end.

(** *** File-system primitives *)

(** [with open(path, "wb") as f: f.write(data)], where [opened] is what
    the [open] does: when it raises, no file is created and [data] is not
    evaluated; otherwise the file is created (or truncated) before [data]
    is evaluated. *)
Definition write_file (opened : result unit) (path : pystr)
    (data : result bytes) : M unit :=
  (lift opened ;;
   modify (set_fs (insert path (FBytes []))) ;;
   b <- lift data ;;
   modify (set_fs (insert path (FBytes b))))%M.

(** [os.path.exists(path)] *)
Definition path_exists (path : pystr) : M bool :=
  gets (fun w => bool_decide (is_Some (fs w !! path))).

(** [os.remove(path)] for a path that exists *)
Definition os_remove (path : pystr) : M unit :=
  modify (set_fs (delete path)).

(** The content a library reads at [path]. *)
Definition read_file (path : pystr) : M file_content :=
  fun w =>
    match fs w !! path with
    | Some c => (Ret c, w)
    | None => (Raise FileNotFoundError, w)
    end.

(** The outcome of a save that writes its file whenever it returns. *)
Definition written (outcome : result unit) : result bool :=
  match outcome with
  | Ret _ => Ret true
  | Raise e => Raise e
  end.

(** A library call that saves [content] at [path].  [outcome] is what the
    call does: it returns having written the file ([Ret true]), it returns
    without having written it ([Ret false]), or it raises, and then the
    path holds what the failed save left there ([leftover], given what
    the path held before), if it left anything. *)
Definition library_save (outcome : result bool)
    (leftover : option file_content -> option file_content)
    (path : pystr) (content : file_content) : M unit :=
  match outcome with
  | Ret true => modify (set_fs (insert path content))
  | Ret false => ret tt
  | Raise e =>
      (prior <- gets (fun w => fs w !! path) ;;
       match leftover prior with
       | Some partial => modify (set_fs (insert path partial)) ;; raise e
       | None => raise e
       end)%M
  end.

(** [if os.path.exists(path): os.remove(path)] *)
Definition remove_if_exists (path : pystr) : M unit :=
  (e <- path_exists path ;;
   if e then os_remove path else ret tt)%M.

(** ** The application *)

Section App.

Variable E : externals.

Local Open Scope M_scope.

(** *** Tagging: the model client adapter (lines 86-147) *)

(** [encode_image]: any exception gives [None]. *)
Definition encode_image (image_file : uploaded_file) : option pystr :=
  match getvalue image_file with
  | Ret b => Some (b64encode E b)
  | Raise _ => None
  end.

Definition fence : pystr := py "```".

(** Lines 120-126: drop a Markdown code fence around the text. *)
Definition strip_fences (json_string : pystr) : pystr :=
  if startswith fence json_string then
    let lines := splitlines json_string in
    let lines :=
      match lines with
      | first :: rest => if startswith fence (strip first) then rest else lines
      | [] => lines
      end in
    let lines :=
      match last lines with
      | Some final =>
          if eqb (strip final) fence then removelast lines else lines
      | None => lines
      end in
    strip (PyStr.join [10] lines)
  else json_string.

(** Lines 117-129: the string handed to the JSON parser. *)
Definition sanitize (text : pystr) : pystr :=
  remove_control (strip_fences (strip text)).

(** Lines 114-138: what one response leads to.  [Ret PNone] is
    [return None]; only [json.JSONDecodeError] is caught here, any other
    exception of the parser reaches the handler of the retry loop. *)
Definition interpret_response (text : pystr) : result pyval :=
  match text with
  | [] => Ret PNone
  | _ =>
      let json_string := sanitize text in
      match json_string with
      | [] => Ret PNone
      | _ =>
          match json_loads E json_string with
          | Ret json_data => Ret json_data
          | Raise JSONDecodeError => Ret PNone
          | Raise e => Raise e
          end
      end
  end.

(** [response = model.generate_content(prompt_parts)] and [response.text] *)
Definition call_model (api_key base64_image : pystr) : M pystr :=
  fun w =>
    (generate_content E (calls w) api_key base64_image,
     count_call (emit (EvGenerate (calls w)) w)).

(** [time.sleep(seconds)] *)
Definition sleep (seconds : N) : M unit := modify (emit (EvSleep seconds)).

(** Lines 111-147: the [while retries <= max_retries] loop. *)
Equations? retry_loop (api_key base64_image : pystr) (max_retries retries : nat)
  : M pyval by wf (S max_retries - retries)%nat lt :=
retry_loop api_key base64_image max_retries retries :=
  if Nat.leb retries max_retries then
    try_except
      (text <- call_model api_key base64_image ;;
       lift (interpret_response text))
      (fun _ =>
         match lt_dec retries max_retries with
         | left _ =>
             sleep (2 ^ N.of_nat retries) ;;
             retry_loop api_key base64_image max_retries (S retries)
         | right _ => ret PNone
         end)
  else ret PNone.
Proof. lia. Qed.

(** [analyze_image(image_file, api_key, max_retries)] *)
Definition analyze_image (image_file : uploaded_file) (api_key : pystr)
    (max_retries : nat) : M pyval :=
  match encode_image image_file with
  | None => ret PNone
  | Some base64_image =>
      match genai_configure E api_key with
      | Raise _ => ret PNone
      | Ret _ => retry_loop api_key base64_image max_retries 0
      end
  end.

(** *** Tagging: the metadata writer (lines 149-203) *)

(** [if metadata.get(key): info[field] = recoded metadata[key]], where
    recoding is [.encode('utf-8').decode('utf-8', errors='ignore')]. *)
Definition set_text (metadata : pyval) (key field : pystr)
    (data : gmap pystr iptc_value) : result (gmap pystr iptc_value) :=
  (v <- py_get metadata key ;;
   if truthy v then
     x <- py_getitem metadata key ;;
     s <- recode x ;;
     Ret (<[field := IText s]> data)
   else Ret data)%R.

(** Lines 166-167: keywords are written only when they are a list. *)
Definition set_keywords (metadata : pyval) (data : gmap pystr iptc_value)
    : result (gmap pystr iptc_value) :=
  (v <- py_get metadata (py "keywords") ;;
   is_kw_list <- (if truthy v then
                    x <- py_getitem metadata (py "keywords") ;;
                    Ret (is_list x)
                  else Ret false) ;;
   if is_kw_list : bool then
     x <- py_getitem metadata (py "keywords") ;;
     l <- rmap recode (list_items x) ;;
     Ret (<[py "keywords" := IList l]> data)
   else Ret data)%R.

(** Lines 164-173: the IPTC datasets after the five conditional writes. *)
Definition jpeg_fields (metadata : pyval) (data : gmap pystr iptc_value)
    : result (gmap pystr iptc_value) :=
  (data <- set_text metadata (py "caption") (py "caption/abstract") data ;;
   data <- set_keywords metadata data ;;
   data <- set_text metadata (py "byline") (py "by-line") data ;;
   data <- set_text metadata (py "credit") (py "credit") data ;;
   set_text metadata (py "source") (py "source") data)%R.

(** [if metadata.get(key): pnginfo.add_text(key, recoded metadata[key])] *)
Definition add_text (metadata : pyval) (key : pystr)
    (pnginfo : list (pystr * pystr)) : result (list (pystr * pystr)) :=
  (v <- py_get metadata key ;;
   if truthy v then
     x <- py_getitem metadata key ;;
     s <- recode x ;;
     Ret (pnginfo ++ [(key, s)])
   else Ret pnginfo)%R.

(** Lines 183-187: a list is joined by [", "], anything else is written
    as it is. *)
Definition add_keywords (metadata : pyval) (pnginfo : list (pystr * pystr))
    : result (list (pystr * pystr)) :=
  (v <- py_get metadata (py "keywords") ;;
   if truthy v then
     x <- py_getitem metadata (py "keywords") ;;
     if is_list x then
       y <- py_getitem metadata (py "keywords") ;;
       l <- rmap recode (list_items y) ;;
       Ret (pnginfo ++ [(py "keywords", PyStr.join (py ", ") l)])
     else
       y <- py_getitem metadata (py "keywords") ;;
       s <- recode y ;;
       Ret (pnginfo ++ [(py "keywords", s)])
   else Ret pnginfo)%R.

(** Lines 180-193: the text chunks, in the order they are added. *)
Definition png_chunks (metadata : pyval) : result (list (pystr * pystr)) :=
  (pnginfo <- add_text metadata (py "caption") [] ;;
   pnginfo <- add_keywords metadata pnginfo ;;
   pnginfo <- add_text metadata (py "byline") pnginfo ;;
   pnginfo <- add_text metadata (py "credit") pnginfo ;;
   add_text metadata (py "source") pnginfo)%R.

(** [os.path.splitext(image_file.name)[1].lower()] *)
Definition extension (image_file : uploaded_file) : pystr :=
  lower (snd (OsPath.splitext (name image_file))).

Definition is_jpeg_ext (ext : pystr) : bool :=
  eqb ext (py ".jpg") || eqb ext (py ".jpeg").

Definition is_png_ext (ext : pystr) : bool := eqb ext (py ".png").

(** The JPEG branch (lines 163-175). *)
Definition write_jpeg (temp_file_path output_path : pystr) (metadata : pyval)
    : M bool :=
  src <- read_file temp_file_path ;;
  data <- lift (IPTCInfo E src) ;;
  data <- lift (jpeg_fields metadata data) ;;
  library_save (iptc_save_as E src data output_path)
    (save_leftover E output_path (FIptcJpeg src data)) output_path
    (FIptcJpeg src data) ;;
  ret true.

(** The PNG branch (lines 178-195). *)
Definition write_png (temp_file_path output_path : pystr) (metadata : pyval)
    : M bool :=
  src <- read_file temp_file_path ;;
  im <- lift (Image_open E src) ;;
  pnginfo <- lift (png_chunks metadata) ;;
  library_save (written (Image_save E im output_path None None pnginfo))
    (save_leftover E output_path (FImage im None None pnginfo)) output_path
    (FImage im None None pnginfo) ;;
  ret true.

(** [except Exception as e: st.error(...); return False] *)
Definition report_failure (image_file : uploaded_file) (e : pyexc) : M bool :=
  modify (emit (EvError (name image_file) e)) ;; ret false.

(** [write_image_metadata(image_file, output_path, metadata)] *)
Definition write_image_metadata (image_file : uploaded_file)
    (output_path : pystr) (metadata : pyval) : M bool :=
  dir <- gets temp_dir ;;
  let temp_file_path := OsPath.join dir (name image_file) in
  write_file (open_wb E temp_file_path) temp_file_path
    (getvalue image_file) ;;
  let ext := extension image_file in
  try_finally
    (try_except
       (if is_jpeg_ext ext then
          write_jpeg temp_file_path output_path metadata
        else if is_png_ext ext then
          write_png temp_file_path output_path metadata
        else ret false)
       (report_failure image_file))
    (remove_if_exists temp_file_path).

(** *** Stripping (lines 208-247) *)

(** [Image.new(mode, size)]: a blank canvas without auxiliary data. *)
Definition Image_new (mode : pystr) (size : N * N) : image :=
  mkImage mode size (repeat 0 (N.to_nat (fst size * snd size))) [].

(** [canvas.paste(img)]: the pixel data of [img] on the canvas. *)
Definition paste (canvas img : image) : image :=
  mkImage (mode canvas) (size canvas) (pixels img) (info canvas).

(** [remove_metadata_image(image_file, output_path)] *)
Definition remove_metadata_image (image_file : uploaded_file)
    (output_path : pystr) : M bool :=
  dir <- gets temp_dir ;;
  let temp_file_path := OsPath.join dir (name image_file) in
  write_file (open_wb E temp_file_path) temp_file_path
    (getvalue image_file) ;;
  try_finally
    (try_except
       (src <- read_file temp_file_path ;;
        img <- lift (Image_open E src) ;;
        let new_img := paste (Image_new (mode img) (size img)) img in
        library_save (written (Image_save E new_img output_path None None []))
          (save_leftover E output_path (FImage new_img None None []))
          output_path (FImage new_img None None []) ;;
        ret true)
       (report_failure image_file))
    (remove_if_exists temp_file_path).

(** [process_raw_cr2(image_file, output_path)] *)
Definition process_raw_cr2 (image_file : uploaded_file) (output_path : pystr)
    : M bool :=
  if negb (RAW_SUCCESS E) then ret false
  else
    dir <- gets temp_dir ;;
    let temp_file_path := OsPath.join dir (name image_file) in
    write_file (open_wb E temp_file_path) temp_file_path
      (getvalue image_file) ;;
    try_finally
      (try_except
         (src <- read_file temp_file_path ;;
          rgb_image <- lift (rawpy_postprocess E src) ;;
          img <- lift (Image_fromarray E rgb_image) ;;
          library_save
            (written
               (Image_save E img output_path (Some (py "JPEG")) (Some 95) []))
            (save_leftover E output_path
               (FImage img (Some (py "JPEG")) (Some 95) []))
            output_path (FImage img (Some (py "JPEG")) (Some 95) []) ;;
          ret true)
         (report_failure image_file))
      (remove_if_exists temp_file_path).

(** *** Orchestration (lines 447-488) *)

(** The output path of a file in the tagging batch (line 456). *)
Definition tagging_output (output_dir : pystr) (file : uploaded_file) : pystr :=
  OsPath.join output_dir (name file).

(** Lines 456-458: one file through the tagging pipeline. *)
Definition tag_file (output_dir api_key : pystr) (file : uploaded_file)
    : M bool :=
  let output_path := tagging_output output_dir file in
  metadata <- analyze_image file api_key 5 ;;
  if truthy metadata
  then write_image_metadata file output_path metadata
  else ret false.

(** [process_tagging(files, api_key)].  Directories are not modelled, so
    [os.makedirs(output_dir, exist_ok=True)] leaves no trace. *)
Definition process_tagging (files : list uploaded_file) (api_key : pystr)
    : M unit :=
  dir <- gets temp_dir ;;
  let output_dir := OsPath.join dir (py "tagged_images") in
  processed_files <-
    for_fold files
      (fun file processed_files =>
         success <- tag_file output_dir api_key file ;;
         if success : bool
         then ret (processed_files ++ [tagging_output output_dir file])
         else ret processed_files)
      [] ;;
  modify (set_processed_files processed_files).

(** [file.name.lower().endswith('.cr2')] *)
Definition is_raw (file : uploaded_file) : bool :=
  endswith (py ".cr2") (lower (name file)).

(** The output path of a file in the stripping batch (lines 477-481). *)
Definition stripping_output (output_dir : pystr) (file : uploaded_file)
    : pystr :=
  if is_raw file
  then OsPath.join output_dir (fst (OsPath.splitext (name file)) ++ py ".jpg")
  else OsPath.join output_dir (name file).

(** Lines 474-482: one file through the stripping pipeline. *)
Definition strip_file (output_dir : pystr) (file : uploaded_file) : M bool :=
  let output_path := stripping_output output_dir file in
  if is_raw file
  then process_raw_cr2 file output_path
  else remove_metadata_image file output_path.

(** [process_stripping(files)] *)
Definition process_stripping (files : list uploaded_file) : M unit :=
  dir <- gets temp_dir ;;
  let output_dir := OsPath.join dir (py "stripped_images") in
  processed_files <-
    for_fold files
      (fun file processed_files =>
         success <- strip_file output_dir file ;;
         if success : bool
         then ret (processed_files ++ [stripping_output output_dir file])
         else ret processed_files)
      [] ;;
  modify (set_processed_files processed_files).

(** *** The download section and the clear-outputs button (in [main]) *)

(** [zipf.write(file, os.path.basename(file))] into the archive at
    [zip_path]. *)
Definition zip_add (member : pystr * file_content) (c : file_content)
    : file_content :=
  match c with
  | FZip members => FZip (members ++ [member])
  | other => other
  end.

Definition zipf_write (zip_path file : pystr) : M unit :=
  data <- read_file file ;;
  modify (set_fs (alter (zip_add (OsPath.basename file, data)) zip_path)).

(** Lines 312-345 (and 402-435): the ZIP archive when there is more than
    one output, then one download button per output. *)
Definition download_section (zip_name : pystr) : M unit :=
  files <- gets processed_files ;;
  match files with
  | [] => ret tt
  | _ =>
      (if Nat.ltb 1 (length files) then
         dir <- gets temp_dir ;;
         let zip_path := OsPath.join dir zip_name in
         modify (set_fs (insert zip_path (FZip []))) ;;
         for_each files (zipf_write zip_path) ;;
         modify
           (emit (EvZip zip_path
                    (map (fun file => (OsPath.basename file, file)) files))) ;;
         data <- read_file zip_path ;;
         modify (emit (EvDownload zip_name data))
       else ret tt) ;;
      for_each files
        (fun file_path =>
           data <- read_file file_path ;;
           modify (emit (EvDownload (OsPath.basename file_path) data)))
  end.

(** Lines 350-355 (and 440-445), once the button is clicked. *)
Definition clear_outputs : M unit :=
  files <- gets processed_files ;;
  match files with
  | [] => ret tt
  | _ =>
      for_each files remove_if_exists ;;
      modify (set_processed_files []) ;;
      modify (emit EvSuccess)
  end.

(** What the user did to trigger a run of the script. *)
Inductive action : Type :=
| Rerun
| AnalyzeImages (uploaded_files : list uploaded_file) (api_key : pystr)
| RemoveMetadata (uploaded_files : list uploaded_file)
| ClearOutputsTagging
| ClearOutputsStripping.

(** [main()]: the tagging tab, then the stripping tab.  A button is
    enabled, and so can be the action, only under the condition the
    script gives it. *)
Definition main (a : action) : M unit :=
  (match a with
   | AnalyzeImages (file :: files) (c :: api_key) =>
       process_tagging (file :: files) (c :: api_key)
   | _ => ret tt
   end) ;;
  download_section (py "tagged_images.zip") ;;
  (match a with ClearOutputsTagging => clear_outputs | _ => ret tt end) ;;
  (match a with
   | RemoveMetadata (file :: files) => process_stripping (file :: files)
   | _ => ret tt
   end) ;;
  download_section (py "stripped_images.zip") ;;
  (match a with ClearOutputsStripping => clear_outputs | _ => ret tt end).

End App.

(** ** Vocabulary of the statements *)

(** The events of [k] failing attempts, each followed by its back-off
    sleep, starting at call number [call] with retry count [retries]. *)
Fixpoint backoff (k call retries : nat) : list event :=
  match k with
  | O => []
  | S k' =>
      EvGenerate call :: EvSleep (2 ^ N.of_nat retries)
      :: backoff k' (S call) (S retries)
  end.

(** The model calls of a trace, and the sleeps in the order they occur. *)
Definition model_calls (trace : list event) : list nat :=
  flat_map (fun e => match e with EvGenerate n => [n] | _ => [] end) trace.

Definition sleeps (trace : list event) : list N :=
  flat_map (fun e => match e with EvSleep s => [s] | _ => [] end) trace.

(** The model raises on the calls numbered [from], ..., [from + count - 1]. *)
Definition raising (E : externals) (api_key image : pystr) (from count : nat)
    : Prop :=
  forall n, (from <= n < from + count)%nat ->
    exists e, generate_content E n api_key image = Raise e.

(** A response that ends the analysis of the image: empty text, text that
    is empty once sanitized, or text the JSON parser rejects. *)
Definition terminal_response (E : externals) (text : pystr) : Prop :=
  text = [] \/ sanitize text = [] \/
  json_loads E (sanitize text) = Raise JSONDecodeError.

(** The world after [n] more calls that left the trace [trace]. *)
Definition after_calls (n : nat) (trace : list event) (w : world) : world :=
  mkWorld (fs w) (temp_dir w) (processed_files w) (calls w + n)
    (log w ++ trace).

(** *** Sample environments *)

Definition sample_image : image := mkImage (py "RGB") (1, 1) [0] [].

(** A parser that knows two documents. *)
Definition sample_json (s : pystr) : result pyval :=
  if eqb s (py "{}") then Ret (PDict ∅)
  else if eqb s (py "ok")
  then Ret (PDict {[ py "caption" := PStr (py "tee") ]})
  else Raise JSONDecodeError.

(** Libraries that succeed, around a model [model]. *)
Definition sample_env (raw : bool)
    (model : nat -> pystr -> pystr -> result pystr) : externals :=
  mkExternals (fun _ => py "QUJD") (fun _ => Ret tt) model sample_json
    (fun _ => Ret ∅) (fun _ _ _ => Ret true) (fun _ => Ret sample_image)
    (fun _ _ _ _ _ => Ret tt) raw (fun _ => Ret [0])
    (fun rgb_image => Ret (mkImage (py "RGB") (1, 1) rgb_image []))
    (fun _ => Ret tt) (fun _ _ _ => None).

(** A model that is down, and a model that always answers [text]. *)
Definition model_down : nat -> pystr -> pystr -> result pystr :=
  fun _ _ _ => Raise (LibraryError 503).

Definition model_says (text : pystr) : nat -> pystr -> pystr -> result pystr :=
  fun _ _ _ => Ret text.

Definition sample_world : world := mkWorld ∅ (py "/tmp/session") [] 0 [].

Definition photo (file_name : string) : uploaded_file :=
  mkUpload (py file_name) (Ret []).

(** *** Batches *)

(** A file whose content can be read. *)
Definition readable (file : uploaded_file) : Prop :=
  exists b, getvalue file = Ret b.

(** The success flags of the files of a batch, in upload order, each
    pipeline running in the world its predecessors left; a pipeline that
    raises ends the batch. *)
Fixpoint outcomes {A} (pipeline : A -> M bool) (files : list A) (w : world)
    : list bool :=
  match files with
  | [] => []
  | file :: files' =>
      match pipeline file w with
      | (Ret success, w') => success :: outcomes pipeline files' w'
      | (Raise _, _) => []
      end
  end.

(** The world a batch leaves. *)
Fixpoint world_after {A} (pipeline : A -> M bool) (files : list A) (w : world)
    : world :=
  match files with
  | [] => w
  | file :: files' =>
      match pipeline file w with
      | (Ret _, w') => world_after pipeline files' w'
      | (Raise _, w') => w'
      end
  end.

(** The output paths whose flag is set, in order. *)
Fixpoint successes (outputs : list pystr) (flags : list bool) : list pystr :=
  match outputs, flags with
  | path :: outputs', true :: flags' => path :: successes outputs' flags'
  | _ :: outputs', false :: flags' => successes outputs' flags'
  | _, _ => []
  end.

(** [m] never raises. *)
Definition returns {A} (m : M A) : Prop :=
  forall w, exists a w', m w = (Ret a, w').

(** [m] does not raise in a session whose directory is [dir]. *)
Definition returns_in {A} (dir : pystr) (m : M A) : Prop :=
  forall w, temp_dir w = dir -> exists a w', m w = (Ret a, w').

(** [m] leaves the session directory as it is, whatever else it does. *)
Definition fixes_dir {A} (m : M A) : Prop :=
  forall w, temp_dir (snd (m w)) = temp_dir w.

(** [info.save_as] writes its file whenever it returns, for the content
    of [file]: the library takes the upload for a JPEG file. *)
Definition save_as_writes (E : externals) (file : uploaded_file) : Prop :=
  forall b data path,
    getvalue file = Ret b -> iptc_save_as E (FBytes b) data path <> Ret false.

(** The scratch copy of [file] in the session directory [dir] can be
    opened for writing. *)
Definition opens (E : externals) (dir : pystr) (file : uploaded_file) : Prop :=
  open_wb E (OsPath.join dir (name file)) = Ret tt.

(** [m] neither reads nor writes [st.session_state.processed_files]. *)
Definition ignores_session {A} (m : M A) : Prop :=
  forall l w,
    m (set_processed_files l w) =
    (fst (m w), set_processed_files l (snd (m w))).

(** A model that gives its [n]-th reply to the [n]-th call, and is down
    afterwards. *)
Definition model_script (replies : list (result pystr))
    : nat -> pystr -> pystr -> result pystr :=
  fun n _ _ => nth n replies (Raise (LibraryError 503)).

(** *** The fields of a metadata record *)

(** The five keys, in the order the writer visits them. *)
Definition field_keys : list pystr :=
  [py "caption"; py "keywords"; py "byline"; py "credit"; py "source"].

(** The IPTC dataset a key of the record is written to. *)
Definition iptc_field (key : pystr) : pystr :=
  if eqb key (py "caption") then py "caption/abstract"
  else if eqb key (py "byline") then py "by-line"
  else key.

(** A string that the strict UTF-8 encoder accepts. *)
Definition encodable (s : pystr) : Prop := existsb is_surrogate s = false.

Definition text_of (v : pyval) : option pystr :=
  match v with PStr s => Some s | _ => None end.

Fixpoint texts_of (vs : list pyval) : option (list pystr) :=
  match vs with
  | [] => Some []
  | v :: vs' =>
      match text_of v, texts_of vs' with
      | Some s, Some l => Some (s :: l)
      | _, _ => None
      end
  end.

(** The PNG branch as the specification words it, with truthy for
    present: a key gives a text chunk when its value is truthy; keywords
    given as a list are joined by [", "], any other text is written as
    it is. *)
Definition expected_chunk (d : gmap pystr pyval) (key : pystr)
    : list (pystr * pystr) :=
  let v := default PNone (d !! key) in
  if truthy v then
    match v with
    | PStr s => [(key, s)]
    | PList vs =>
        if eqb key (py "keywords") then
          match texts_of vs with
          | Some l => [(key, PyStr.join (py ", ") l)]
          | None => []
          end
        else []
    | _ => []
    end
  else [].

Definition expected_chunks (d : gmap pystr pyval) : list (pystr * pystr) :=
  flat_map (expected_chunk d) field_keys.

(** The JPEG branch as the specification words it, with truthy for
    present: a key gives an IPTC dataset when its value is truthy and,
    for keywords, a list. *)
Definition written_to_jpeg (d : gmap pystr pyval) (key : pystr) : bool :=
  let v := default PNone (d !! key) in
  truthy v && (if eqb key (py "keywords") then is_list v else true).

Definition expected_dataset (d : gmap pystr pyval) (key : pystr)
    : option iptc_value :=
  let v := default PNone (d !! key) in
  if written_to_jpeg d key then
    match v with
    | PStr s => Some (IText s)
    | PList vs => IList <$> texts_of vs
    | _ => None
    end
  else None.

Definition expected_iptc (d : gmap pystr pyval)
    (data : gmap pystr iptc_value) : gmap pystr iptc_value :=
  fold_left
    (fun data key =>
       match expected_dataset d key with
       | Some x => <[iptc_field key := x]> data
       | None => data
       end)
    field_keys data.

(** *** Downloads *)

(** The members of the archive made from [files]: each file that is on
    disk, under its base name. *)
Definition archive (disk : gmap pystr file_content) (files : list pystr)
    : list (pystr * file_content) :=
  flat_map (fun file =>
              match disk !! file with
              | Some data => [(OsPath.basename file, data)]
              | None => []
              end) files.

(** The download buttons of [files]. *)
Definition download_buttons (disk : gmap pystr file_content)
    (files : list pystr) : list event :=
  flat_map (fun file =>
              match disk !! file with
              | Some data => [EvDownload (OsPath.basename file) data]
              | None => []
              end) files.

(** The files of the session's result list are on disk. *)
Definition outputs_on_disk (w : world) : Prop :=
  Forall (fun path => is_Some (fs w !! path)) (processed_files w).

Definition two_outputs_world : world :=
  mkWorld
    {[ py "/tmp/session/tagged_images/1.jpg" := FBytes [];
       py "/tmp/session/tagged_images/3.jpg" := FBytes [] ]}
    (py "/tmp/session")
    [py "/tmp/session/tagged_images/1.jpg";
     py "/tmp/session/tagged_images/3.jpg"]
    0 [].

(** *** The session as a state machine *)

(** A file name without directory part, as a browser sends it. *)
Definition basename_only (file_name : pystr) : Prop := ~ In sep file_name.

(** What [os.path.join(dir, name)] puts before a relative [name]. *)
Definition join_prefix (dir : pystr) : pystr :=
  match dir with
  | [] => []
  | _ => if endswith [sep] dir then dir else dir ++ [sep]
  end.

(** A path below a subdirectory of the session directory [dir]. *)
Definition in_subdir (dir path : pystr) : Prop :=
  exists rest, In sep rest /\ path = join_prefix dir ++ rest.

(** The paths [paths] are paths of files on disk, below subdirectories
    of [dir]. *)
Definition listed (dir : pystr) (w : world) (paths : list pystr) : Prop :=
  Forall (fun path => is_Some (fs w !! path) /\ in_subdir dir path) paths.

(** The invariant that is preserved: the listed outputs are on disk, in
    subdirectories of the session directory. *)
Definition session_ok (w : world) : Prop :=
  listed (temp_dir w) w (processed_files w).

(** [w'] has the session directory and result list of [w], and every
    file that [w] has below a subdirectory of [dir]. *)
Definition keeps (dir : pystr) (w w' : world) : Prop :=
  temp_dir w' = temp_dir w
  /\ processed_files w' = processed_files w
  /\ forall path, in_subdir dir path ->
       is_Some (fs w !! path) -> is_Some (fs w' !! path).

(** [m], run in a session whose directory is [dir], keeps the world. *)
Definition preserving {A} (dir : pystr) (m : M A) : Prop :=
  forall w, temp_dir w = dir -> keeps dir w (snd (m w)).

(** The operations on the session: a batch of either kind, the rendering
    of a download section, and the clear-outputs button. *)
Inductive operation : Type :=
| OpTagging (files : list uploaded_file) (api_key : pystr)
| OpStripping (files : list uploaded_file)
| OpDownloads (zip_name : pystr)
| OpClearOutputs.

Definition run_operation (E : externals) (op : operation) : M unit :=
  match op with
  | OpTagging files api_key => process_tagging E files api_key
  | OpStripping files => process_stripping E files
  | OpDownloads zip_name => download_section zip_name
  | OpClearOutputs => clear_outputs
  end.

Definition well_named (op : operation) : Prop :=
  match op with
  | OpTagging files _ | OpStripping files =>
      Forall (fun file => basename_only (name file)) files
  | _ => True
  end.

(** The worlds a session can be in: it starts with an empty result list
    (lines 72-73), whatever is on disk, and goes on by operations, each
    leaving the world it leaves whether it returns or raises. *)
Inductive reachable (E : externals) : world -> Prop :=
| reachable_start disk dir :
    reachable E (mkWorld disk dir [] 0 [])
| reachable_step w op :
    reachable E w -> well_named op ->
    reachable E (snd (run_operation E op w)).

(** The uploads of a tagging batch that go to the JPEG branch are JPEG
    files to the library: [info.save_as] writes whenever it returns. *)
Definition jpegs_saved (E : externals) (op : operation) : Prop :=
  match op with
  | OpTagging files _ =>
      Forall (fun file =>
                save_as_writes E file
                \/ is_jpeg_ext (extension file) = false) files
  | _ => True
  end.

(** An [info.save_as] that looks at its source as the library does: a
    source that begins with the JPEG marker [FF D8] is written, for any
    other the call returns without writing. *)
Definition jpeg_marker (src : file_content) : bool :=
  match src with
  | FBytes (Byte.xff :: Byte.xd8 :: _) => true
  | _ => false
  end.

(** The libraries of [sample_env true], with that [info.save_as]. *)
Definition checking_env (model : nat -> pystr -> pystr -> result pystr)
    : externals :=
  mkExternals (fun _ => py "QUJD") (fun _ => Ret tt) model sample_json
    (fun _ => Ret ∅) (fun src _ _ => Ret (jpeg_marker src))
    (fun _ => Ret sample_image)
    (fun _ _ _ _ _ => Ret tt) true (fun _ => Ret [0])
    (fun rgb_image => Ret (mkImage (py "RGB") (1, 1) rgb_image []))
    (fun _ => Ret tt) (fun _ _ _ => None).

(** A PNG file uploaded under a JPEG name: the eight bytes of the PNG
    signature stand for its content. *)
Definition png_named_jpg : uploaded_file :=
  mkUpload (py "1.jpg")
    (Ret [Byte.x89; Byte.x50; Byte.x4e; Byte.x47;
          Byte.x0d; Byte.x0a; Byte.x1a; Byte.x0a]).

(** *** Further vocabulary *)

(** The [n]-th model call ends in the handler of the retry loop: the call
    raises, or the parser raises something other than
    [json.JSONDecodeError] on the sanitized text. *)
Definition attempt_fails (E : externals) (api_key image : pystr) (n : nat)
    : Prop :=
  (exists e, generate_content E n api_key image = Raise e)
  \/ (exists text e,
        generate_content E n api_key image = Ret text
        /\ text <> [] /\ sanitize text <> []
        /\ json_loads E (sanitize text) = Raise e
        /\ e <> JSONDecodeError).

(** The doubling delays [2^from, ..., 2^(from + count - 1)]. *)
Definition doubling (from count : nat) : list N :=
  map (fun i => 2 ^ N.of_nat i) (seq from count).

(** A string without line boundary. *)
Definition single_line (s : pystr) : Prop :=
  Forall (fun c => islinebreak c = false) s.

(** [m] makes between zero and [n] model calls. *)
Definition calls_within {A} (n : nat) (m : M A) : Prop :=
  forall w, (calls w <= calls (snd (m w)) <= calls w + n)%nat.

(** Lines 286 and 314 (and 378, 404): the number of columns for a
    number of files, [min(max(2, n // 4), 6)]. *)
Definition num_columns (num_files : nat) : nat :=
  Nat.min (Nat.max 2 (num_files / 4)) 6.

(** Lines 291-293 and 335-338: the column of the [i]-th file. *)
Definition column_of (num_files i : nat) : nat :=
  i mod num_columns num_files.

(** A parser that fails in another way than by [JSONDecodeError]. *)
Definition sample_env_parser_crash : externals :=
  mkExternals (fun _ => py "QUJD") (fun _ => Ret tt)
    (model_says (py "[[[[")) (fun _ => Raise ValueError)
    (fun _ => Ret ∅) (fun _ _ _ => Ret true) (fun _ => Ret sample_image)
    (fun _ _ _ _ _ => Ret tt) true (fun _ => Ret [0])
    (fun rgb_image => Ret (mkImage (py "RGB") (1, 1) rgb_image []))
    (fun _ => Ret tt) (fun _ _ _ => None).

(** The outcome of a per-file function that has cleaned up: it returned
    a flag, the scratch copy is gone, and the flag is set only with the
    output on disk. *)
Definition cleaned (temp_file_path output_path : pystr)
    (run : result bool * world) : Prop :=
  exists success,
    fst run = Ret success
    /\ fs (snd run) !! temp_file_path = None
    /\ (success = true -> is_Some (fs (snd run) !! output_path)).

(** [m], run in a session whose directory is [dir], returns and keeps
    the invariant of the session. *)
Definition runs_ok (dir : pystr) (m : M unit) : Prop :=
  forall w, temp_dir w = dir -> session_ok w ->
    fst (m w) = Ret tt
    /\ session_ok (snd (m w))
    /\ temp_dir (snd (m w)) = dir.

(** What a run of the script needs from its uploads: base names, scratch
    copies that can be opened, readable content for the stripping action
    and, for the tagging action, an [info.save_as] that writes whenever
    it returns. *)
Definition sound_action (E : externals) (dir : pystr) (a : action) : Prop :=
  match a with
  | AnalyzeImages files _ =>
      Forall (fun file => basename_only (name file)) files
      /\ Forall (opens E dir) files
      /\ Forall (fun file =>
                   save_as_writes E file
                   \/ is_jpeg_ext (extension file) = false) files
  | RemoveMetadata files =>
      Forall (fun file => basename_only (name file)) files
      /\ Forall (opens E dir) files
      /\ Forall readable files
  | _ => True
  end.

(** An upload that begins with the JPEG marker. *)
Definition jpeg_photo (file_name : string) : uploaded_file :=
  mkUpload (py file_name) (Ret [Byte.xff; Byte.xd8; Byte.xff; Byte.xe0]).

(** The files uploaded with an action. *)
Definition action_files (a : action) : list uploaded_file :=
  match a with
  | AnalyzeImages files _ | RemoveMetadata files => files
  | _ => []
  end.

(** ** Properties *)

(** *** The retry loop *)

Section RetryLoop.

Variable E : externals.
Variables api_key image : pystr.
Variable max_retries : nat.

Lemma retry_loop_step retries :
  (retries <= max_retries)%nat ->
  retry_loop E api_key image max_retries retries =
  try_except
    (bind (call_model E api_key image)
       (fun text => lift (interpret_response E text)))
    (fun _ =>
       match lt_dec retries max_retries with
       | left _ =>
           bind (sleep (2 ^ N.of_nat retries))
             (fun _ => retry_loop E api_key image max_retries (S retries))
       | right _ => ret PNone
       end).
Proof.
  intros Hle. rewrite retry_loop_equation_1.
  apply Nat.leb_le in Hle. rewrite Hle. reflexivity.
Qed.

(** [k] failing attempts, then an attempt whose response is interpreted
    without raising: the loop returns right after that attempt. *)
Lemma retry_loop_answer k : forall retries w text v,
  (retries + k <= max_retries)%nat ->
  raising E api_key image (calls w) k ->
  generate_content E (calls w + k) api_key image = Ret text ->
  interpret_response E text = Ret v ->
  retry_loop E api_key image max_retries retries w =
    (Ret v,
     after_calls (S k)
       (backoff k (calls w) retries ++ [EvGenerate (calls w + k)]) w).
Proof.
  induction k as [|k IH]; intros retries w text v Hk Hr Hg Hv;
    (rewrite retry_loop_step; [|lia]).
  - unfold try_except, bind, call_model, lift.
    rewrite Nat.add_0_r in Hg. rewrite Hg, Hv.
    unfold after_calls, count_call, emit; simpl.
    rewrite Nat.add_0_r. repeat f_equal. lia.
  - unfold try_except, bind at 1. unfold call_model.
    destruct (Hr (calls w)) as [e He]; [lia|]. rewrite He.
    destruct (lt_dec retries max_retries); [|lia].
    unfold bind, sleep, modify.
    erewrite IH; [| lia | | simpl; rewrite <- Hg; f_equal; lia | exact Hv].
    + unfold after_calls; simpl. f_equal. f_equal; [lia|].
      rewrite <- !app_assoc. simpl. repeat f_equal. lia.
    + intros n Hn. apply Hr. simpl in *. lia.
Qed.

(** Every attempt fails: [max_retries + 1] attempts, a sleep between
    consecutive ones, then [None]. *)
Lemma retry_loop_exhausted k : forall retries w,
  (retries + k = max_retries)%nat ->
  raising E api_key image (calls w) (S k) ->
  retry_loop E api_key image max_retries retries w =
    (Ret PNone,
     after_calls (S k)
       (backoff k (calls w) retries ++ [EvGenerate (calls w + k)]) w).
Proof.
  induction k as [|k IH]; intros retries w Hk Hr;
    (rewrite retry_loop_step; [|lia]).
  - unfold try_except, bind, call_model.
    destruct (Hr (calls w)) as [e He]; [lia|]. rewrite He.
    destruct (lt_dec retries max_retries); [lia|].
    unfold ret, after_calls, count_call, emit; simpl.
    rewrite Nat.add_0_r. repeat f_equal. lia.
  - unfold try_except, bind at 1. unfold call_model.
    destruct (Hr (calls w)) as [e He]; [lia|]. rewrite He.
    destruct (lt_dec retries max_retries); [|lia].
    unfold bind, sleep, modify.
    rewrite IH; [|lia|].
    + unfold after_calls; simpl. f_equal. f_equal; [lia|].
      rewrite <- !app_assoc. simpl. repeat f_equal. lia.
    + intros n Hn. apply Hr. simpl in *. lia.
Qed.

(** The loop returns a value in every world: it never raises. *)
Lemma retry_loop_returns k : forall retries w,
  (S max_retries - retries <= k)%nat ->
  exists v w', retry_loop E api_key image max_retries retries w = (Ret v, w').
Proof.
  induction k as [|k IH]; intros retries w Hk;
    rewrite retry_loop_equation_1.
  - assert (Hf : Nat.leb retries max_retries = false)
      by (apply Nat.leb_gt; lia).
    rewrite Hf. unfold ret. eauto.
  - destruct (Nat.leb retries max_retries) eqn:Hle; [|unfold ret; eauto].
    unfold try_except, bind at 1.
    destruct (call_model E api_key image w) as [[text|e] w1].
    + unfold lift. destruct (interpret_response E text); [eauto|].
      destruct (lt_dec retries max_retries); [|unfold ret; eauto].
      unfold bind, sleep, modify. apply IH. lia.
    + destruct (lt_dec retries max_retries); [|unfold ret; eauto].
      unfold bind, sleep, modify. apply IH. lia.
Qed.

End RetryLoop.

Lemma terminal_response_none E text :
  terminal_response E text -> interpret_response E text = Ret PNone.
Proof.
  unfold interpret_response. intros [-> | [Hs | Hj]]; [reflexivity | |].
  - rewrite Hs. destruct text; reflexivity.
  - rewrite Hj. destruct text; [reflexivity|].
    destruct (sanitize _); reflexivity.
Qed.

(** C1.  When the image encodes, the client is configured and the model
    raises on every call, [analyze_image] with the default
    [max_retries = 5] makes exactly 6 calls, sleeps 1, 2, 4, 8 and 16
    seconds between consecutive calls, and returns [None]. *)
Theorem C1_six_attempts_with_doubling_sleeps
    (E : externals) (image_file : uploaded_file) (api_key : pystr)
    (w : world) (b : bytes) :
  getvalue image_file = Ret b ->
  genai_configure E api_key = Ret tt ->
  (forall n, exists e,
      generate_content E n api_key (b64encode E b) = Raise e) ->
  let c := calls w in
  let trace :=
    [EvGenerate c; EvSleep 1; EvGenerate (c + 1); EvSleep 2;
     EvGenerate (c + 2); EvSleep 4; EvGenerate (c + 3); EvSleep 8;
     EvGenerate (c + 4); EvSleep 16; EvGenerate (c + 5)] in
  analyze_image E image_file api_key 5 w = (Ret PNone, after_calls 6 trace w)
  /\ length (model_calls trace) = 6%nat
  /\ sleeps trace = [1; 2; 4; 8; 16].
Proof.
  intros Hb Hc Hdown c trace. split; [|split; reflexivity].
  unfold analyze_image, encode_image. rewrite Hb, Hc.
  rewrite (retry_loop_exhausted E api_key (b64encode E b) 5 5 0 w);
    [| reflexivity | intros n _; apply Hdown].
  unfold trace, c. simpl.
  rewrite !Nat.add_succ_r, Nat.add_0_r. reflexivity.
Qed.

Lemma C1_witness :
  analyze_image (sample_env true model_down) (photo "a.jpg") (py "key") 5
    sample_world
  = (Ret PNone,
     after_calls 6
       [EvGenerate 0; EvSleep 1; EvGenerate 1; EvSleep 2; EvGenerate 2;
        EvSleep 4; EvGenerate 3; EvSleep 8; EvGenerate 4; EvSleep 16;
        EvGenerate 5] sample_world).
Proof.
  apply (C1_six_attempts_with_doubling_sleeps
           (sample_env true model_down) (photo "a.jpg") (py "key")
           sample_world []).
  - reflexivity.
  - reflexivity.
  - intros n. eexists. reflexivity.
Defined.

(** C2.  [analyze_image] returns [None] without raising, and without a
    further call or sleep, on the attempt whose response is empty, empty
    once sanitized, or rejected by the JSON parser; when the image
    cannot be encoded or the client cannot be configured it returns
    [None] before any model call. *)
Theorem C2_terminal_failures_are_not_retried
    (E : externals) (image_file : uploaded_file) (api_key : pystr)
    (max_retries : nat) (w : world) :
  (forall e, getvalue image_file = Raise e ->
     analyze_image E image_file api_key max_retries w = (Ret PNone, w))
  /\ (forall e, genai_configure E api_key = Raise e ->
        analyze_image E image_file api_key max_retries w = (Ret PNone, w))
  /\ (forall b text k,
        getvalue image_file = Ret b ->
        genai_configure E api_key = Ret tt ->
        (k <= max_retries)%nat ->
        raising E api_key (b64encode E b) (calls w) k ->
        generate_content E (calls w + k) api_key (b64encode E b) = Ret text ->
        terminal_response E text ->
        analyze_image E image_file api_key max_retries w =
          (Ret PNone,
           after_calls (S k)
             (backoff k (calls w) 0 ++ [EvGenerate (calls w + k)]) w)).
Proof.
  unfold analyze_image, encode_image. repeat split.
  - intros e ->. reflexivity.
  - intros e ->. destruct (getvalue image_file); reflexivity.
  - intros b text k -> -> Hk Hr Hg Ht.
    apply (retry_loop_answer E api_key (b64encode E b) max_retries k 0 w text);
      [lia | exact Hr | exact Hg | apply terminal_response_none, Ht].
Qed.

Lemma C2_witness :
  analyze_image (sample_env true (model_says (py "not json at all")))
    (photo "a.jpg") (py "key") 5 sample_world
  = (Ret PNone, after_calls 1 [EvGenerate 0] sample_world)
  /\ analyze_image (sample_env true model_down)
       (mkUpload (py "a.jpg") (Raise ValueError)) (py "key") 5 sample_world
     = (Ret PNone, sample_world).
Proof.
  split.
  - apply (proj2 (proj2 (C2_terminal_failures_are_not_retried
             (sample_env true (model_says (py "not json at all")))
             (photo "a.jpg") (py "key") 5 sample_world)) [] (py "not json at all") 0%nat).
    + reflexivity.
    + reflexivity.
    + lia.
    + intros n Hn. simpl in Hn. lia.
    + reflexivity.
    + right. right. vm_compute. reflexivity.
  - apply (proj1 (C2_terminal_failures_are_not_retried
             (sample_env true model_down)
             (mkUpload (py "a.jpg") (Raise ValueError)) (py "key") 5
             sample_world) ValueError).
    reflexivity.
Defined.

(** *** Computations that return, and computations that ignore the
    session's result list *)

Section Combinators.

Context {A B : Type}.

Lemma returns_ret (a : A) : returns (ret a).
Proof. intros w. unfold ret. eauto. Qed.

Lemma returns_modify f : returns (modify f).
Proof. intros w. unfold modify. eauto. Qed.

Lemma returns_gets (f : world -> A) : returns (gets f).
Proof. intros w. unfold gets. eauto. Qed.

Lemma returns_bind (m : M A) (f : A -> M B) :
  returns m -> (forall a, returns (f a)) -> returns (bind m f).
Proof.
  intros Hm Hf w. unfold bind.
  destruct (Hm w) as (a & w' & ->). apply Hf.
Qed.

Lemma returns_try_except (body : M A) handler :
  (forall e, returns (handler e)) -> returns (try_except body handler).
Proof.
  intros Hh w. unfold try_except.
  destruct (body w) as [[a|e] w']; [eauto | apply Hh].
Qed.

Lemma returns_try_finally (body : M A) cleanup :
  returns body -> returns cleanup -> returns (try_finally body cleanup).
Proof.
  intros Hb Hc w. unfold try_finally.
  destruct (Hb w) as (a & w' & ->).
  destruct (Hc w') as ([] & w'' & ->). eauto.
Qed.

Lemma ignores_ret (a : A) : ignores_session (ret a).
Proof. intros l w. reflexivity. Qed.

Lemma ignores_raise e : ignores_session (@raise A e).
Proof. intros l w. reflexivity. Qed.

Lemma ignores_lift (r : result A) : ignores_session (lift r).
Proof. intros l w. reflexivity. Qed.

Lemma ignores_bind (m : M A) (f : A -> M B) :
  ignores_session m -> (forall a, ignores_session (f a)) ->
  ignores_session (bind m f).
Proof.
  intros Hm Hf l w. unfold bind. rewrite Hm.
  destruct (m w) as [[a|e] w']; simpl; [apply Hf | reflexivity].
Qed.

Lemma ignores_try_except (body : M A) handler :
  ignores_session body -> (forall e, ignores_session (handler e)) ->
  ignores_session (try_except body handler).
Proof.
  intros Hb Hh l w. unfold try_except. rewrite Hb.
  destruct (body w) as [[a|e] w']; simpl; [reflexivity | apply Hh].
Qed.

Lemma ignores_try_finally (body : M A) cleanup :
  ignores_session body -> ignores_session cleanup ->
  ignores_session (try_finally body cleanup).
Proof.
  intros Hb Hc l w. unfold try_finally. rewrite Hb.
  destruct (body w) as [r w']; simpl. rewrite Hc.
  destruct (cleanup w') as [[[]|e] w'']; reflexivity.
Qed.

End Combinators.

Lemma ignores_set_fs f : ignores_session (modify (set_fs f)).
Proof. intros l w. reflexivity. Qed.

Lemma ignores_emit e : ignores_session (modify (emit e)).
Proof. intros l w. reflexivity. Qed.

Lemma ignores_temp_dir : ignores_session (gets temp_dir).
Proof. intros l w. reflexivity. Qed.

Lemma ignores_path_exists path : ignores_session (path_exists path).
Proof. intros l w. reflexivity. Qed.

Lemma ignores_read_file path : ignores_session (read_file path).
Proof.
  intros l w. unfold read_file. simpl.
  destruct (fs w !! path); reflexivity.
Qed.

Lemma ignores_call_model E api_key image :
  ignores_session (call_model E api_key image).
Proof. intros l w. reflexivity. Qed.

Create HintDb session discriminated.

#[local] Hint Resolve ignores_ret ignores_raise ignores_lift ignores_set_fs
  ignores_emit ignores_temp_dir ignores_path_exists ignores_read_file
  ignores_call_model : session.

(** Decompose a goal about a computation along its combinators. *)
Ltac session_step :=
  match goal with
  | |- ignores_session (bind _ _) => apply ignores_bind; [|intros ?]
  | |- ignores_session (try_except _ _) => apply ignores_try_except; [|intros ?]
  | |- ignores_session (try_finally _ _) => apply ignores_try_finally
  | |- ignores_session (if ?c then _ else _) => destruct c
  | |- ignores_session (match ?r with Ret _ => _ | Raise _ => _ end) => destruct r
  | |- ignores_session (match ?o with Some _ => _ | None => _ end) => destruct o
  | |- ignores_session _ => solve [auto with session]
  end.

Ltac session := repeat session_step.

Section Pipelines.

Variable E : externals.

Lemma ignores_retry_loop api_key image max_retries k : forall retries,
  (S max_retries - retries <= k)%nat ->
  ignores_session (retry_loop E api_key image max_retries retries).
Proof.
  induction k as [|k IH]; intros retries Hk; rewrite retry_loop_equation_1.
  - assert (Hf : Nat.leb retries max_retries = false)
      by (apply Nat.leb_gt; lia).
    rewrite Hf. session.
  - destruct (Nat.leb retries max_retries); [|session].
    apply ignores_try_except; [session|]. intros _.
    destruct (lt_dec retries max_retries); [|session].
    apply ignores_bind; [unfold sleep; session|]. intros _.
    apply IH. lia.
Qed.

Lemma ignores_analyze_image image_file api_key max_retries :
  ignores_session (analyze_image E image_file api_key max_retries).
Proof.
  unfold analyze_image. session.
  eapply ignores_retry_loop. reflexivity.
Qed.

Lemma ignores_write_file opened path data :
  ignores_session (write_file opened path data).
Proof. unfold write_file. session. Qed.

Lemma ignores_remove_if_exists path : ignores_session (remove_if_exists path).
Proof. unfold remove_if_exists, os_remove. session. Qed.

Lemma ignores_library_save outcome leftover path content :
  ignores_session (library_save outcome leftover path content).
Proof.
  unfold library_save. destruct outcome as [[]|e]; session.
  intros l w. reflexivity.
Qed.

Lemma ignores_report_failure image_file e :
  ignores_session (report_failure image_file e).
Proof. unfold report_failure. session. Qed.

Hint Resolve ignores_analyze_image ignores_write_file ignores_remove_if_exists
  ignores_library_save ignores_report_failure : session.

Lemma ignores_write_image_metadata image_file output_path metadata :
  ignores_session (write_image_metadata E image_file output_path metadata).
Proof. unfold write_image_metadata, write_jpeg, write_png. session. Qed.

Lemma ignores_remove_metadata_image image_file output_path :
  ignores_session (remove_metadata_image E image_file output_path).
Proof. unfold remove_metadata_image. session. Qed.

Lemma ignores_process_raw_cr2 image_file output_path :
  ignores_session (process_raw_cr2 E image_file output_path).
Proof. unfold process_raw_cr2. session. Qed.

Hint Resolve ignores_write_image_metadata ignores_remove_metadata_image
  ignores_process_raw_cr2 : session.


Lemma ignores_strip_file output_dir file :
  ignores_session (strip_file E output_dir file).
Proof. unfold strip_file. session. Qed.

End Pipelines.

(** *** Computations that leave the session directory as it is *)

Section FixesDir.

Context {A B : Type}.

Lemma fixes_dir_ret (a : A) : fixes_dir (ret a).
Proof. intros w. reflexivity. Qed.

Lemma fixes_dir_raise e : fixes_dir (@raise A e).
Proof. intros w. reflexivity. Qed.

Lemma fixes_dir_lift (r : result A) : fixes_dir (lift r).
Proof. intros w. reflexivity. Qed.

Lemma fixes_dir_gets (f : world -> A) : fixes_dir (gets f).
Proof. intros w. reflexivity. Qed.

Lemma fixes_dir_bind (m : M A) (f : A -> M B) :
  fixes_dir m -> (forall a, fixes_dir (f a)) -> fixes_dir (bind m f).
Proof.
  intros Hm Hf w. unfold bind. specialize (Hm w).
  destruct (m w) as [[a|e] w1]; cbn [snd] in *; [|exact Hm].
  rewrite Hf. exact Hm.
Qed.

Lemma fixes_dir_try_except (body : M A) handler :
  fixes_dir body -> (forall e, fixes_dir (handler e)) ->
  fixes_dir (try_except body handler).
Proof.
  intros Hb Hh w. unfold try_except. specialize (Hb w).
  destruct (body w) as [[a|e] w1]; cbn [snd] in *; [exact Hb|].
  rewrite Hh. exact Hb.
Qed.

Lemma fixes_dir_try_finally (body : M A) cleanup :
  fixes_dir body -> fixes_dir cleanup ->
  fixes_dir (try_finally body cleanup).
Proof.
  intros Hb Hc w. unfold try_finally. specialize (Hb w).
  destruct (body w) as [r w1]; cbn [snd] in *. specialize (Hc w1).
  destruct (cleanup w1) as [[[]|e] w2]; cbn [snd] in *; congruence.
Qed.

End FixesDir.

Lemma fixes_dir_set_fs f : fixes_dir (modify (set_fs f)).
Proof. intros w. reflexivity. Qed.

Lemma fixes_dir_emit e : fixes_dir (modify (emit e)).
Proof. intros w. reflexivity. Qed.

Lemma fixes_dir_read_file path : fixes_dir (read_file path).
Proof. intros w. unfold read_file. destruct (fs w !! path); reflexivity. Qed.

Lemma fixes_dir_call_model E api_key image :
  fixes_dir (call_model E api_key image).
Proof. intros w. reflexivity. Qed.

Create HintDb dirs discriminated.

#[local] Hint Resolve fixes_dir_ret fixes_dir_raise fixes_dir_lift
  fixes_dir_gets fixes_dir_set_fs fixes_dir_emit fixes_dir_read_file
  fixes_dir_call_model : dirs.

Ltac dirs_step :=
  match goal with
  | |- fixes_dir (bind _ _) => apply fixes_dir_bind; [|intros ?]
  | |- fixes_dir (try_except _ _) => apply fixes_dir_try_except; [|intros ?]
  | |- fixes_dir (try_finally _ _) => apply fixes_dir_try_finally
  | |- fixes_dir (if ?c then _ else _) => destruct c
  | |- fixes_dir (match ?r with Ret _ => _ | Raise _ => _ end) => destruct r
  | |- fixes_dir (match ?o with Some _ => _ | None => _ end) => destruct o
  | |- fixes_dir _ => solve [auto with dirs]
  end.

Ltac dirs := repeat dirs_step.

Section FixesDirPipelines.

Variable E : externals.

Lemma fixes_dir_retry_loop api_key image max_retries k : forall retries,
  (S max_retries - retries <= k)%nat ->
  fixes_dir (retry_loop E api_key image max_retries retries).
Proof.
  induction k as [|k IH]; intros retries Hk; rewrite retry_loop_equation_1.
  - assert (Hf : Nat.leb retries max_retries = false)
      by (apply Nat.leb_gt; lia).
    rewrite Hf. dirs.
  - destruct (Nat.leb retries max_retries); [|dirs].
    apply fixes_dir_try_except; [dirs|]. intros _.
    destruct (lt_dec retries max_retries); [|dirs].
    apply fixes_dir_bind; [unfold sleep; dirs|]. intros _.
    apply IH. lia.
Qed.

Lemma fixes_dir_analyze_image image_file api_key max_retries :
  fixes_dir (analyze_image E image_file api_key max_retries).
Proof.
  unfold analyze_image. dirs.
  eapply fixes_dir_retry_loop. reflexivity.
Qed.

Lemma fixes_dir_write_file opened path data :
  fixes_dir (write_file opened path data).
Proof. unfold write_file. dirs. Qed.

Lemma fixes_dir_remove_if_exists path : fixes_dir (remove_if_exists path).
Proof. unfold remove_if_exists, path_exists, os_remove. dirs. Qed.

Lemma fixes_dir_library_save outcome leftover path content :
  fixes_dir (library_save outcome leftover path content).
Proof. unfold library_save. destruct outcome as [[]|e]; dirs. Qed.

Lemma fixes_dir_report_failure image_file e :
  fixes_dir (report_failure image_file e).
Proof. unfold report_failure. dirs. Qed.

Hint Resolve fixes_dir_analyze_image fixes_dir_write_file
  fixes_dir_remove_if_exists fixes_dir_library_save
  fixes_dir_report_failure : dirs.

Lemma fixes_dir_write_image_metadata image_file output_path metadata :
  fixes_dir (write_image_metadata E image_file output_path metadata).
Proof. unfold write_image_metadata, write_jpeg, write_png. dirs. Qed.

Lemma fixes_dir_remove_metadata_image image_file output_path :
  fixes_dir (remove_metadata_image E image_file output_path).
Proof. unfold remove_metadata_image. dirs. Qed.

Lemma fixes_dir_process_raw_cr2 image_file output_path :
  fixes_dir (process_raw_cr2 E image_file output_path).
Proof. unfold process_raw_cr2. dirs. Qed.

Hint Resolve fixes_dir_write_image_metadata fixes_dir_remove_metadata_image
  fixes_dir_process_raw_cr2 : dirs.

Lemma fixes_dir_tag_file output_dir api_key file :
  fixes_dir (tag_file E output_dir api_key file).
Proof. unfold tag_file. dirs. Qed.

Lemma fixes_dir_strip_file output_dir file :
  fixes_dir (strip_file E output_dir file).
Proof. unfold strip_file. dirs. Qed.

End FixesDirPipelines.

(** *** The batch loops *)

Section Batches.

Variable E : externals.

Lemma returns_analyze_image image_file api_key max_retries :
  returns (analyze_image E image_file api_key max_retries).
Proof.
  intros w. unfold analyze_image.
  destruct (encode_image E image_file); [|apply returns_ret].
  destruct (genai_configure E api_key); [|apply returns_ret].
  eapply retry_loop_returns. reflexivity.
Qed.

Lemma returns_remove_if_exists path : returns (remove_if_exists path).
Proof.
  intros w. unfold remove_if_exists, bind, path_exists, gets, os_remove, modify.
  destruct (bool_decide _); unfold ret; eauto.
Qed.

Lemma returns_report_failure image_file e :
  returns (report_failure image_file e).
Proof. intros w. unfold report_failure, bind, modify, ret. eauto. Qed.

Lemma returns_write_file path b : returns (write_file (Ret tt) path (Ret b)).
Proof. intros w. unfold write_file, bind, modify, lift. eauto. Qed.

(** A pipeline guarded by [except Exception] and followed by the cleanup
    returns. *)
Lemma returns_guarded (body : M bool) image_file path :
  returns (try_finally (try_except body (report_failure image_file))
             (remove_if_exists path)).
Proof.
  apply returns_try_finally; [|apply returns_remove_if_exists].
  apply returns_try_except. apply returns_report_failure.
Qed.

(** The scratch copy, then the guarded body: a per-file function
    returns when the scratch copy can be opened and the upload read. *)
Ltac returns_scratch Ho Hb Hd :=
  unfold bind at 1, gets; rewrite Hd; cbv zeta;
  unfold opens in Ho; rewrite Ho, Hb;
  apply returns_bind; [apply returns_write_file|]; intros _;
  apply returns_guarded.

Lemma returns_write_image_metadata image_file output_path metadata dir :
  opens E dir image_file -> readable image_file ->
  returns_in dir (write_image_metadata E image_file output_path metadata).
Proof.
  intros Ho [b Hb] w Hd. unfold write_image_metadata.
  returns_scratch Ho Hb Hd.
Qed.

Lemma returns_remove_metadata_image image_file output_path dir :
  opens E dir image_file -> readable image_file ->
  returns_in dir (remove_metadata_image E image_file output_path).
Proof.
  intros Ho [b Hb] w Hd. unfold remove_metadata_image.
  returns_scratch Ho Hb Hd.
Qed.

Lemma returns_process_raw_cr2 image_file output_path dir :
  opens E dir image_file -> readable image_file ->
  returns_in dir (process_raw_cr2 E image_file output_path).
Proof.
  intros Ho [b Hb] w Hd. unfold process_raw_cr2.
  destruct (negb (RAW_SUCCESS E)); [apply returns_ret|].
  returns_scratch Ho Hb Hd.
Qed.

(** The tagging pipeline returns for every file whose scratch copy can be
    opened: the writer runs only after the analysis has read the file. *)
Lemma returns_tag_file output_dir api_key file dir :
  opens E dir file ->
  returns_in dir (tag_file E output_dir api_key file).
Proof.
  intros Ho w Hd. unfold tag_file, bind.
  pose proof (fixes_dir_analyze_image E file api_key 5 w) as Hfix.
  destruct (getvalue file) as [b|e] eqn:Hb.
  - destruct (returns_analyze_image file api_key 5 w) as (metadata & w1 & Hrun).
    rewrite Hrun in *. cbn [snd] in Hfix.
    destruct (truthy metadata); [|unfold ret; eauto].
    apply (returns_write_image_metadata file _ metadata dir Ho);
      [exists b; exact Hb | congruence].
  - unfold analyze_image, encode_image. rewrite Hb.
    simpl. unfold ret. eauto.
Qed.

Lemma returns_strip_file output_dir file dir :
  opens E dir file -> readable file ->
  returns_in dir (strip_file E output_dir file).
Proof.
  intros Ho Hr. unfold strip_file. destruct (is_raw file).
  - apply returns_process_raw_cr2; assumption.
  - apply returns_remove_metadata_image; assumption.
Qed.

(** The loop of both orchestration functions: the result list is the
    list of the outputs of the files whose pipeline succeeded. *)
Lemma for_fold_collect (pipeline : uploaded_file -> M bool)
    (out : uploaded_file -> pystr) files : forall acc w,
  (forall file, file ∈ files ->
     returns_in (temp_dir w) (pipeline file) /\ fixes_dir (pipeline file)) ->
  for_fold files
    (fun file processed_files =>
       bind (pipeline file)
         (fun success : bool =>
            if success then ret (processed_files ++ [out file])
            else ret processed_files))
    acc w
  = (Ret (acc ++ successes (map out files) (outcomes pipeline files w)),
     world_after pipeline files w).
Proof.
  induction files as [|file files IH]; intros acc w Hret; simpl.
  - unfold ret. rewrite app_nil_r. reflexivity.
  - unfold bind at 1. unfold bind at 1.
    destruct (Hret file ltac:(left)) as [Hfile Hfix].
    destruct (Hfile w eq_refl) as (success & w' & Hrun).
    specialize (Hfix w). rewrite Hrun in *. cbn [snd] in Hfix.
    assert (Hrest : forall f, f ∈ files ->
                      returns_in (temp_dir w') (pipeline f)
                      /\ fixes_dir (pipeline f))
      by (intros f Hf; rewrite Hfix; apply Hret; right; exact Hf).
    destruct success; unfold ret; rewrite IH by exact Hrest.
    + rewrite <- app_assoc. reflexivity.
    + reflexivity.
Qed.

(** The loop that has run to its end has collected the successes. *)
Lemma for_fold_collected (pipeline : uploaded_file -> M bool)
    (out : uploaded_file -> pystr) files : forall acc w l w',
  for_fold files
    (fun file processed_files =>
       bind (pipeline file)
         (fun success : bool =>
            if success then ret (processed_files ++ [out file])
            else ret processed_files))
    acc w
  = (Ret l, w') ->
  l = acc ++ successes (map out files) (outcomes pipeline files w)
  /\ w' = world_after pipeline files w.
Proof.
  induction files as [|file files IH]; intros acc w l w'; simpl.
  - unfold ret. intros [= <- <-]. rewrite app_nil_r. auto.
  - unfold bind at 1. unfold bind at 1.
    destruct (pipeline file w) as [[success|e] w1]; [|discriminate].
    destruct success; unfold ret; intros H; apply IH in H as [-> ->].
    + rewrite <- app_assoc. auto.
    + auto.
Qed.




Lemma batch_returns (pipeline : uploaded_file -> M bool) files dir :
  Forall (fun file => returns_in dir (pipeline file)) files ->
  (forall file, fixes_dir (pipeline file)) ->
  forall file, file ∈ files ->
    returns_in dir (pipeline file) /\ fixes_dir (pipeline file).
Proof.
  intros Hret Hfix file Hf. split; [|apply Hfix].
  rewrite Forall_forall in Hret. apply Hret, Hf.
Qed.

Lemma tagging_returns files api_key output_dir dir :
  Forall (opens E dir) files ->
  forall file, file ∈ files ->
    returns_in dir (tag_file E output_dir api_key file)
    /\ fixes_dir (tag_file E output_dir api_key file).
Proof.
  intros Ho. apply batch_returns; [|intros file; apply fixes_dir_tag_file].
  eapply Forall_impl; [exact Ho|]. intros file Hf.
  apply returns_tag_file, Hf.
Qed.

Lemma stripping_returns files output_dir dir :
  Forall (opens E dir) files -> Forall readable files ->
  forall file, file ∈ files ->
    returns_in dir (strip_file E output_dir file)
    /\ fixes_dir (strip_file E output_dir file).
Proof.
  intros Ho Hr. apply batch_returns; [|intros file; apply fixes_dir_strip_file].
  rewrite Forall_forall in *. intros file Hf.
  apply returns_strip_file; [apply Ho | apply Hr]; exact Hf.
Qed.

Lemma process_tagging_run files api_key w :
  Forall (opens E (temp_dir w)) files ->
  let output_dir := OsPath.join (temp_dir w) (py "tagged_images") in
  process_tagging E files api_key w =
  (Ret tt,
   set_processed_files
     (successes (map (tagging_output output_dir) files)
        (outcomes (tag_file E output_dir api_key) files w))
     (world_after (tag_file E output_dir api_key) files w)).
Proof.
  intros Ho output_dir. unfold process_tagging, bind at 1, gets.
  unfold bind at 1.
  rewrite (for_fold_collect (tag_file E output_dir api_key)
             (tagging_output output_dir));
    [reflexivity|]. apply tagging_returns, Ho.
Qed.

(** A batch that returns has listed the outputs of its successes. *)
Lemma process_tagging_returned files api_key w w' :
  process_tagging E files api_key w = (Ret tt, w') ->
  let output_dir := OsPath.join (temp_dir w) (py "tagged_images") in
  processed_files w'
  = successes (map (tagging_output output_dir) files)
      (outcomes (tag_file E output_dir api_key) files w).
Proof.
  intros H output_dir. unfold process_tagging, bind at 1, gets in H.
  unfold bind at 1 in H. fold output_dir in H.
  destruct (for_fold _ _ _ w) as [[l|e] w1] eqn:Hloop; [|discriminate].
  apply (for_fold_collected (tag_file E output_dir api_key)
           (tagging_output output_dir)) in Hloop as [-> ->].
  unfold modify in H. injection H as <-. reflexivity.
Qed.

Lemma process_stripping_run files w :
  Forall (opens E (temp_dir w)) files ->
  Forall readable files ->
  let output_dir := OsPath.join (temp_dir w) (py "stripped_images") in
  process_stripping E files w =
  (Ret tt,
   set_processed_files
     (successes (map (stripping_output output_dir) files)
        (outcomes (strip_file E output_dir) files w))
     (world_after (strip_file E output_dir) files w)).
Proof.
  intros Ho Hr output_dir. unfold process_stripping, bind at 1, gets.
  unfold bind at 1.
  rewrite (for_fold_collect (strip_file E output_dir)
             (stripping_output output_dir));
    [reflexivity|]. apply stripping_returns; assumption.
Qed.

End Batches.



(** The batch scenario of the specification: three JPEG files, the model
    answers well for the first and the third and with malformed text for
    the second. *)
Example batch_scenario :
  processed_files
    (snd (process_tagging
            (sample_env true
               (model_script [Ret (py "ok"); Ret (py "not json at all");
                              Ret (py "ok")]))
            [photo "1.jpg"; photo "2.jpg"; photo "3.jpg"] (py "key")
            sample_world))
  = [py "/tmp/session/tagged_images/1.jpg";
     py "/tmp/session/tagged_images/3.jpg"].
Proof. vm_compute. reflexivity. Qed.

(** *** The metadata writer: which fields are written *)

Section Fields.

Variable d : gmap pystr pyval.

Lemma py_get_dict key : py_get (PDict d) key = Ret (default PNone (d !! key)).
Proof. reflexivity. Qed.

(** Under the guard [if metadata.get(key)], [metadata[key]] is the value
    the guard saw. *)
Lemma py_getitem_truthy key :
  truthy (default PNone (d !! key)) = true ->
  py_getitem (PDict d) key = Ret (default PNone (d !! key)).
Proof.
  unfold py_getitem. destruct (d !! key); simpl; [reflexivity | discriminate].
Qed.

Lemma set_text_skip key field data :
  truthy (default PNone (d !! key)) = false ->
  set_text (PDict d) key field data = Ret data.
Proof. intros H. unfold set_text. simpl. rewrite H. reflexivity. Qed.

Lemma set_text_write key field data :
  truthy (default PNone (d !! key)) = true ->
  set_text (PDict d) key field data =
  rbind (recode (default PNone (d !! key)))
    (fun s => Ret (<[field := IText s]> data)).
Proof.
  intros H. unfold set_text. rewrite py_get_dict. cbn [rbind]. rewrite H.
  rewrite (py_getitem_truthy key H). reflexivity.
Qed.

Lemma set_keywords_skip data :
  truthy (default PNone (d !! py "keywords")) = false
  \/ is_list (default PNone (d !! py "keywords")) = false ->
  set_keywords (PDict d) data = Ret data.
Proof.
  intros H. unfold set_keywords. rewrite py_get_dict. cbn [rbind].
  destruct (truthy (default PNone (d !! py "keywords"))) eqn:Ht;
    [|reflexivity].
  rewrite (py_getitem_truthy _ Ht). cbn [rbind].
  destruct H as [H|H]; [discriminate|]. rewrite H. reflexivity.
Qed.

Lemma set_keywords_write data :
  truthy (default PNone (d !! py "keywords")) = true ->
  is_list (default PNone (d !! py "keywords")) = true ->
  set_keywords (PDict d) data =
  rbind (rmap recode (list_items (default PNone (d !! py "keywords"))))
    (fun l => Ret (<[py "keywords" := IList l]> data)).
Proof.
  intros Ht Hl. unfold set_keywords. rewrite py_get_dict. cbn [rbind].
  rewrite Ht, (py_getitem_truthy _ Ht). cbn [rbind]. rewrite Hl. reflexivity.
Qed.

Lemma add_text_skip key pnginfo :
  truthy (default PNone (d !! key)) = false ->
  add_text (PDict d) key pnginfo = Ret pnginfo.
Proof. intros H. unfold add_text. simpl. rewrite H. reflexivity. Qed.

Lemma add_text_write key pnginfo :
  truthy (default PNone (d !! key)) = true ->
  add_text (PDict d) key pnginfo =
  rbind (recode (default PNone (d !! key)))
    (fun s => Ret (pnginfo ++ [(key, s)])).
Proof.
  intros H. unfold add_text. rewrite py_get_dict. cbn [rbind]. rewrite H.
  rewrite (py_getitem_truthy key H). reflexivity.
Qed.

Lemma add_keywords_skip pnginfo :
  truthy (default PNone (d !! py "keywords")) = false ->
  add_keywords (PDict d) pnginfo = Ret pnginfo.
Proof.
  intros H. unfold add_keywords. rewrite py_get_dict. cbn [rbind].
  rewrite H. reflexivity.
Qed.

Lemma add_keywords_list pnginfo :
  truthy (default PNone (d !! py "keywords")) = true ->
  is_list (default PNone (d !! py "keywords")) = true ->
  add_keywords (PDict d) pnginfo =
  rbind (rmap recode (list_items (default PNone (d !! py "keywords"))))
    (fun l => Ret (pnginfo ++ [(py "keywords", PyStr.join (py ", ") l)])).
Proof.
  intros Ht Hl. unfold add_keywords. rewrite py_get_dict. cbn [rbind].
  rewrite Ht, (py_getitem_truthy _ Ht). cbn [rbind]. rewrite Hl. reflexivity.
Qed.

Lemma add_keywords_scalar pnginfo :
  truthy (default PNone (d !! py "keywords")) = true ->
  is_list (default PNone (d !! py "keywords")) = false ->
  add_keywords (PDict d) pnginfo =
  rbind (recode (default PNone (d !! py "keywords")))
    (fun s => Ret (pnginfo ++ [(py "keywords", s)])).
Proof.
  intros Ht Hl. unfold add_keywords. rewrite py_get_dict. cbn [rbind].
  rewrite Ht, (py_getitem_truthy _ Ht). cbn [rbind]. rewrite Hl. reflexivity.
Qed.

End Fields.

(** A key with a falsy value and no key at all look the same to
    [metadata.get]. *)
Lemma falsy_like_absent (d : gmap pystr pyval) k v key :
  truthy v = false ->
  truthy (default PNone (<[k := v]> d !! key)) = true
  \/ truthy (default PNone (delete k d !! key)) = true ->
  <[k := v]> d !! key = delete k d !! key.
Proof.
  intros Hv H. destruct (decide (k = key)) as [->|Hne].
  - rewrite lookup_insert_eq, lookup_delete_eq in H. simpl in H.
    destruct H; congruence.
  - rewrite lookup_insert_ne, lookup_delete_ne by exact Hne. reflexivity.
Qed.

Lemma falsy_like_absent_truthy (d : gmap pystr pyval) k v key :
  truthy v = false ->
  truthy (default PNone (<[k := v]> d !! key))
  = truthy (default PNone (delete k d !! key)).
Proof.
  intros Hv. destruct (decide (k = key)) as [->|Hne].
  - rewrite lookup_insert_eq, lookup_delete_eq. exact Hv.
  - rewrite lookup_insert_ne, lookup_delete_ne by exact Hne. reflexivity.
Qed.

Section Falsy.

Variable d : gmap pystr pyval.
Variables (k : pystr) (v : pyval).
Hypothesis falsy : truthy v = false.

Lemma set_text_falsy key field data :
  set_text (PDict (<[k := v]> d)) key field data
  = set_text (PDict (delete k d)) key field data.
Proof.
  destruct (truthy (default PNone (delete k d !! key))) eqn:Ht.
  - rewrite (set_text_write (delete k d)) by exact Ht.
    rewrite (set_text_write (<[k := v]> d))
      by (rewrite (falsy_like_absent_truthy d k v key falsy); exact Ht).
    rewrite (falsy_like_absent d k v key falsy) by auto. reflexivity.
  - rewrite (set_text_skip (delete k d)) by exact Ht.
    rewrite (set_text_skip (<[k := v]> d))
      by (rewrite (falsy_like_absent_truthy d k v key falsy); exact Ht).
    reflexivity.
Qed.

Lemma add_text_falsy key pnginfo :
  add_text (PDict (<[k := v]> d)) key pnginfo
  = add_text (PDict (delete k d)) key pnginfo.
Proof.
  destruct (truthy (default PNone (delete k d !! key))) eqn:Ht.
  - rewrite (add_text_write (delete k d)) by exact Ht.
    rewrite (add_text_write (<[k := v]> d))
      by (rewrite (falsy_like_absent_truthy d k v key falsy); exact Ht).
    rewrite (falsy_like_absent d k v key falsy) by auto. reflexivity.
  - rewrite (add_text_skip (delete k d)) by exact Ht.
    rewrite (add_text_skip (<[k := v]> d))
      by (rewrite (falsy_like_absent_truthy d k v key falsy); exact Ht).
    reflexivity.
Qed.

Lemma set_keywords_falsy data :
  set_keywords (PDict (<[k := v]> d)) data
  = set_keywords (PDict (delete k d)) data.
Proof.
  unfold set_keywords. rewrite !py_get_dict. cbn [rbind].
  rewrite (falsy_like_absent_truthy d k v _ falsy).
  destruct (truthy (default PNone (delete k d !! py "keywords"))) eqn:Ht;
    [|reflexivity].
  unfold py_getitem.
  rewrite (falsy_like_absent d k v (py "keywords") falsy) by auto.
  reflexivity.
Qed.

Lemma add_keywords_falsy pnginfo :
  add_keywords (PDict (<[k := v]> d)) pnginfo
  = add_keywords (PDict (delete k d)) pnginfo.
Proof.
  unfold add_keywords. rewrite !py_get_dict. cbn [rbind].
  rewrite (falsy_like_absent_truthy d k v _ falsy).
  destruct (truthy (default PNone (delete k d !! py "keywords"))) eqn:Ht;
    [|reflexivity].
  unfold py_getitem.
  rewrite (falsy_like_absent d k v (py "keywords") falsy) by auto.
  reflexivity.
Qed.

Lemma jpeg_fields_falsy data :
  jpeg_fields (PDict (<[k := v]> d)) data = jpeg_fields (PDict (delete k d)) data.
Proof.
  unfold jpeg_fields. rewrite set_text_falsy.
  destruct (set_text (PDict (delete k d)) _ _ data) as [d1|]; [|reflexivity].
  simpl. rewrite set_keywords_falsy.
  destruct (set_keywords (PDict (delete k d)) d1) as [d2|]; [|reflexivity].
  simpl. rewrite set_text_falsy.
  destruct (set_text (PDict (delete k d)) _ _ d2) as [d3|]; [|reflexivity].
  simpl. rewrite set_text_falsy.
  destruct (set_text (PDict (delete k d)) _ _ d3) as [d4|]; [|reflexivity].
  simpl. apply set_text_falsy.
Qed.

Lemma png_chunks_falsy :
  png_chunks (PDict (<[k := v]> d)) = png_chunks (PDict (delete k d)).
Proof.
  unfold png_chunks. rewrite add_text_falsy.
  destruct (add_text (PDict (delete k d)) _ []) as [c1|]; [|reflexivity].
  simpl. rewrite add_keywords_falsy.
  destruct (add_keywords (PDict (delete k d)) c1) as [c2|]; [|reflexivity].
  simpl. rewrite add_text_falsy.
  destruct (add_text (PDict (delete k d)) _ c2) as [c3|]; [|reflexivity].
  simpl. rewrite add_text_falsy.
  destruct (add_text (PDict (delete k d)) _ c3) as [c4|]; [|reflexivity].
  simpl. apply add_text_falsy.
Qed.

End Falsy.

(** Pointwise equal computations stay so under the combinators. *)
Lemma bind_ext {A B} (m : M A) (f g : A -> M B) w :
  (forall a w', f a w' = g a w') -> bind m f w = bind m g w.
Proof.
  intros H. unfold bind. destruct (m w) as [[a|e] w']; [apply H | reflexivity].
Qed.

Lemma try_except_ext {A} (b1 b2 : M A) handler w :
  (forall w', b1 w' = b2 w') ->
  try_except b1 handler w = try_except b2 handler w.
Proof. intros H. unfold try_except. rewrite H. reflexivity. Qed.

Lemma try_finally_ext {A} (b1 b2 : M A) cleanup w :
  (forall w', b1 w' = b2 w') ->
  try_finally b1 cleanup w = try_finally b2 cleanup w.
Proof. intros H. unfold try_finally. rewrite H. reflexivity. Qed.

(** C10.  A key that maps to a falsy value (empty string, empty list,
    [None], [False], zero, empty dictionary) is treated by
    [write_image_metadata] exactly like an absent key: the call does the
    same, and leaves the same files, as on the record without the key. *)
Theorem C10_falsy_value_is_like_absent_key
    (E : externals) (image_file : uploaded_file) (output_path : pystr)
    (d : gmap pystr pyval) (k : pystr) (v : pyval) (w : world) :
  truthy v = false ->
  write_image_metadata E image_file output_path (PDict (<[k := v]> d)) w
  = write_image_metadata E image_file output_path (PDict (delete k d)) w.
Proof.
  intros Hv. unfold write_image_metadata.
  apply bind_ext. intros dir w1.
  apply bind_ext. intros _ w2.
  apply try_finally_ext. intros w3.
  apply try_except_ext. intros w4.
  destruct (is_jpeg_ext (extension image_file)).
  - unfold write_jpeg. apply bind_ext. intros src w5.
    apply bind_ext. intros data w6.
    rewrite (jpeg_fields_falsy d k v Hv). reflexivity.
  - destruct (is_png_ext (extension image_file)); [|reflexivity].
    unfold write_png. rewrite (png_chunks_falsy d k v Hv). reflexivity.
Qed.

Lemma C10_witness :
  write_image_metadata (sample_env true model_down) (photo "a.png")
    (py "/tmp/session/tagged_images/a.png")
    (PDict (<[py "caption" := PStr []]> {[py "credit" := PStr (py "club")]}))
    sample_world
  = write_image_metadata (sample_env true model_down) (photo "a.png")
      (py "/tmp/session/tagged_images/a.png")
      (PDict (delete (py "caption") {[py "credit" := PStr (py "club")]}))
      sample_world.
Proof.
  apply (C10_falsy_value_is_like_absent_key (sample_env true model_down)
           (photo "a.png") (py "/tmp/session/tagged_images/a.png")
           {[py "credit" := PStr (py "club")]} (py "caption") (PStr [])
           sample_world).
  reflexivity.
Defined.

(** *** What the two branches write *)

Lemma recode_inv v s : recode v = Ret s -> v = PStr s /\ encodable s.
Proof.
  destruct v; simpl; try discriminate.
  unfold encodable. destruct (existsb is_surrogate s0) eqn:Hs; [discriminate|].
  intros [= ->]. split; [reflexivity | exact Hs].
Qed.


Lemma rmap_recode_inv vs : forall l,
  rmap recode vs = Ret l -> texts_of vs = Some l.
Proof.
  induction vs as [|v vs IH]; simpl; intros l H.
  - injection H as <-. reflexivity.
  - destruct (recode v) as [s|] eqn:Hv; [|discriminate]. simpl in H.
    destruct (rmap recode vs) as [l'|]; [|discriminate]. simpl in H.
    injection H as <-. apply recode_inv in Hv as [-> _].
    simpl. rewrite (IH l' eq_refl). reflexivity.
Qed.


Section Written.

Variable d : gmap pystr pyval.

Lemma add_text_chunk key pnginfo chunks :
  add_text (PDict d) key pnginfo = Ret chunks ->
  chunks = pnginfo ++ expected_chunk d key
  /\ map fst (expected_chunk d key)
     = if truthy (default PNone (d !! key)) then [key] else [].
Proof.
  unfold expected_chunk.
  destruct (truthy (default PNone (d !! key))) eqn:Ht; intros H.
  - rewrite (add_text_write d key pnginfo Ht) in H.
    destruct (recode _) as [s|] eqn:Hs; [|discriminate].
    injection H as <-. apply recode_inv in Hs as [-> _].
    split; reflexivity.
  - rewrite (add_text_skip d key pnginfo Ht) in H. injection H as <-.
    rewrite app_nil_r. split; reflexivity.
Qed.

Lemma add_keywords_chunk pnginfo chunks :
  add_keywords (PDict d) pnginfo = Ret chunks ->
  chunks = pnginfo ++ expected_chunk d (py "keywords")
  /\ map fst (expected_chunk d (py "keywords"))
     = if truthy (default PNone (d !! py "keywords"))
       then [py "keywords"] else [].
Proof.
  unfold expected_chunk.
  destruct (truthy (default PNone (d !! py "keywords"))) eqn:Ht; intros H.
  - destruct (is_list (default PNone (d !! py "keywords"))) eqn:Hl.
    + rewrite (add_keywords_list d pnginfo Ht Hl) in H.
      destruct (default PNone (d !! py "keywords")) as [| | | | |vs|];
        try discriminate.
      cbn [list_items] in H.
      destruct (rmap recode vs) as [l|] eqn:Hvs; [|discriminate].
      injection H as <-. rewrite (rmap_recode_inv vs l Hvs).
      split; reflexivity.
    + rewrite (add_keywords_scalar d pnginfo Ht Hl) in H.
      destruct (recode _) as [s|] eqn:Hs; [|discriminate].
      injection H as <-. apply recode_inv in Hs as [-> _].
      split; reflexivity.
  - rewrite (add_keywords_skip d pnginfo Ht) in H. injection H as <-.
    rewrite app_nil_r. split; reflexivity.
Qed.

(** The chunks of a PNG that was written are [expected_chunks], one per
    key with a truthy value. *)
Lemma png_chunks_expected chunks :
  png_chunks (PDict d) = Ret chunks ->
  chunks = expected_chunks d
  /\ map fst chunks
     = List.filter (fun key => truthy (default PNone (d !! key))) field_keys.
Proof.
  unfold png_chunks. intros H.
  destruct (add_text (PDict d) (py "caption") []) as [c1|] eqn:H1;
    [|discriminate]. cbn [rbind] in H.
  destruct (add_keywords (PDict d) c1) as [c2|] eqn:H2;
    [|discriminate]. cbn [rbind] in H.
  destruct (add_text (PDict d) (py "byline") c2) as [c3|] eqn:H3;
    [|discriminate]. cbn [rbind] in H.
  destruct (add_text (PDict d) (py "credit") c3) as [c4|] eqn:H4;
    [|discriminate]. cbn [rbind] in H.
  apply add_text_chunk in H1 as [-> E1], H3 as [-> E3], H4 as [-> E4],
    H as [-> E5].
  apply add_keywords_chunk in H2 as [-> E2].
  unfold expected_chunks, field_keys. cbn [flat_map List.filter].
  split.
  - rewrite app_nil_r, <- !app_assoc. reflexivity.
  - rewrite !map_app, E1, E2, E3, E4, E5. cbn [app].
    repeat match goal with
           | |- context [truthy ?v] => destruct (truthy v)
           end; reflexivity.
Qed.

Lemma set_text_dataset key data data' :
  eqb key (py "keywords") = false ->
  set_text (PDict d) key (iptc_field key) data = Ret data' ->
  data' = match expected_dataset d key with
          | Some x => <[iptc_field key := x]> data
          | None => data
          end
  /\ (written_to_jpeg d key = true -> is_Some (expected_dataset d key)).
Proof.
  unfold expected_dataset, written_to_jpeg. intros ->.
  rewrite andb_true_r.
  destruct (truthy (default PNone (d !! key))) eqn:Ht; intros H.
  - rewrite (set_text_write d key _ data Ht) in H.
    destruct (recode _) as [s|] eqn:Hs; [|discriminate].
    injection H as <-. apply recode_inv in Hs as [-> _].
    split; [reflexivity | eauto].
  - rewrite (set_text_skip d key _ data Ht) in H. injection H as <-.
    split; [reflexivity | discriminate].
Qed.

Lemma set_keywords_dataset data data' :
  set_keywords (PDict d) data = Ret data' ->
  data' = match expected_dataset d (py "keywords") with
          | Some x => <[py "keywords" := x]> data
          | None => data
          end
  /\ (written_to_jpeg d (py "keywords") = true ->
      is_Some (expected_dataset d (py "keywords"))).
Proof.
  unfold expected_dataset, written_to_jpeg.
  change (eqb (py "keywords") (py "keywords")) with true. cbv iota.
  destruct (truthy (default PNone (d !! py "keywords"))) eqn:Ht; intros H.
  - destruct (is_list (default PNone (d !! py "keywords"))) eqn:Hl.
    + rewrite (set_keywords_write d data Ht Hl) in H.
      destruct (default PNone (d !! py "keywords")) as [| | | | |vs|];
        try discriminate.
      cbn [list_items] in H.
      destruct (rmap recode vs) as [l|] eqn:Hvs; [|discriminate].
      injection H as <-. rewrite (rmap_recode_inv vs l Hvs).
      split; [reflexivity | simpl; eauto].
    + rewrite (set_keywords_skip d data (or_intror Hl)) in H.
      injection H as <-. split; [reflexivity | discriminate].
  - rewrite (set_keywords_skip d data (or_introl Ht)) in H.
    injection H as <-. split; [reflexivity | discriminate].
Qed.

(** The datasets of a JPEG that was written are [expected_iptc]. *)
Lemma jpeg_fields_expected data0 data :
  jpeg_fields (PDict d) data0 = Ret data ->
  data = expected_iptc d data0
  /\ forall key, key ∈ field_keys -> written_to_jpeg d key = true ->
       is_Some (expected_dataset d key).
Proof.
  unfold jpeg_fields. intros H.
  destruct (set_text (PDict d) (py "caption") _ data0) as [d1|] eqn:H1;
    [|discriminate]. cbn [rbind] in H.
  destruct (set_keywords (PDict d) d1) as [d2|] eqn:H2;
    [|discriminate]. cbn [rbind] in H.
  destruct (set_text (PDict d) (py "byline") _ d2) as [d3|] eqn:H3;
    [|discriminate]. cbn [rbind] in H.
  destruct (set_text (PDict d) (py "credit") _ d3) as [d4|] eqn:H4;
    [|discriminate]. cbn [rbind] in H.
  apply (set_text_dataset (py "caption")) in H1 as [-> W1]; [|reflexivity].
  apply set_keywords_dataset in H2 as [-> W2].
  apply (set_text_dataset (py "byline")) in H3 as [-> W3]; [|reflexivity].
  apply (set_text_dataset (py "credit")) in H4 as [-> W4]; [|reflexivity].
  apply (set_text_dataset (py "source")) in H as [-> W5]; [|reflexivity].
  split; [reflexivity|].
  intros key Hk. unfold field_keys in Hk.
  repeat (apply elem_of_cons in Hk as [-> | Hk]); try assumption.
  apply elem_of_nil in Hk. destruct Hk.
Qed.

End Written.

(** Each key has its own dataset, so a conditional write changes that
    dataset only. *)
Lemma expected_iptc_lookup (d : gmap pystr pyval) data0 key :
  key ∈ field_keys ->
  expected_iptc d data0 !! iptc_field key
  = match expected_dataset d key with
    | Some x => Some x
    | None => data0 !! iptc_field key
    end.
Proof.
  intros Hk. unfold expected_iptc, field_keys in *. cbn [fold_left].
  repeat (apply elem_of_cons in Hk as [-> | Hk]);
    try (apply elem_of_nil in Hk; destruct Hk);
    change (iptc_field (py "caption")) with (py "caption/abstract");
    change (iptc_field (py "keywords")) with (py "keywords");
    change (iptc_field (py "byline")) with (py "by-line");
    change (iptc_field (py "credit")) with (py "credit");
    change (iptc_field (py "source")) with (py "source");
    destruct (expected_dataset d (py "caption")),
      (expected_dataset d (py "keywords")),
      (expected_dataset d (py "byline")),
      (expected_dataset d (py "credit")),
      (expected_dataset d (py "source"));
    repeat first
      [ rewrite lookup_insert_eq
      | rewrite lookup_insert_ne by (vm_compute; discriminate) ];
    reflexivity.
Qed.

Lemma expected_iptc_other (d : gmap pystr pyval) data0 field :
  field ∉ map iptc_field field_keys ->
  expected_iptc d data0 !! field = data0 !! field.
Proof.
  intros Hf. unfold expected_iptc.
  assert (Hgen : forall keys (data : gmap pystr iptc_value),
             field ∉ map iptc_field keys ->
             fold_left
               (fun data key =>
                  match expected_dataset d key with
                  | Some x => <[iptc_field key := x]> data
                  | None => data
                  end) keys data !! field = data !! field).
  { induction keys as [|key keys IH]; intros data Hn; [reflexivity|].
    cbn [fold_left map] in *. apply not_elem_of_cons in Hn as [Hne Hn].
    rewrite IH by exact Hn.
    destruct (expected_dataset d key); [|reflexivity].
    apply lookup_insert_ne. congruence. }
  apply Hgen, Hf.
Qed.

(** *** What a successful call of the writer has done *)

Section WriterRuns.

Variable E : externals.

(** A save that did not raise has written the file, or has returned
    without writing. *)
Lemma library_save_inv outcome leftover path content w w' :
  library_save outcome leftover path content w = (Ret tt, w') ->
  exists saved,
    outcome = Ret saved
    /\ w' = if saved then set_fs (insert path content) w else w.
Proof.
  unfold library_save, bind, gets, modify, ret, raise.
  destruct outcome as [[]|e].
  - intros [= <-]. exists true. auto.
  - intros [= <-]. exists false. auto.
  - destruct (leftover _); discriminate.
Qed.

(** A save of the imaging library that did not raise has written. *)
Lemma image_save_inv outcome leftover path content w w' :
  library_save (written outcome) leftover path content w = (Ret tt, w') ->
  outcome = Ret tt /\ w' = set_fs (insert path content) w.
Proof.
  intros H. apply library_save_inv in H as (saved & Hout & ->).
  destruct outcome as [[]|e]; [|discriminate].
  injection Hout as <-. auto.
Qed.

Lemma image_save_run outcome leftover path content w :
  outcome = Ret tt ->
  library_save (written outcome) leftover path content w
  = (Ret tt, set_fs (insert path content) w).
Proof. intros ->. reflexivity. Qed.

(** A save that raises creates or rewrites its file at most: no file is
    removed. *)
Lemma library_save_raise outcome leftover path content w e w' :
  library_save outcome leftover path content w = (Raise e, w') ->
  outcome = Raise e
  /\ (w' = w \/ exists partial, w' = set_fs (insert path partial) w).
Proof.
  unfold library_save, bind, gets, modify, ret, raise.
  destruct outcome as [[]|e0]; try discriminate.
  destruct (leftover _) as [partial|]; intros [= <- <-]; eauto.
Qed.

Lemma write_jpeg_inv temp_file_path output_path metadata w w' :
  write_jpeg E temp_file_path output_path metadata w = (Ret true, w') ->
  exists src data0 data saved,
    fs w !! temp_file_path = Some src
    /\ IPTCInfo E src = Ret data0
    /\ jpeg_fields metadata data0 = Ret data
    /\ iptc_save_as E src data output_path = Ret saved
    /\ w' = if saved
            then set_fs (insert output_path (FIptcJpeg src data)) w
            else w.
Proof.
  unfold write_jpeg, bind at 1, read_file.
  destruct (fs w !! temp_file_path) as [src|] eqn:Hsrc; [|discriminate].
  unfold bind at 1, lift at 1.
  destruct (IPTCInfo E src) as [data0|] eqn:Hopen; [|discriminate].
  unfold bind at 1, lift at 1.
  destruct (jpeg_fields metadata data0) as [data|] eqn:Hdata; [|discriminate].
  unfold bind.
  destruct (library_save _ _ _ _ w) as [[[]|e] w1] eqn:Hs; [|discriminate].
  unfold ret. intros [= <-].
  apply library_save_inv in Hs as (saved & Hok & ->).
  exists src, data0, data, saved. repeat split; assumption || reflexivity.
Qed.

Lemma write_png_inv temp_file_path output_path metadata w w' :
  write_png E temp_file_path output_path metadata w = (Ret true, w') ->
  exists src im pnginfo,
    fs w !! temp_file_path = Some src
    /\ Image_open E src = Ret im
    /\ png_chunks metadata = Ret pnginfo
    /\ Image_save E im output_path None None pnginfo = Ret tt
    /\ w' = set_fs (insert output_path (FImage im None None pnginfo)) w.
Proof.
  unfold write_png, bind at 1, read_file.
  destruct (fs w !! temp_file_path) as [src|] eqn:Hsrc; [|discriminate].
  unfold bind at 1, lift at 1.
  destruct (Image_open E src) as [im|] eqn:Hopen; [|discriminate].
  unfold bind at 1, lift at 1.
  destruct (png_chunks metadata) as [pnginfo|] eqn:Hdata; [|discriminate].
  unfold bind.
  destruct (library_save _ _ _ _ w) as [[[]|e] w1] eqn:Hs; [|discriminate].
  unfold ret. intros [= <-].
  apply image_save_inv in Hs as [Hok ->].
  exists src, im, pnginfo. repeat split; assumption || reflexivity.
Qed.

Lemma remove_if_exists_run path w :
  remove_if_exists path w = (Ret tt, set_fs (delete path) w).
Proof.
  unfold remove_if_exists, bind, path_exists, gets, os_remove, modify, ret.
  destruct (bool_decide _) eqn:Hex; [reflexivity|].
  apply bool_decide_eq_false in Hex.
  f_equal. destruct w as [files dir pf c l]. unfold set_fs. simpl in *. f_equal.
  symmetry. apply delete_id. apply eq_None_not_Some. exact Hex.
Qed.

(** A guarded pipeline reports success only if its body did, and then
    only the scratch file has been removed. *)
Lemma guarded_success (body : M bool) image_file path w w' :
  try_finally (try_except body (report_failure image_file))
    (remove_if_exists path) w = (Ret true, w') ->
  exists w1, body w = (Ret true, w1) /\ w' = set_fs (delete path) w1.
Proof.
  unfold try_finally, try_except.
  destruct (body w) as [[success|e] w1].
  - rewrite remove_if_exists_run. intros [= -> <-]. eauto.
  - unfold report_failure, bind, modify, ret.
    rewrite remove_if_exists_run. discriminate.
Qed.

Lemma write_file_run path b w :
  write_file (Ret tt) path (Ret b) w
  = (Ret tt, set_fs (insert path (FBytes b)) w).
Proof.
  unfold write_file, bind, modify, lift. f_equal.
  destruct w as [files dir pf c l]. unfold set_fs. simpl. f_equal.
  apply insert_insert_eq.
Qed.

(** The scratch copy is written, or its [open] or the upload's
    [getvalue()] raises. *)
Lemma write_file_inv opened path data w w' :
  write_file opened path data w = (Ret tt, w') ->
  exists b,
    opened = Ret tt /\ data = Ret b
    /\ w' = set_fs (insert path (FBytes b)) w.
Proof.
  destruct opened as [[]|e]; [|discriminate].
  destruct data as [b|e]; [|discriminate].
  rewrite write_file_run. intros [= <-]. eauto.
Qed.

Lemma write_file_blocked e path data w :
  write_file (Raise e) path data w = (Raise e, w).
Proof. reflexivity. Qed.

Lemma write_file_unreadable e path w :
  write_file (Ret tt) path (Raise e) w
  = (Raise e, set_fs (insert path (FBytes [])) w).
Proof. reflexivity. Qed.

(** A successful call of the writer: the file was readable, its
    extension selected one of the two branches, and that branch
    succeeded on the scratch copy. *)
Lemma write_image_metadata_success image_file output_path metadata w w' :
  write_image_metadata E image_file output_path metadata w = (Ret true, w') ->
  let temp_file_path := OsPath.join (temp_dir w) (name image_file) in
  exists b w1,
    getvalue image_file = Ret b
    /\ w' = set_fs (delete temp_file_path) w1
    /\ let w0 := set_fs (insert temp_file_path (FBytes b)) w in
       (is_jpeg_ext (extension image_file) = true
        /\ write_jpeg E temp_file_path output_path metadata w0 = (Ret true, w1))
       \/ (is_jpeg_ext (extension image_file) = false
           /\ is_png_ext (extension image_file) = true
           /\ write_png E temp_file_path output_path metadata w0
              = (Ret true, w1)).
Proof.
  intros H temp_file_path. unfold write_image_metadata in H.
  unfold bind at 1, gets in H. unfold bind at 1 in H.
  fold temp_file_path in H.
  destruct (write_file _ _ _ w) as [[[]|e] w0] eqn:Hcopy; [|discriminate].
  apply write_file_inv in Hcopy as (b & _ & Hb & ->).
  apply guarded_success in H as (w1 & Hbody & ->).
  exists b, w1. split; [exact Hb|]. split; [reflexivity|].
  destruct (is_jpeg_ext (extension image_file)); [left; auto|].
  destruct (is_png_ext (extension image_file)); [right; auto|].
  discriminate.
Qed.

End WriterRuns.

(** C4 (amended).  For a record and a call of [write_image_metadata]
    that succeeds, the output that is written holds exactly the fields
    whose value in the record is truthy (for keywords in the JPEG branch:
    truthy and a list): the PNG output has one text chunk per such key,
    in the order caption, keywords, byline, credit, source, and the JPEG
    output has the datasets of the input file with those of such keys
    replaced.  A key that is absent from the record gives no text chunk
    and leaves its IPTC dataset as it was in the input file.  (The PNG is
    written whenever the call succeeds; the JPEG branch returns [True]
    also when [info.save_as] has returned without writing, and then the
    output path is as it was.) *)
Theorem C4_writer_writes_the_truthy_fields
    (E : externals) (image_file : uploaded_file) (output_path : pystr)
    (d : gmap pystr pyval) (w w' : world) :
  output_path <> OsPath.join (temp_dir w) (name image_file) ->
  write_image_metadata E image_file output_path (PDict d) w = (Ret true, w') ->
  exists b, getvalue image_file = Ret b /\
  ((is_jpeg_ext (extension image_file) = false
    /\ is_png_ext (extension image_file) = true
    /\ exists im,
         Image_open E (FBytes b) = Ret im
         /\ fs w' !! output_path
            = Some (FImage im None None (expected_chunks d))
         /\ map fst (expected_chunks d)
            = List.filter (fun key => truthy (default PNone (d !! key)))
                field_keys
         /\ forall key, d !! key = None ->
              ~ In key (map fst (expected_chunks d)))
   \/ (is_jpeg_ext (extension image_file) = true
       /\ exists data0 saved,
            IPTCInfo E (FBytes b) = Ret data0
            /\ iptc_save_as E (FBytes b) (expected_iptc d data0) output_path
               = Ret saved
            /\ fs w' !! output_path
               = (if saved
                  then Some (FIptcJpeg (FBytes b) (expected_iptc d data0))
                  else fs w !! output_path)
            /\ (forall key, key ∈ field_keys ->
                  (written_to_jpeg d key = true ->
                   is_Some (expected_dataset d key))
                  /\ expected_iptc d data0 !! iptc_field key
                     = match expected_dataset d key with
                       | Some x => Some x
                       | None => data0 !! iptc_field key
                       end)
            /\ (forall field, field ∉ map iptc_field field_keys ->
                  expected_iptc d data0 !! field = data0 !! field)
            /\ forall key, key ∈ field_keys -> d !! key = None ->
                 expected_iptc d data0 !! iptc_field key
                 = data0 !! iptc_field key)).
Proof.
  intros Hne Hrun.
  apply write_image_metadata_success in Hrun
    as (b & w1 & Hb & -> & [[Hj Hrun] | (Hj & Hp & Hrun)]).
  - exists b. split; [exact Hb|]. right. split; [exact Hj|].
    apply write_jpeg_inv in Hrun
      as (src & data0 & data & saved & Hsrc & Hopen & Hdata & Hsave & ->).
    simpl in Hsrc. rewrite lookup_insert_eq in Hsrc. injection Hsrc as <-.
    apply jpeg_fields_expected in Hdata as [-> Hw].
    exists data0, saved. split; [exact Hopen|]. split; [exact Hsave|].
    split; [|split; [|split]].
    + destruct saved; simpl; rewrite lookup_delete_ne by congruence.
      * apply lookup_insert_eq.
      * apply lookup_insert_ne. congruence.
    + intros key Hk. split; [apply Hw, Hk|].
      apply expected_iptc_lookup, Hk.
    + apply expected_iptc_other.
    + intros key Hk Habs. rewrite (expected_iptc_lookup d data0 key Hk).
      unfold expected_dataset, written_to_jpeg. rewrite Habs. reflexivity.
  - exists b. split; [exact Hb|]. left. split; [exact Hj|].
    split; [exact Hp|].
    apply write_png_inv in Hrun
      as (src & im & pnginfo & Hsrc & Hopen & Hdata & _ & ->).
    simpl in Hsrc. rewrite lookup_insert_eq in Hsrc. injection Hsrc as <-.
    apply png_chunks_expected in Hdata as [-> Hkeys].
    exists im. split; [exact Hopen|]. split; [|split].
    + simpl. rewrite lookup_delete_ne by congruence.
      apply lookup_insert_eq.
    + exact Hkeys.
    + intros key Habs Hin. rewrite Hkeys in Hin.
      apply filter_In in Hin as [_ Ht]. rewrite Habs in Ht. discriminate.
Qed.

Lemma C4_witness :
  fs (snd (write_image_metadata (sample_env true model_down)
             (photo "a.png") (py "/tmp/session/tagged_images/a.png")
             (PDict {[py "credit" := PStr (py "club")]}) sample_world))
    !! py "/tmp/session/tagged_images/a.png"
  = Some (FImage sample_image None None [(py "credit", py "club")]).
Proof.
  destruct (C4_writer_writes_the_truthy_fields (sample_env true model_down)
              (photo "a.png") (py "/tmp/session/tagged_images/a.png")
              {[py "credit" := PStr (py "club")]} sample_world
              (snd (write_image_metadata (sample_env true model_down)
                      (photo "a.png") (py "/tmp/session/tagged_images/a.png")
                      (PDict {[py "credit" := PStr (py "club")]})
                      sample_world)))
    as (b & Hb & [(_ & _ & im & Hopen & Hfs & _) | (Hj & _)]).
  - vm_compute. discriminate.
  - vm_compute. reflexivity.
  - rewrite Hfs. vm_compute in Hopen. injection Hopen as <-.
    vm_compute. reflexivity.
  - vm_compute in Hj. discriminate.
Defined.

(** C4 as stated fails: the record has the key [caption], the write
    succeeds, and the PNG written has no text chunk at all. *)
Lemma C4_counterexample :
  let d : gmap pystr pyval := {[py "caption" := PStr []]} in
  let output_path := py "/tmp/session/tagged_images/a.png" in
  let run :=
    write_image_metadata (sample_env true model_down) (photo "a.png")
      output_path (PDict d) sample_world in
  is_Some (d !! py "caption")
  /\ fst run = Ret true
  /\ fs (snd run) !! output_path = Some (FImage sample_image None None []).
Proof.
  split; [|split].
  - exists (PStr []). vm_compute. reflexivity.
  - vm_compute. reflexivity.
  - vm_compute. reflexivity.
Qed.

(** *** Dispatch on the extension *)

Section Dispatch.

Variable E : externals.

Lemma write_image_metadata_unsupported image_file output_path metadata w b :
  opens E (temp_dir w) image_file ->
  getvalue image_file = Ret b ->
  is_jpeg_ext (extension image_file) = false ->
  is_png_ext (extension image_file) = false ->
  write_image_metadata E image_file output_path metadata w
  = (Ret false,
     set_fs (delete (OsPath.join (temp_dir w) (name image_file))) w).
Proof.
  intros Ho Hb Hj Hp. unfold write_image_metadata.
  unfold bind at 1, gets. unfold bind at 1. unfold opens in Ho.
  rewrite Ho, Hb, write_file_run, Hj, Hp.
  unfold try_finally, try_except, ret. rewrite remove_if_exists_run.
  f_equal. destruct w as [files dir pf c l]. unfold set_fs. simpl. f_equal.
  apply delete_insert_eq.
Qed.

(** The tagging pipeline succeeds on a file only through one of the two
    branches of the writer. *)
Lemma tag_file_success output_dir api_key file w w' :
  tag_file E output_dir api_key file w = (Ret true, w') ->
  is_jpeg_ext (extension file) || is_png_ext (extension file) = true.
Proof.
  unfold tag_file, bind.
  destruct (analyze_image E file api_key 5 w) as [[metadata|e] w1];
    [|discriminate].
  destruct (truthy metadata); [|discriminate]. intros H.
  apply write_image_metadata_success in H
    as (b & w2 & _ & _ & [[-> _] | (_ & -> & _)]).
  - reflexivity.
  - apply orb_true_r.
Qed.

Lemma successes_elem (pipeline : uploaded_file -> M bool)
    (out : uploaded_file -> pystr) path files : forall w,
  path ∈ successes (map out files) (outcomes pipeline files w) ->
  exists file w1 w2,
    file ∈ files /\ path = out file /\ pipeline file w1 = (Ret true, w2).
Proof.
  induction files as [|file files IH]; intros w; simpl.
  - intros H. apply elem_of_nil in H. destruct H.
  - destruct (pipeline file w) as [[[]|e] w'] eqn:Hrun; simpl.
    + intros H. apply elem_of_cons in H as [-> | H].
      * exists file, w, w'. split; [left|]. auto.
      * destruct (IH w' H) as (f & w1 & w2 & Hf & Hp & Hr).
        exists f, w1, w2. split; [right; exact Hf|]. auto.
    + intros H. destruct (IH w' H) as (f & w1 & w2 & Hf & Hp & Hr).
      exists f, w1, w2. split; [right; exact Hf|]. auto.
    + intros H. apply elem_of_nil in H. destruct H.
Qed.

End Dispatch.

(** C5.  [write_image_metadata] has two branches, chosen by the
    lower-cased extension: [.jpg] and [.jpeg] lead to [info.save_as],
    which gives an IPTC JPEG when it writes, [.png] gives a PNG with text
    chunks.  For any other extension the writer returns [False] (once the
    scratch copy is made) and never [True], the tagging pipeline reports
    failure for the file, and no batch lists an output path for such a
    file. *)
Theorem C5_two_branches_by_extension
    (E : externals) (image_file : uploaded_file) (output_path : pystr)
    (metadata : pyval) (w : world) :
  let ext := extension image_file in
  let temp_file_path := OsPath.join (temp_dir w) (name image_file) in
  (is_jpeg_ext ext = false -> is_png_ext ext = false ->
     (opens E (temp_dir w) image_file ->
        (forall b, getvalue image_file = Ret b ->
           write_image_metadata E image_file output_path metadata w
           = (Ret false, set_fs (delete temp_file_path) w))
        /\ (forall output_dir api_key,
              fst (tag_file E output_dir api_key image_file w) = Ret false))
     /\ fst (write_image_metadata E image_file output_path metadata w)
        <> Ret true
     /\ (forall output_dir api_key,
           fst (tag_file E output_dir api_key image_file w) <> Ret true))
  /\ (forall w', output_path <> temp_file_path ->
        write_image_metadata E image_file output_path metadata w
        = (Ret true, w') ->
        (is_jpeg_ext ext = true
         /\ exists src data saved,
              iptc_save_as E src data output_path = Ret saved
              /\ fs w' !! output_path
                 = if saved then Some (FIptcJpeg src data)
                   else fs w !! output_path)
        \/ (is_jpeg_ext ext = false /\ is_png_ext ext = true
            /\ exists im pnginfo,
                 fs w' !! output_path = Some (FImage im None None pnginfo)))
  /\ (forall files api_key path,
        fst (process_tagging E files api_key w) = Ret tt ->
        path ∈ processed_files (snd (process_tagging E files api_key w)) ->
        exists file,
          file ∈ files
          /\ path = tagging_output
                      (OsPath.join (temp_dir w) (py "tagged_images")) file
          /\ is_jpeg_ext (extension file) || is_png_ext (extension file)
             = true).
Proof.
  intros ext temp_file_path. split; [|split].
  - intros Hj Hp.
    assert (Hwriter : forall meta w0 w',
              write_image_metadata E image_file output_path meta w0
              <> (Ret true, w')).
    { intros meta w0 w' Hrun.
      apply write_image_metadata_success in Hrun
        as (b & w1 & _ & _ & [[Hj' _] | (_ & Hp' & _)]);
        unfold ext in Hj, Hp; congruence. }
    assert (Htag : forall output_dir api_key,
              fst (tag_file E output_dir api_key image_file w) <> Ret true).
    { intros output_dir api_key Hrun.
      destruct (tag_file E output_dir api_key image_file w) as [r w'] eqn:Ht.
      cbn [fst] in Hrun. subst r.
      apply tag_file_success in Ht. fold ext in Ht.
      rewrite Hj, Hp in Ht. discriminate. }
    split; [|split].
    + intros Ho. split.
      * intros b Hb.
        apply (write_image_metadata_unsupported E image_file output_path
                 metadata w b); assumption.
      * intros output_dir api_key.
        destruct (returns_tag_file E output_dir api_key image_file
                    (temp_dir w) Ho w eq_refl) as ([] & w' & Hrun);
          [|rewrite Hrun; reflexivity].
        exfalso. apply (Htag output_dir api_key). rewrite Hrun. reflexivity.
    + intros Hrun.
      destruct (write_image_metadata E image_file output_path metadata w)
        as [r w'] eqn:Hw.
      cbn [fst] in Hrun. subst r. exact (Hwriter _ _ _ Hw).
    + exact Htag.
  - intros w' Hne Hrun.
    apply write_image_metadata_success in Hrun
      as (b & w1 & Hb & -> & [[Hj Hrun] | (Hj & Hp & Hrun)]).
    + left. split; [exact Hj|].
      apply write_jpeg_inv in Hrun
        as (src & data0 & data & saved & _ & _ & _ & Hsave & ->).
      exists src, data, saved. split; [exact Hsave|].
      destruct saved; simpl; rewrite lookup_delete_ne
        by (intros Heq; apply Hne; symmetry; exact Heq).
      * apply lookup_insert_eq.
      * apply lookup_insert_ne.
        intros Heq; apply Hne; symmetry; exact Heq.
    + right. split; [exact Hj|]. split; [exact Hp|].
      apply write_png_inv in Hrun as (src & im & pnginfo & _ & _ & _ & _ & ->).
      exists im, pnginfo. simpl. rewrite lookup_delete_ne
        by (intros Heq; apply Hne; symmetry; exact Heq).
      apply lookup_insert_eq.
  - intros files api_key path Hret.
    destruct (process_tagging E files api_key w) as [r w'] eqn:Hrun.
    cbn [fst snd] in *. subst r.
    rewrite (process_tagging_returned E files api_key w w' Hrun).
    intros H. apply successes_elem in H as (file & w1 & w2 & Hf & Hp & Hrun').
    exists file. split; [exact Hf|]. split; [exact Hp|].
    apply tag_file_success in Hrun'. exact Hrun'.
Qed.

Lemma C5_witness :
  write_image_metadata (sample_env true model_down) (photo "c.gif")
    (py "/tmp/session/tagged_images/c.gif")
    (PDict {[py "caption" := PStr (py "tee")]}) sample_world
  = (Ret false, sample_world)
  /\ fst (tag_file (sample_env true (model_says (py "ok")))
            (py "/tmp/session/tagged_images") (py "key") (photo "c.gif")
            sample_world) = Ret false.
Proof.
  destruct (proj1 (proj1 (C5_two_branches_by_extension
                     (sample_env true model_down) (photo "c.gif")
                     (py "/tmp/session/tagged_images/c.gif")
                     (PDict {[py "caption" := PStr (py "tee")]})
                     sample_world) eq_refl eq_refl) eq_refl) as [Hw _].
  destruct (proj1 (proj1 (C5_two_branches_by_extension
                     (sample_env true (model_says (py "ok"))) (photo "c.gif")
                     (py "/tmp/session/tagged_images/c.gif")
                     PNone sample_world) eq_refl eq_refl) eq_refl) as [_ Ht].
  split.
  - rewrite (Hw [] eq_refl). vm_compute. reflexivity.
  - apply Ht.
Defined.



(** Keywords that are neither a list nor a string make the PNG branch
    raise: only [str] has [encode]. *)
Example keywords_number_png :
  add_keywords (PDict {[py "keywords" := PInt 5]}) [] = Raise AttributeError.
Proof. vm_compute. reflexivity. Qed.

(** *** [os.path.splitext] on a name with an extension *)

Section Rfind.

Variable c : N.

Lemma rfind_aux_app a b : forall i last,
  OsPath.rfind_aux c (a ++ b) i last
  = OsPath.rfind_aux c b (i + Z.of_nat (length a))%Z
      (OsPath.rfind_aux c a i last).
Proof.
  induction a as [|x a IH]; intros i last; simpl.
  - rewrite Z.add_0_r. reflexivity.
  - rewrite IH. f_equal. lia.
Qed.

Lemma rfind_aux_absent b : forall i last,
  ~ In c b -> OsPath.rfind_aux c b i last = last.
Proof.
  induction b as [|x b IH]; intros i last Hn; simpl; [reflexivity|].
  rewrite IH by (intros H; apply Hn; right; exact H).
  destruct (N.eqb_spec x c) as [->|_]; [|reflexivity].
  exfalso. apply Hn. left. reflexivity.
Qed.

Lemma rfind_aux_bounds a : forall i last,
  (last < i)%Z ->
  (last <= OsPath.rfind_aux c a i last < i + Z.of_nat (length a))%Z.
Proof.
  induction a as [|x a IH]; intros i last Hl; simpl; [lia|].
  destruct (x =? c).
  - specialize (IH (i + 1)%Z i). lia.
  - specialize (IH (i + 1)%Z last). lia.
Qed.

(** The last occurrence. *)
Lemma rfind_last a b :
  ~ In c b -> OsPath.rfind c (a ++ c :: b) = Z.of_nat (length a).
Proof.
  intros Hn. unfold OsPath.rfind. rewrite rfind_aux_app. simpl.
  rewrite N.eqb_refl. apply rfind_aux_absent, Hn.
Qed.

Lemma rfind_prefix a b :
  ~ In c b -> OsPath.rfind c (a ++ b) = OsPath.rfind c a.
Proof.
  intros Hn. unfold OsPath.rfind. rewrite rfind_aux_app.
  apply rfind_aux_absent, Hn.
Qed.

Lemma rfind_bounds a :
  (-1 <= OsPath.rfind c a < Z.of_nat (length a))%Z.
Proof.
  unfold OsPath.rfind.
  pose proof (rfind_aux_bounds a 0 (-1)%Z). lia.
Qed.

End Rfind.

(** A name [stem.ext], whose last component has a character other than
    a dot before the extension, splits at that dot. *)
Lemma splitext_stem stem ext :
  ~ In sep ext -> ~ In extsep ext ->
  existsb (fun c => negb (c =? extsep)) (OsPath.basename stem) = true ->
  OsPath.splitext (stem ++ extsep :: ext) = (stem, extsep :: ext).
Proof.
  intros Hsep Hdot Hstem. unfold OsPath.splitext.
  rewrite (rfind_last extsep stem ext Hdot).
  rewrite (rfind_prefix sep stem (extsep :: ext))
    by (intros [H|H]; [discriminate | exact (Hsep H)]).
  pose proof (rfind_bounds sep stem) as Hb.
  assert (Hlt : (OsPath.rfind sep stem <? Z.of_nat (length stem))%Z = true)
    by (apply Z.ltb_lt; lia).
  rewrite Hlt. cbn [andb].
  assert (Hslice :
            OsPath.slice (stem ++ extsep :: ext) (OsPath.rfind sep stem + 1)
              (Z.of_nat (length stem)) = OsPath.basename stem).
  { unfold OsPath.slice, OsPath.basename. rewrite Nat2Z.id.
    set (i := Z.to_nat (OsPath.rfind sep stem + 1)).
    assert (Hi : (i <= length stem)%nat) by (unfold i; lia).
    rewrite skipn_app.
    replace (i - length stem)%nat with 0%nat by lia. cbn [skipn].
    rewrite firstn_app.
    rewrite length_skipn.
    replace (length stem - i - (length stem - i))%nat with 0%nat by lia.
    cbn [firstn]. rewrite app_nil_r.
    apply firstn_all2. rewrite length_skipn. lia. }
  rewrite Hslice, Hstem, Nat2Z.id.
  rewrite firstn_app, Nat.sub_diag, firstn_all. cbn [firstn].
  rewrite app_nil_r.
  rewrite skipn_app, Nat.sub_diag, skipn_all. reflexivity.
Qed.

(** The four characters that end the name of a file taken as RAW. *)
Lemma lower_char_ascii x y :
  lower_char x = y -> (y < 65)%N -> x = y.
Proof.
  unfold lower_char.
  destruct ((65 <=? x) && (x <=? 90)) eqn:Hx; intros <- Hy; [|reflexivity].
  apply andb_true_iff in Hx as [H1 H2]. apply N.leb_le in H1. lia.
Qed.

Lemma lower_char_letter x y :
  lower_char x = y -> (97 <= y <= 122)%N -> x = y \/ x = (y - 32)%N.
Proof.
  unfold lower_char.
  destruct ((65 <=? x) && (x <=? 90)) eqn:Hx; intros <- Hy;
    [right; lia | left; reflexivity].
Qed.

Lemma is_raw_suffix file stem ext :
  is_raw file = true -> name file = stem ++ ext -> length ext = 4%nat ->
  exists tail, ext = extsep :: tail /\ ~ In sep tail /\ ~ In extsep tail.
Proof.
  unfold is_raw, endswith, lower. intros Hraw Hname Hlen.
  rewrite Hname in Hraw.
  destruct ext as [|x1 [|x2 [|x3 [|x4 [|]]]]]; try discriminate.
  rewrite map_app, rev_app_distr in Hraw.
  change (startswith [50; 114; 99; 46]
            ([lower_char x4; lower_char x3; lower_char x2; lower_char x1]
             ++ rev (map lower_char stem)) = true) in Hraw.
  cbn [startswith app] in Hraw.
  repeat (apply andb_true_iff in Hraw as [?%N.eqb_eq Hraw]).
  assert (x1 = 46) by (apply lower_char_ascii; [congruence | lia]).
  assert (x4 = 50) by (apply lower_char_ascii; [congruence | lia]).
  assert (x2 = 99 \/ x2 = (99 - 32)%N)
    by (apply lower_char_letter; [congruence | lia]).
  assert (x3 = 114 \/ x3 = (114 - 32)%N)
    by (apply lower_char_letter; [congruence | lia]).
  exists [x2; x3; x4]. subst x1 x4. split; [reflexivity|].
  unfold sep, extsep. split; intros Hin; simpl in Hin; lia.
Qed.

(** *** RAW files *)

Section Raw.

Variable E : externals.

Lemma process_raw_cr2_unavailable image_file output_path w :
  RAW_SUCCESS E = false ->
  process_raw_cr2 E image_file output_path w = (Ret false, w).
Proof. intros H. unfold process_raw_cr2. rewrite H. reflexivity. Qed.

Lemma process_raw_cr2_blocked image_file output_path w e :
  RAW_SUCCESS E = true ->
  open_wb E (OsPath.join (temp_dir w) (name image_file)) = Raise e ->
  process_raw_cr2 E image_file output_path w = (Raise e, w).
Proof.
  intros Hraw Ho. unfold process_raw_cr2. rewrite Hraw. cbn [negb].
  unfold bind at 1, gets. unfold bind at 1. rewrite Ho. reflexivity.
Qed.

Lemma process_raw_cr2_run image_file output_path w b rgb_image img :
  RAW_SUCCESS E = true ->
  opens E (temp_dir w) image_file ->
  getvalue image_file = Ret b ->
  rawpy_postprocess E (FBytes b) = Ret rgb_image ->
  Image_fromarray E rgb_image = Ret img ->
  Image_save E img output_path (Some (py "JPEG")) (Some 95) [] = Ret tt ->
  let temp_file_path := OsPath.join (temp_dir w) (name image_file) in
  process_raw_cr2 E image_file output_path w
  = (Ret true,
     set_fs (delete temp_file_path)
       (set_fs (insert output_path
                  (FImage img (Some (py "JPEG")) (Some 95) []))
          (set_fs (insert temp_file_path (FBytes b)) w))).
Proof.
  intros Hraw Ho Hb Hpost Himg Hsave temp_file_path.
  unfold process_raw_cr2. rewrite Hraw. cbn [negb].
  unfold bind at 1, gets. unfold bind at 1. unfold opens in Ho.
  rewrite Ho, Hb, write_file_run. fold temp_file_path.
  unfold try_finally, try_except.
  unfold bind at 1, read_file. unfold set_fs at 1. cbn [fs].
  rewrite lookup_insert_eq.
  unfold bind at 1, lift at 1. rewrite Hpost.
  unfold bind at 1, lift at 1. rewrite Himg.
  unfold bind at 1. rewrite (image_save_run _ _ _ _ _ Hsave).
  unfold ret. rewrite remove_if_exists_run. reflexivity.
Qed.

(** A RAW conversion that succeeds has saved a JPEG at quality 95. *)
Lemma process_raw_cr2_success image_file output_path w w' :
  process_raw_cr2 E image_file output_path w = (Ret true, w') ->
  output_path <> OsPath.join (temp_dir w) (name image_file) ->
  RAW_SUCCESS E = true
  /\ exists b rgb_image img,
       getvalue image_file = Ret b
       /\ rawpy_postprocess E (FBytes b) = Ret rgb_image
       /\ Image_fromarray E rgb_image = Ret img
       /\ fs w' !! output_path
          = Some (FImage img (Some (py "JPEG")) (Some 95) []).
Proof.
  unfold process_raw_cr2. destruct (RAW_SUCCESS E); [|discriminate].
  cbn [negb]. unfold bind at 1, gets. unfold bind at 1.
  destruct (write_file _ _ _ w) as [[[]|e] w0] eqn:Hcopy; [|discriminate].
  apply write_file_inv in Hcopy as (b & _ & Hb & ->).
  intros H Hne. split; [reflexivity|].
  apply guarded_success in H as (w1 & Hbody & ->).
  unfold bind at 1, read_file in Hbody. unfold set_fs in Hbody at 1.
  cbn [fs] in Hbody.
  rewrite lookup_insert_eq in Hbody.
  unfold bind at 1, lift at 1 in Hbody.
  destruct (rawpy_postprocess E (FBytes b)) as [rgb_image|] eqn:Hpost;
    [|discriminate].
  unfold bind at 1, lift at 1 in Hbody.
  destruct (Image_fromarray E rgb_image) as [img|] eqn:Himg; [|discriminate].
  unfold bind in Hbody.
  destruct (library_save _ _ _ _ _) as [[[]|e] w2] eqn:Hs; [|discriminate].
  apply image_save_inv in Hs as [_ ->].
  unfold ret in Hbody. injection Hbody as <-.
  exists b, rgb_image, img. repeat split; try assumption.
  unfold set_fs; cbn [fs]. rewrite lookup_delete_ne by congruence.
  apply lookup_insert_eq.
Qed.

End Raw.

(** C7.  A file whose name ends in [.cr2], whatever the case, goes to
    [process_raw_cr2], with the output name [splitext(name)[0] + ".jpg"]
    in the stripping directory.  Without the RAW library the conversion
    returns [False] at once and the batch lists no output for the file.
    With it, the file is decoded by [raw.postprocess()] with its default
    arguments and saved as JPEG at quality 95, once its scratch copy is
    made; when the scratch copy cannot be opened the exception of the
    [open] leaves the function.  For a name [stem.cr2] the output name is
    [stem.jpg]. *)
Theorem C7_raw_files_become_jpeg
    (E : externals) (file : uploaded_file) (w : world) :
  is_raw file = true ->
  let output_dir := OsPath.join (temp_dir w) (py "stripped_images") in
  let output_path :=
    OsPath.join output_dir (fst (OsPath.splitext (name file)) ++ py ".jpg") in
  let temp_file_path := OsPath.join (temp_dir w) (name file) in
  strip_file E output_dir file w = process_raw_cr2 E file output_path w
  /\ (RAW_SUCCESS E = false ->
      strip_file E output_dir file w = (Ret false, w)
      /\ process_stripping E [file] w = (Ret tt, set_processed_files [] w))
  /\ (RAW_SUCCESS E = true ->
      opens E (temp_dir w) file ->
      forall b rgb_image img,
        getvalue file = Ret b ->
        rawpy_postprocess E (FBytes b) = Ret rgb_image ->
        Image_fromarray E rgb_image = Ret img ->
        Image_save E img output_path (Some (py "JPEG")) (Some 95) [] = Ret tt ->
        let w' :=
          set_fs (delete temp_file_path)
            (set_fs (insert output_path
                       (FImage img (Some (py "JPEG")) (Some 95) []))
               (set_fs (insert temp_file_path (FBytes b)) w)) in
        strip_file E output_dir file w = (Ret true, w')
        /\ process_stripping E [file] w
           = (Ret tt, set_processed_files [output_path] w'))
  /\ (forall w', output_path <> temp_file_path ->
        strip_file E output_dir file w = (Ret true, w') ->
        exists b rgb_image img,
          getvalue file = Ret b
          /\ rawpy_postprocess E (FBytes b) = Ret rgb_image
          /\ Image_fromarray E rgb_image = Ret img
          /\ fs w' !! output_path
             = Some (FImage img (Some (py "JPEG")) (Some 95) []))
  /\ (forall stem ext,
        name file = stem ++ ext -> length ext = 4%nat ->
        existsb (fun c => negb (c =? extsep)) (OsPath.basename stem) = true ->
        output_path = OsPath.join output_dir (stem ++ py ".jpg"))
  /\ (RAW_SUCCESS E = true ->
      forall e, open_wb E temp_file_path = Raise e ->
        strip_file E output_dir file w = (Raise e, w)).
Proof.
  intros Hraw output_dir output_path temp_file_path.
  assert (Hroute : forall w0,
             strip_file E output_dir file w0
             = process_raw_cr2 E file output_path w0).
  { intros w0. unfold strip_file, stripping_output. rewrite Hraw.
    reflexivity. }
  assert (Hbatch : forall success w',
             strip_file E output_dir file w = (Ret success, w') ->
             process_stripping E [file] w
             = (Ret tt,
                set_processed_files
                  (if success then [output_path] else []) w')).
  { intros success w' Hrun. unfold process_stripping.
    unfold bind at 1, gets. fold output_dir. cbn [for_fold].
    unfold bind at 1. unfold bind at 1. unfold bind at 1. rewrite Hrun.
    unfold stripping_output. rewrite Hraw. fold output_path.
    destruct success; reflexivity. }
  split; [apply Hroute|]. split; [|split; [|split; [|split]]].
  - intros Hlib.
    assert (Hrun : strip_file E output_dir file w = (Ret false, w))
      by (rewrite Hroute; apply process_raw_cr2_unavailable, Hlib).
    split; [exact Hrun | apply (Hbatch false w Hrun)].
  - intros Hlib Ho b rgb_image img Hb Hpost Himg Hsave w'.
    assert (Hrun : strip_file E output_dir file w = (Ret true, w'))
      by (rewrite Hroute;
          apply (process_raw_cr2_run E file output_path w b rgb_image img);
          assumption).
    split; [exact Hrun | apply (Hbatch true w' Hrun)].
  - intros w' Hne Hrun. rewrite Hroute in Hrun.
    apply process_raw_cr2_success in Hrun as [_ Hrun]; [exact Hrun|].
    exact Hne.
  - intros stem ext Hname Hlen Hstem.
    destruct (is_raw_suffix file stem ext Hraw Hname Hlen)
      as (tail & -> & Hsep & Hdot).
    unfold output_path. rewrite Hname.
    rewrite (splitext_stem stem tail Hsep Hdot Hstem). reflexivity.
  - intros Hlib e Ho. rewrite Hroute.
    apply process_raw_cr2_blocked; assumption.
Qed.

Lemma C7_witness :
  process_stripping (sample_env true model_down) [photo "IMG_1.CR2"]
    sample_world
  = (Ret tt,
     set_processed_files [py "/tmp/session/stripped_images/IMG_1.jpg"]
       (set_fs (insert (py "/tmp/session/stripped_images/IMG_1.jpg")
                  (FImage sample_image (Some (py "JPEG")) (Some 95) []))
          sample_world))
  /\ process_stripping (sample_env false model_down) [photo "IMG_1.CR2"]
       sample_world
     = (Ret tt, sample_world).
Proof.
  split.
  - destruct (proj1 (proj2 (proj2 (C7_raw_files_become_jpeg
                (sample_env true model_down) (photo "IMG_1.CR2")
                sample_world eq_refl))) eq_refl eq_refl [] [0] sample_image
                eq_refl eq_refl eq_refl eq_refl) as [_ Hbatch].
    rewrite Hbatch. vm_compute. reflexivity.
  - destruct (proj1 (proj2 (C7_raw_files_become_jpeg
                (sample_env false model_down) (photo "IMG_1.CR2")
                sample_world eq_refl)) eq_refl) as [_ Hbatch].
    rewrite Hbatch. reflexivity.
Defined.

(** *** The download section *)

Section Downloads.

Lemma zip_writes zip_path disk files : forall members w,
  fs w = <[zip_path := FZip members]> disk ->
  Forall (fun file => is_Some (disk !! file)) files ->
  ~ In zip_path files ->
  for_each files (zipf_write zip_path) w
  = (Ret tt,
     set_fs (fun _ => <[zip_path := FZip (members ++ archive disk files)]> disk)
       w).
Proof.
  induction files as [|file files IH]; intros members w Hfs Hex Hzip.
  - unfold archive; cbn [for_each flat_map]. unfold ret, set_fs.
    rewrite app_nil_r, <- Hfs. destruct w; reflexivity.
  - apply Forall_cons in Hex as [[data Hdata] Hex].
    assert (Hne : zip_path <> file) by (intros ->; apply Hzip; left; reflexivity).
    cbn [for_each]. unfold bind at 1. unfold zipf_write at 1.
    unfold bind at 1, read_file. rewrite Hfs, lookup_insert_ne by exact Hne.
    rewrite Hdata. unfold modify.
    rewrite (IH (members ++ [(OsPath.basename file, data)])).
    + unfold archive. cbn [flat_map]. rewrite Hdata.
      rewrite <- app_assoc. destruct w; reflexivity.
    + unfold set_fs; cbn [fs]. rewrite Hfs.
      rewrite alter_insert_eq. reflexivity.
    + exact Hex.
    + intros Hin. apply Hzip. right. exact Hin.
Qed.

Lemma download_buttons_run disk files : forall w,
  (forall file, In file files -> fs w !! file = disk !! file) ->
  Forall (fun file => is_Some (disk !! file)) files ->
  for_each files
    (fun file_path =>
       bind (read_file file_path)
         (fun data =>
            modify (emit (EvDownload (OsPath.basename file_path) data)))) w
  = (Ret tt,
     mkWorld (fs w) (temp_dir w) (processed_files w) (calls w)
       (log w ++ download_buttons disk files)).
Proof.
  induction files as [|file files IH]; intros w Hsame Hex.
  - unfold download_buttons; cbn [for_each flat_map]. unfold ret.
    rewrite app_nil_r. destruct w; reflexivity.
  - apply Forall_cons in Hex as [[data Hdata] Hex].
    cbn [for_each]. unfold bind at 1. unfold bind at 1, read_file.
    rewrite (Hsame file) by (left; reflexivity). rewrite Hdata.
    unfold modify. rewrite IH.
    + unfold download_buttons. cbn [flat_map]. rewrite Hdata.
      unfold emit; cbn [fs temp_dir processed_files calls log].
      rewrite <- app_assoc. reflexivity.
    + intros f Hf. unfold emit; cbn [fs]. apply Hsame. right. exact Hf.
    + exact Hex.
Qed.

Lemma archive_names disk files :
  Forall (fun file => is_Some (disk !! file)) files ->
  map fst (archive disk files) = map OsPath.basename files
  /\ length (archive disk files) = length files.
Proof.
  induction 1 as [|file files [data Hdata] _ [IH1 IH2]];
    [split; reflexivity|].
  unfold archive in *. cbn [flat_map]. rewrite Hdata.
  cbn [map length fst app]. rewrite IH1, IH2. split; reflexivity.
Qed.

End Downloads.

(** C8.  With the outputs of the batch on disk, the download section
    writes a ZIP archive exactly when the result list has more than one
    entry; the archive has one member per entry of the list, in order,
    named by the base name of the output file and holding its content.
    With one entry, or none, no archive is written. *)
Theorem C8_zip_only_for_several_outputs (zip_name : pystr) (w : world) :
  let files := processed_files w in
  let zip_path := OsPath.join (temp_dir w) zip_name in
  let members := archive (fs w) files in
  outputs_on_disk w ->
  ~ In zip_path files ->
  download_section zip_name w
  = (Ret tt,
     if Nat.ltb 1 (length files) then
       mkWorld (<[zip_path := FZip members]> (fs w)) (temp_dir w) files
         (calls w)
         (log w
          ++ EvZip zip_path (map (fun file => (OsPath.basename file, file)) files)
          :: EvDownload zip_name (FZip members)
          :: download_buttons (fs w) files)
     else
       mkWorld (fs w) (temp_dir w) files (calls w)
         (log w ++ download_buttons (fs w) files))
  /\ map fst members = map OsPath.basename files
  /\ length members = length files.
Proof.
  intros files zip_path members Hdisk Hzip.
  split; [|apply archive_names, Hdisk].
  unfold download_section. unfold bind at 1, gets.
  subst members. unfold outputs_on_disk in Hdisk.
  change (processed_files w) with files in Hdisk.
  change (processed_files w) with files.
  assert (Hpf : processed_files w = files) by reflexivity.
  clearbody files. destruct files as [|file rest].
  - unfold ret, download_buttons. cbn [length Nat.ltb Nat.leb flat_map].
    rewrite app_nil_r. destruct w; simpl in *; subst; reflexivity.
  - set (files := file :: rest) in *. unfold bind at 1.
    destruct (Nat.ltb 1 (length files)) eqn:Hlen.
    + unfold bind at 1, gets. fold zip_path.
      unfold bind at 1, modify at 1.
      unfold bind at 1.
      rewrite (zip_writes zip_path (fs w) files []);
        [| reflexivity | exact Hdisk | exact Hzip].
      unfold bind at 1, modify at 1.
      unfold bind at 1, read_file.
      unfold set_fs, emit; cbn [fs temp_dir processed_files calls log].
      rewrite lookup_insert_eq. unfold modify.
      rewrite (download_buttons_run (fs w) files);
        [| | exact Hdisk].
      * cbn [fs temp_dir processed_files calls log app].
        rewrite <- !app_assoc, Hpf. reflexivity.
      * intros f Hf. cbn [fs]. apply lookup_insert_ne.
        intros ->. exact (Hzip Hf).
    + unfold ret.
      rewrite (download_buttons_run (fs w) files);
        [| reflexivity | exact Hdisk].
      rewrite Hpf. reflexivity.
Qed.

Lemma C8_witness :
  fs (snd (download_section (py "tagged_images.zip") two_outputs_world))
    !! py "/tmp/session/tagged_images.zip"
  = Some (FZip [(py "1.jpg", FBytes []); (py "3.jpg", FBytes [])]).
Proof.
  destruct (C8_zip_only_for_several_outputs (py "tagged_images.zip")
              two_outputs_world) as [Hrun _].
  - repeat constructor; vm_compute; eauto.
  - vm_compute. intros H. repeat destruct H as [H|H]; try discriminate.
    exact H.
  - rewrite Hrun. vm_compute. reflexivity.
Defined.

(** *** Paths of the session directory *)

Lemma startswith_sep_basename n : basename_only n -> startswith [sep] n = false.
Proof.
  unfold basename_only. destruct n as [|c n]; [reflexivity|]. intros Hn.
  cbn [startswith]. destruct (N.eqb_spec sep c) as [Heq|_]; [|reflexivity].
  exfalso. apply Hn. left. symmetry. exact Heq.
Qed.

Lemma join_basename dir n :
  basename_only n -> OsPath.join dir n = join_prefix dir ++ n.
Proof.
  intros Hn. unfold OsPath.join, join_prefix.
  rewrite (startswith_sep_basename n Hn).
  destruct dir as [|c dir]; [reflexivity|].
  destruct (endswith [sep] (c :: dir)); [reflexivity|].
  rewrite <- app_assoc. reflexivity.
Qed.

(** The path of a file in one of the two output directories. *)
Lemma join_output_dir dir sub last n :
  basename_only (sub ++ [last]) -> basename_only n ->
  OsPath.join (OsPath.join dir (sub ++ [last])) n
  = join_prefix dir ++ (sub ++ [last]) ++ sep :: n.
Proof.
  intros Hsub Hn. rewrite (join_basename dir _ Hsub).
  unfold OsPath.join. rewrite (startswith_sep_basename n Hn).
  rewrite (app_assoc (join_prefix dir) (sub ++ [last]) (sep :: n)).
  assert (Hend : endswith [sep] (join_prefix dir ++ sub ++ [last]) = false).
  { unfold endswith. rewrite !rev_app_distr. cbn [rev app startswith].
    destruct (N.eqb_spec sep last) as [Heq|_]; [|reflexivity].
    exfalso. apply Hsub. apply in_or_app. right. left. symmetry. exact Heq. }
  assert (Hne : join_prefix dir ++ sub ++ [last] <> [])
    by (destruct (join_prefix dir), sub; discriminate).
  remember (join_prefix dir ++ sub ++ [last]) as D eqn:HD. clear HD.
  destruct D as [|c D]; [congruence|].
  rewrite Hend. reflexivity.
Qed.

Lemma output_in_subdir dir sub last n :
  basename_only (sub ++ [last]) -> basename_only n ->
  in_subdir dir (OsPath.join (OsPath.join dir (sub ++ [last])) n).
Proof.
  intros Hsub Hn. exists ((sub ++ [last]) ++ sep :: n). split.
  - apply in_or_app. right. left. reflexivity.
  - apply join_output_dir; assumption.
Qed.

(** A scratch copy is not below a subdirectory. *)
Lemma scratch_not_in_subdir dir n :
  basename_only n -> ~ in_subdir dir (OsPath.join dir n).
Proof.
  intros Hn (rest & Hsep & Heq). rewrite (join_basename dir n Hn) in Heq.
  apply app_inv_head in Heq. subst rest. exact (Hn Hsep).
Qed.

Lemma in_firstn {A} (x : A) k : forall l, In x (firstn k l) -> In x l.
Proof.
  induction k as [|k IH]; intros [|y l]; simpl; try tauto.
  intros [H|H]; [left; exact H | right; apply IH, H].
Qed.

Lemma splitext_root_basename n :
  basename_only n -> basename_only (fst (OsPath.splitext n) ++ py ".jpg").
Proof.
  unfold basename_only, OsPath.splitext. intros Hn Hin.
  apply in_app_or in Hin as [Hin|Hin].
  - destruct (_ && _); cbn [fst] in Hin; [|exact (Hn Hin)].
    apply Hn. apply (in_firstn _ _ _ Hin).
  - vm_compute in Hin. repeat destruct Hin as [Hin|Hin]; try discriminate.
    exact Hin.
Qed.

Lemma tagging_output_in_subdir dir file :
  basename_only (name file) ->
  in_subdir dir (tagging_output (OsPath.join dir (py "tagged_images")) file).
Proof.
  intros Hn. unfold tagging_output.
  apply (output_in_subdir dir (py "tagged_image") 115 _); [|exact Hn].
  vm_compute. intros H. repeat destruct H as [H|H]; try discriminate. exact H.
Qed.

Lemma stripping_output_in_subdir dir file :
  basename_only (name file) ->
  in_subdir dir (stripping_output (OsPath.join dir (py "stripped_images")) file).
Proof.
  intros Hn. unfold stripping_output.
  assert (Hsub : basename_only (py "stripped_image" ++ [115])).
  { vm_compute. intros H. repeat destruct H as [H|H]; try discriminate.
    exact H. }
  destruct (is_raw file).
  - apply (output_in_subdir dir (py "stripped_image") 115 _ Hsub).
    apply splitext_root_basename, Hn.
  - apply (output_in_subdir dir (py "stripped_image") 115 _ Hsub Hn).
Qed.

(** *** Computations that keep the outputs *)

Lemma keeps_refl dir w : keeps dir w w.
Proof. repeat split; auto. Qed.

Lemma keeps_trans dir w1 w2 w3 :
  keeps dir w1 w2 -> keeps dir w2 w3 -> keeps dir w1 w3.
Proof.
  intros (Hd1 & Hp1 & Hf1) (Hd2 & Hp2 & Hf2). repeat split.
  - congruence.
  - congruence.
  - intros path Hs Hex. apply Hf2, Hf1; assumption.
Qed.

Section Preserving.

Variable dir : pystr.

Context {A B : Type}.

Lemma preserving_ret (a : A) : preserving dir (ret a).
Proof. intros w _. apply keeps_refl. Qed.

Lemma preserving_raise e : preserving dir (@raise A e).
Proof. intros w _. apply keeps_refl. Qed.

Lemma preserving_lift (r : result A) : preserving dir (lift r).
Proof. intros w _. apply keeps_refl. Qed.

Lemma preserving_gets (f : world -> A) : preserving dir (gets f).
Proof. intros w _. apply keeps_refl. Qed.

Lemma preserving_bind (m : M A) (f : A -> M B) :
  preserving dir m -> (forall a, preserving dir (f a)) ->
  preserving dir (bind m f).
Proof.
  intros Hm Hf w Hd. unfold bind. specialize (Hm w Hd).
  destruct (m w) as [[a|e] w1]; cbn [snd] in *; [|exact Hm].
  apply (keeps_trans dir w w1); [exact Hm|].
  apply Hf. destruct Hm as (-> & _). exact Hd.
Qed.

(** [dir = st.session_state.temp_dir] binds the session directory. *)
Lemma preserving_temp_dir (f : pystr -> M B) :
  preserving dir (f dir) -> preserving dir (bind (gets temp_dir) f).
Proof. intros Hf w Hd. unfold bind, gets. rewrite Hd. apply Hf, Hd. Qed.

Lemma preserving_try_except (body : M A) handler :
  preserving dir body -> (forall e, preserving dir (handler e)) ->
  preserving dir (try_except body handler).
Proof.
  intros Hb Hh w Hd. unfold try_except. specialize (Hb w Hd).
  destruct (body w) as [[a|e] w1]; cbn [snd] in *; [exact Hb|].
  apply (keeps_trans dir w w1); [exact Hb|].
  apply Hh. destruct Hb as (-> & _). exact Hd.
Qed.

Lemma preserving_try_finally (body : M A) cleanup :
  preserving dir body -> preserving dir cleanup ->
  preserving dir (try_finally body cleanup).
Proof.
  intros Hb Hc w Hd. unfold try_finally. specialize (Hb w Hd).
  destruct (body w) as [r w1]; cbn [snd] in *.
  assert (Hd1 : temp_dir w1 = dir) by (destruct Hb as (-> & _); exact Hd).
  specialize (Hc w1 Hd1).
  destruct (cleanup w1) as [[[]|e] w2]; cbn [snd] in *;
    apply (keeps_trans dir w w1); assumption.
Qed.

End Preserving.

Lemma preserving_for_each {A} dir (xs : list A) (body : A -> M unit) :
  (forall x, preserving dir (body x)) -> preserving dir (for_each xs body).
Proof.
  intros Hb. induction xs as [|x xs IH]; cbn [for_each].
  - intros w _. apply keeps_refl.
  - apply preserving_bind; [apply Hb | intros _; exact IH].
Qed.

Lemma preserving_emit dir e : preserving dir (modify (emit e)).
Proof. intros w _. repeat split; auto. Qed.

Lemma preserving_insert dir path content :
  preserving dir (modify (set_fs (insert path content))).
Proof.
  intros w _. repeat split; auto. intros p _ Hex. cbn [snd modify fs set_fs].
  unfold modify, set_fs; cbn [snd fs].
  destruct (decide (path = p)) as [->|Hne].
  - rewrite lookup_insert_eq. eauto.
  - rewrite lookup_insert_ne by exact Hne. exact Hex.
Qed.

Lemma preserving_alter dir f path :
  preserving dir (modify (set_fs (alter f path))).
Proof.
  intros w _. repeat split; auto. intros p _ [c Hc].
  unfold modify, set_fs; cbn [snd fs].
  destruct (decide (path = p)) as [->|Hne].
  - rewrite lookup_alter_eq, Hc. cbn. eauto.
  - rewrite lookup_alter_ne by exact Hne. eauto.
Qed.

(** Removing a file that is not below a subdirectory keeps the outputs. *)
Lemma preserving_delete dir path :
  ~ in_subdir dir path -> preserving dir (modify (set_fs (delete path))).
Proof.
  intros Hn w _. repeat split; auto. intros p Hp Hex.
  unfold modify, set_fs; cbn [snd fs].
  rewrite lookup_delete_ne; [exact Hex|]. intros ->. exact (Hn Hp).
Qed.

Lemma preserving_read_file dir path : preserving dir (read_file path).
Proof.
  intros w _. unfold read_file. destruct (fs w !! path); apply keeps_refl.
Qed.

Lemma preserving_call_model E dir api_key image :
  preserving dir (call_model E api_key image).
Proof. intros w _. repeat split; auto. Qed.

Create HintDb keep discriminated.

#[local] Hint Resolve preserving_ret preserving_raise preserving_lift
  preserving_gets preserving_emit preserving_insert preserving_alter
  preserving_read_file preserving_call_model : keep.

Ltac keep_step :=
  match goal with
  | |- preserving _ (bind (gets temp_dir) _) => apply preserving_temp_dir
  | |- preserving _ (bind _ _) => apply preserving_bind; [|intros ?]
  | |- preserving _ (try_except _ _) => apply preserving_try_except; [|intros ?]
  | |- preserving _ (try_finally _ _) => apply preserving_try_finally
  | |- preserving _ (for_each _ _) => apply preserving_for_each; intros ?
  | |- preserving _ (if ?c then _ else _) => destruct c
  | |- preserving _ (match ?r with Ret _ => _ | Raise _ => _ end) => destruct r
  | |- preserving _ (match ?o with Some _ => _ | None => _ end) => destruct o
  | |- preserving _ _ => solve [auto with keep]
  end.

Ltac keep := repeat keep_step.

Section KeptByPipelines.

Variable E : externals.
Variable dir : pystr.

Lemma preserving_retry_loop api_key image max_retries k : forall retries,
  (S max_retries - retries <= k)%nat ->
  preserving dir (retry_loop E api_key image max_retries retries).
Proof.
  induction k as [|k IH]; intros retries Hk; rewrite retry_loop_equation_1.
  - assert (Hf : Nat.leb retries max_retries = false)
      by (apply Nat.leb_gt; lia).
    rewrite Hf. keep.
  - destruct (Nat.leb retries max_retries); [|keep].
    apply preserving_try_except; [keep|]. intros _.
    destruct (lt_dec retries max_retries); [|keep].
    apply preserving_bind; [unfold sleep; keep|]. intros _.
    apply IH. lia.
Qed.

Lemma preserving_analyze_image image_file api_key max_retries :
  preserving dir (analyze_image E image_file api_key max_retries).
Proof.
  unfold analyze_image. keep. eapply preserving_retry_loop. reflexivity.
Qed.

Lemma preserving_write_file opened path data :
  preserving dir (write_file opened path data).
Proof. unfold write_file. keep. Qed.

Lemma preserving_remove_scratch n :
  basename_only n -> preserving dir (remove_if_exists (OsPath.join dir n)).
Proof.
  intros Hn. unfold remove_if_exists, path_exists, os_remove. keep.
  apply preserving_delete, scratch_not_in_subdir, Hn.
Qed.

Lemma preserving_library_save outcome leftover path content :
  preserving dir (library_save outcome leftover path content).
Proof. unfold library_save. destruct outcome as [[]|e]; keep. Qed.

Lemma preserving_report_failure image_file e :
  preserving dir (report_failure image_file e).
Proof. unfold report_failure. keep. Qed.

Hint Resolve preserving_analyze_image preserving_write_file
  preserving_remove_scratch preserving_library_save
  preserving_report_failure : keep.

Lemma preserving_write_image_metadata image_file output_path metadata :
  basename_only (name image_file) ->
  preserving dir (write_image_metadata E image_file output_path metadata).
Proof. intros Hn. unfold write_image_metadata, write_jpeg, write_png. keep. Qed.

Lemma preserving_remove_metadata_image image_file output_path :
  basename_only (name image_file) ->
  preserving dir (remove_metadata_image E image_file output_path).
Proof. intros Hn. unfold remove_metadata_image. keep. Qed.

Lemma preserving_process_raw_cr2 image_file output_path :
  basename_only (name image_file) ->
  preserving dir (process_raw_cr2 E image_file output_path).
Proof. intros Hn. unfold process_raw_cr2. keep. Qed.

Hint Resolve preserving_write_image_metadata preserving_remove_metadata_image
  preserving_process_raw_cr2 : keep.

Lemma preserving_tag_file output_dir api_key file :
  basename_only (name file) ->
  preserving dir (tag_file E output_dir api_key file).
Proof. intros Hn. unfold tag_file. keep. Qed.

Lemma preserving_strip_file output_dir file :
  basename_only (name file) ->
  preserving dir (strip_file E output_dir file).
Proof. intros Hn. unfold strip_file. keep. Qed.

Lemma preserving_download_section zip_name :
  preserving dir (download_section zip_name).
Proof.
  unfold download_section. apply preserving_bind; [keep|]. intros files.
  destruct files as [|file rest]; [keep|].
  apply preserving_bind.
  - destruct (Nat.ltb 1 _); [|keep]. unfold zipf_write. keep.
  - intros _. keep.
Qed.

End KeptByPipelines.

(** *** A pipeline that succeeds has written its output *)

Section OutputsWritten.

Variable E : externals.

Lemma write_image_metadata_output image_file output_path metadata w w' :
  save_as_writes E image_file \/ is_jpeg_ext (extension image_file) = false ->
  output_path <> OsPath.join (temp_dir w) (name image_file) ->
  write_image_metadata E image_file output_path metadata w = (Ret true, w') ->
  is_Some (fs w' !! output_path).
Proof.
  intros Hsaved Hne Hrun.
  apply write_image_metadata_success in Hrun
    as (b & w1 & Hb & -> & [[Hj Hrun] | (_ & _ & Hrun)]).
  - apply write_jpeg_inv in Hrun
      as (src & data0 & data & saved & Hsrc & _ & _ & Hsave & ->).
    destruct Hsaved as [Hsaved | Hext]; [|congruence].
    unfold set_fs in Hsrc; cbn [fs] in Hsrc.
    rewrite lookup_insert_eq in Hsrc. injection Hsrc as <-.
    destruct saved; [|destruct (Hsaved b data output_path Hb Hsave)].
    unfold set_fs; cbn [fs]. rewrite lookup_delete_ne by congruence.
    rewrite lookup_insert_eq. eauto.
  - apply write_png_inv in Hrun as (src & im & pnginfo & _ & _ & _ & _ & ->).
    unfold set_fs; cbn [fs]. rewrite lookup_delete_ne by congruence.
    rewrite lookup_insert_eq. eauto.
Qed.

Lemma remove_metadata_image_output image_file output_path w w' :
  output_path <> OsPath.join (temp_dir w) (name image_file) ->
  remove_metadata_image E image_file output_path w = (Ret true, w') ->
  is_Some (fs w' !! output_path).
Proof.
  intros Hne. unfold remove_metadata_image.
  unfold bind at 1, gets. unfold bind at 1.
  destruct (write_file _ _ _ w) as [[[]|e] w0] eqn:Hcopy; [|discriminate].
  apply write_file_inv in Hcopy as (b & _ & _ & ->).
  intros H.
  apply guarded_success in H as (w1 & Hbody & ->).
  unfold bind at 1, read_file in Hbody.
  destruct (fs _ !! _) as [src|]; [|discriminate].
  unfold bind at 1, lift at 1 in Hbody.
  destruct (Image_open E src) as [img|]; [|discriminate].
  unfold bind in Hbody.
  destruct (library_save _ _ _ _ _) as [[[]|e] w2] eqn:Hs; [|discriminate].
  apply image_save_inv in Hs as [_ ->].
  unfold ret in Hbody. injection Hbody as <-.
  unfold set_fs; cbn [fs]. rewrite lookup_delete_ne by congruence.
  rewrite lookup_insert_eq. eauto.
Qed.

Lemma output_not_scratch dir path n :
  in_subdir dir path -> basename_only n -> path <> OsPath.join dir n.
Proof.
  intros Hp Hn ->. exact (scratch_not_in_subdir dir n Hn Hp).
Qed.

Lemma tag_file_output api_key file w w' :
  save_as_writes E file \/ is_jpeg_ext (extension file) = false ->
  basename_only (name file) ->
  let output_dir := OsPath.join (temp_dir w) (py "tagged_images") in
  tag_file E output_dir api_key file w = (Ret true, w') ->
  is_Some (fs w' !! tagging_output output_dir file).
Proof.
  intros Hsaved Hn output_dir. unfold tag_file, bind.
  pose proof (preserving_analyze_image E (temp_dir w) file api_key 5 w eq_refl)
    as (Hd & _).
  destruct (analyze_image E file api_key 5 w) as [[metadata|e] w1];
    [|discriminate].
  cbn [snd] in Hd. destruct (truthy metadata); [|discriminate].
  apply write_image_metadata_output; [exact Hsaved|]. rewrite Hd.
  apply output_not_scratch; [|exact Hn].
  apply tagging_output_in_subdir, Hn.
Qed.

Lemma strip_file_output file w w' :
  basename_only (name file) ->
  let output_dir := OsPath.join (temp_dir w) (py "stripped_images") in
  strip_file E output_dir file w = (Ret true, w') ->
  is_Some (fs w' !! stripping_output output_dir file).
Proof.
  intros Hn output_dir. unfold strip_file.
  assert (Hne : stripping_output output_dir file
                <> OsPath.join (temp_dir w) (name file)).
  { apply output_not_scratch; [|exact Hn].
    apply stripping_output_in_subdir, Hn. }
  destruct (is_raw file).
  - intros H. apply process_raw_cr2_success in H as (_ & b & r & i & H);
      [|exact Hne].
    destruct H as (_ & _ & _ & ->). eauto.
  - apply remove_metadata_image_output, Hne.
Qed.

End OutputsWritten.

(** *** The loop of a batch keeps, and lists, files that are on disk *)

Section BatchInvariant.

Variable dir : pystr.
Variable pipeline : uploaded_file -> M bool.
Variable out : uploaded_file -> pystr.

Lemma listed_kept w w' paths :
  keeps dir w w' -> listed dir w paths -> listed dir w' paths.
Proof.
  intros (_ & _ & Hk) H. unfold listed in *. rewrite Forall_forall in *.
  intros path Hp. destruct (H path Hp) as [Hex Hs]. split; [|exact Hs].
  apply Hk; assumption.
Qed.

Lemma for_fold_listed files : forall acc w,
  Forall (fun file =>
            preserving dir (pipeline file)
            /\ in_subdir dir (out file)
            /\ forall w w', temp_dir w = dir ->
                 pipeline file w = (Ret true, w') ->
                 is_Some (fs w' !! out file)) files ->
  temp_dir w = dir -> listed dir w acc ->
  let run :=
    for_fold files
      (fun file processed_files =>
         bind (pipeline file)
           (fun success : bool =>
              if success then ret (processed_files ++ [out file])
              else ret processed_files))
      acc w in
  keeps dir w (snd run)
  /\ forall acc', fst run = Ret acc' -> listed dir (snd run) acc'.
Proof.
  induction files as [|file files IH]; intros acc w Hfiles Hd Hacc;
    cbv zeta in *.
  - cbn [for_fold]. unfold ret. cbn [fst snd]. split; [apply keeps_refl|].
    intros acc' [= <-]. exact Hacc.
  - apply Forall_cons in Hfiles as [(Hkeep & Hsub & Hout) Hfiles].
    match goal with
    | |- context [for_fold (file :: files) ?body acc w] =>
        assert (Hstep :
                  for_fold (file :: files) body acc w
                  = match pipeline file w with
                    | (Ret success, w1) =>
                        for_fold files body
                          (if success : bool then acc ++ [out file] else acc)
                          w1
                    | (Raise e, w1) => (Raise e, w1)
                    end)
          by (cbn [for_fold]; unfold bind;
              destruct (pipeline file w) as [[[]|] ?]; reflexivity);
        rewrite Hstep; clear Hstep
    end.
    specialize (Hkeep w Hd).
    destruct (pipeline file w) as [[success|e] w1] eqn:Hrun; cbn [snd] in Hkeep.
    + assert (Hd1 : temp_dir w1 = dir)
        by (destruct Hkeep as (-> & _); exact Hd).
      assert (Hacc1 : listed dir w1
                        (if success then acc ++ [out file] else acc)).
      { destruct success; [|exact (listed_kept w w1 acc Hkeep Hacc)].
        apply Forall_app. split; [exact (listed_kept w w1 acc Hkeep Hacc)|].
        constructor; [|constructor]. split; [|exact Hsub].
        apply (Hout w w1 Hd Hrun). }
      destruct (IH (if success then acc ++ [out file] else acc) w1
                  Hfiles Hd1 Hacc1) as [Hk Hl].
      split; [|exact Hl]. apply (keeps_trans dir w w1); assumption.
    + cbn [fst snd]. split; [exact Hkeep | discriminate].
Qed.

End BatchInvariant.

Section Operations.

Variable E : externals.

Lemma session_ok_kept w w' :
  keeps (temp_dir w) w w' -> session_ok w -> session_ok w'.
Proof.
  intros Hk. pose proof Hk as (Hd & Hp & _). unfold session_ok.
  rewrite Hd, Hp. apply listed_kept, Hk.
Qed.

(** A batch leaves a result list whose files are on disk: the new list
    when the loop ends, the former list when a pipeline raises. *)
Lemma batch_session_ok (pipeline : uploaded_file -> M bool)
    (out : uploaded_file -> pystr) files w :
  Forall (fun file =>
            preserving (temp_dir w) (pipeline file)
            /\ in_subdir (temp_dir w) (out file)
            /\ forall w0 w', temp_dir w0 = temp_dir w ->
                 pipeline file w0 = (Ret true, w') ->
                 is_Some (fs w' !! out file)) files ->
  session_ok w ->
  session_ok
    (snd (bind
            (for_fold files
               (fun file processed_files =>
                  bind (pipeline file)
                    (fun success : bool =>
                       if success then ret (processed_files ++ [out file])
                       else ret processed_files))
               [])
            (fun processed_files =>
               modify (set_processed_files processed_files)) w)).
Proof.
  intros Hfiles Hok.
  pose proof (for_fold_listed (temp_dir w) pipeline out files [] w Hfiles
                eq_refl (List.Forall_nil _)) as Hloop.
  cbv zeta in Hloop. destruct Hloop as [Hk Hl].
  unfold bind.
  destruct (for_fold files _ [] w) as [[acc|e] w1]; cbn [fst snd] in *.
  - unfold modify, session_ok, set_processed_files;
      cbn [snd fs temp_dir processed_files].
    destruct Hk as (-> & _). apply Hl. reflexivity.
  - apply (session_ok_kept w w1 Hk Hok).
Qed.

Lemma process_tagging_session_ok files api_key w :
  Forall (fun file => basename_only (name file)) files ->
  Forall (fun file =>
            save_as_writes E file \/ is_jpeg_ext (extension file) = false)
    files ->
  session_ok w -> session_ok (snd (process_tagging E files api_key w)).
Proof.
  intros Hnames Hsaved Hok. unfold process_tagging. unfold bind at 1, gets.
  apply batch_session_ok; [|exact Hok].
  rewrite List.Forall_forall in *. intros file Hf.
  specialize (Hnames file Hf). specialize (Hsaved file Hf).
  split; [apply preserving_tag_file, Hnames|].
  split; [apply tagging_output_in_subdir, Hnames|].
  intros w0 w' Hd. rewrite <- Hd. apply tag_file_output; assumption.
Qed.

Lemma process_stripping_session_ok files w :
  Forall (fun file => basename_only (name file)) files ->
  session_ok w -> session_ok (snd (process_stripping E files w)).
Proof.
  intros Hnames Hok. unfold process_stripping. unfold bind at 1, gets.
  apply batch_session_ok; [|exact Hok].
  eapply Forall_impl; [exact Hnames|]. intros file Hn. cbv beta in Hn.
  split; [apply preserving_strip_file, Hn|].
  split; [apply stripping_output_in_subdir, Hn|].
  intros w0 w' Hd. rewrite <- Hd. apply strip_file_output, Hn.
Qed.

Lemma for_each_remove_run files : forall w,
  for_each files remove_if_exists w
  = (Ret tt,
     set_fs (fun disk => fold_left (fun disk path => delete path disk) files disk)
       w).
Proof.
  induction files as [|file files IH]; intros w; cbn [for_each fold_left].
  - unfold ret. destruct w; reflexivity.
  - unfold bind. rewrite remove_if_exists_run, IH. destruct w; reflexivity.
Qed.

Lemma removed_all_absent (files : list pystr) :
  forall (disk : gmap pystr file_content) path,
    In path files \/ disk !! path = None ->
    fold_left (fun disk path => delete path disk) files disk !! path = None.
Proof.
  induction files as [|file files IH]; intros disk path H; cbn [fold_left].
  - destruct H as [[]|H]. exact H.
  - apply IH. destruct H as [[->|H]|H].
    + right. apply lookup_delete_eq.
    + left. exact H.
    + right. destruct (decide (file = path)) as [->|Hne].
      * apply lookup_delete_eq.
      * rewrite lookup_delete_ne by exact Hne. exact H.
Qed.

Lemma clear_outputs_run w :
  clear_outputs w
  = (Ret tt,
     match processed_files w with
     | [] => w
     | files =>
         emit EvSuccess
           (set_processed_files []
              (set_fs (fun disk =>
                         fold_left (fun disk path => delete path disk) files
                           disk) w))
     end).
Proof.
  unfold clear_outputs. unfold bind at 1, gets.
  destruct (processed_files w) as [|file rest]; [reflexivity|].
  unfold bind at 1. rewrite for_each_remove_run. reflexivity.
Qed.

(** After the clear-outputs button the result list is empty. *)
Lemma clear_outputs_session_ok w : session_ok (snd (clear_outputs w)).
Proof.
  rewrite clear_outputs_run. cbn [snd]. unfold session_ok.
  destruct (processed_files w) as [|file rest] eqn:Hpf.
  - rewrite Hpf. constructor.
  - constructor.
Qed.

Lemma download_section_session_ok zip_name w :
  session_ok w -> session_ok (snd (download_section zip_name w)).
Proof.
  apply session_ok_kept. apply preserving_download_section. reflexivity.
Qed.

(** Every operation keeps the invariant, a tagging batch provided that
    [info.save_as] writes for its uploads whenever it returns. *)
Lemma operation_session_ok op w :
  well_named op -> jpegs_saved E op ->
  session_ok w -> session_ok (snd (run_operation E op w)).
Proof.
  intros Hnames Hsaved Hok.
  destruct op as [files api_key | files | zip_name |];
    cbn [run_operation well_named jpegs_saved] in *.
  - apply process_tagging_session_ok; assumption.
  - apply process_stripping_session_ok; assumption.
  - apply download_section_session_ok, Hok.
  - apply clear_outputs_session_ok.
Qed.

End Operations.

(** A run of the script is a sequence of operations. *)
Lemma main_reachable (E : externals) (a : action) (w : world) :
  match a with
  | AnalyzeImages files _ | RemoveMetadata files =>
      Forall (fun file => basename_only (name file)) files
  | _ => True
  end ->
  reachable E w -> reachable E (snd (main E a w)).
Proof.
  intros Hnames Hreach.
  assert (Hstep : forall op (rest : M unit) w0,
             well_named op -> reachable E w0 ->
             (forall w1, reachable E w1 -> reachable E (snd (rest w1))) ->
             reachable E (snd (bind (run_operation E op) (fun _ => rest) w0))).
  { intros op rest w0 Hop Hw0 Hrest. unfold bind.
    pose proof (reachable_step E w0 op Hw0 Hop) as Hw1.
    destruct (run_operation E op w0) as [[[]|e] w1]; cbn [snd] in *;
      [apply Hrest, Hw1 | exact Hw1]. }
  assert (Hskip : forall (rest : M unit) w0,
             reachable E w0 ->
             (forall w1, reachable E w1 -> reachable E (snd (rest w1))) ->
             reachable E (snd (bind (ret tt) (fun _ => rest) w0))).
  { intros rest w0 Hw0 Hrest. unfold bind, ret. apply Hrest, Hw0. }
  assert (Hlast : forall w0, reachable E w0 ->
             reachable E (snd (match a with
                               | ClearOutputsStripping => clear_outputs
                               | _ => ret tt
                               end w0))).
  { intros w0 Hw0.
    destruct a; try exact Hw0.
    exact (reachable_step E w0 OpClearOutputs Hw0 I). }
  unfold main.
  assert (Htab2 : forall w0, reachable E w0 ->
             reachable E
               (snd (bind
                       (match a with
                        | RemoveMetadata (file :: files) =>
                            process_stripping E (file :: files)
                        | _ => ret tt
                        end)
                       (fun _ =>
                          bind (download_section (py "stripped_images.zip"))
                            (fun _ =>
                               match a with
                               | ClearOutputsStripping => clear_outputs
                               | _ => ret tt
                               end)) w0))).
  { intros w0 Hw0.
    assert (Hdl : forall w1, reachable E w1 ->
               reachable E
                 (snd (bind (download_section (py "stripped_images.zip"))
                         (fun _ =>
                            match a with
                            | ClearOutputsStripping => clear_outputs
                            | _ => ret tt
                            end) w1)))
      by (intros w1 Hw1;
          apply (Hstep (OpDownloads (py "stripped_images.zip")) _ w1 I Hw1
                   Hlast)).
    destruct a as [| | [|file files] | |]; try (apply Hskip; assumption).
    apply (Hstep (OpStripping (file :: files)) _ w0 Hnames Hw0 Hdl). }
  assert (Hclear : forall w0, reachable E w0 ->
             reachable E
               (snd (bind
                       (match a with
                        | ClearOutputsTagging => clear_outputs
                        | _ => ret tt
                        end)
                       (fun _ =>
                          bind
                            (match a with
                             | RemoveMetadata (file :: files) =>
                                 process_stripping E (file :: files)
                             | _ => ret tt
                             end)
                            (fun _ =>
                               bind
                                 (download_section (py "stripped_images.zip"))
                                 (fun _ =>
                                    match a with
                                    | ClearOutputsStripping => clear_outputs
                                    | _ => ret tt
                                    end))) w0))).
  { intros w0 Hw0.
    destruct a; try (apply Hskip; assumption).
    apply (Hstep OpClearOutputs _ w0 I Hw0 Htab2). }
  assert (Hdl1 : forall w0, reachable E w0 ->
             reachable E
               (snd (bind (download_section (py "tagged_images.zip"))
                       (fun _ =>
                          bind
                            (match a with
                             | ClearOutputsTagging => clear_outputs
                             | _ => ret tt
                             end)
                            (fun _ =>
                               bind
                                 (match a with
                                  | RemoveMetadata (file :: files) =>
                                      process_stripping E (file :: files)
                                  | _ => ret tt
                                  end)
                                 (fun _ =>
                                    bind
                                      (download_section
                                         (py "stripped_images.zip"))
                                      (fun _ =>
                                         match a with
                                         | ClearOutputsStripping =>
                                             clear_outputs
                                         | _ => ret tt
                                         end)))) w0)))
    by (intros w0 Hw0;
        apply (Hstep (OpDownloads (py "tagged_images.zip")) _ w0 I Hw0 Hclear)).
  destruct a as [| [|file files] [|c api_key] | | |];
    try (apply Hskip; assumption).
  apply (Hstep (OpTagging (file :: files) (c :: api_key)) _ w Hnames Hreach
           Hdl1).
Qed.

(** C9 (the invariant fails).  A PNG file uploaded as [1.jpg] goes to the
    JPEG branch of the writer; [info.save_as] returns without writing,
    the writer returns [True] all the same (lines 174-175), and the batch
    lists an output path without a file: a state the session reaches by
    one tagging batch, in which the next run of the script raises
    [FileNotFoundError] when it opens the listed file for its download
    button. *)
Theorem C9_tagging_lists_a_missing_file :
  let E := checking_env (model_says (py "ok")) in
  let w := snd (run_operation E (OpTagging [png_named_jpg] (py "key"))
                  sample_world) in
  let output_path := py "/tmp/session/tagged_images/1.jpg" in
  reachable E w
  /\ fst (write_image_metadata E png_named_jpg output_path
            (PDict {[ py "caption" := PStr (py "tee") ]}) sample_world)
     = Ret true
  /\ processed_files w = [output_path]
  /\ fs w !! output_path = None
  /\ ~ outputs_on_disk w
  /\ fst (main E Rerun w) = Raise FileNotFoundError.
Proof.
  intros E w output_path.
  assert (Hreach : reachable E w).
  { apply reachable_step; [apply reachable_start|].
    repeat constructor. vm_compute. intros H.
    repeat destruct H as [H|H]; try discriminate H; exact H. }
  assert (Hlist : processed_files w = [output_path])
    by (vm_compute; reflexivity).
  assert (Hfile : fs w !! output_path = None)
    by (vm_compute; reflexivity).
  split; [exact Hreach|]. split; [vm_compute; reflexivity|].
  split; [exact Hlist|]. split; [exact Hfile|]. split.
  - unfold outputs_on_disk. rewrite Hlist. intros H.
    apply Forall_cons in H as [[c Hc] _]. rewrite Hfile in Hc.
    discriminate Hc.
  - vm_compute. reflexivity.
Qed.

(** *** The string and path functions on sample inputs *)

Example splitext_photo :
  OsPath.splitext (py "dir.d/photo.tar.JPG") = (py "dir.d/photo.tar", py ".JPG").
Proof. reflexivity. Qed.

Example splitext_dotfile : OsPath.splitext (py "a/.cr2") = (py "a/.cr2", []).
Proof. reflexivity. Qed.

Example splitext_noext : OsPath.splitext (py "a.b/c") = (py "a.b/c", []).
Proof. reflexivity. Qed.

Example basename_ex :
  OsPath.basename (py "/tmp/t/tagged_images/a.jpg") = py "a.jpg".
Proof. reflexivity. Qed.

Example join_ex : OsPath.join (py "/tmp/t") (py "a.jpg") = py "/tmp/t/a.jpg".
Proof. reflexivity. Qed.

Example splitlines_ex :
  splitlines (py "ab" ++ [13; 10] ++ py "c" ++ [10; 10]) = [py "ab"; py "c"; []].
Proof. reflexivity. Qed.

(** A response wrapped in a Markdown fence. *)
Example sanitize_fenced :
  sanitize (py "```json" ++ [10] ++ py "ok" ++ [10] ++ py "```") = py "ok".
Proof. vm_compute. reflexivity. Qed.

(** A fence around nothing is sanitized to the empty string. *)
Example sanitize_empty_fence : sanitize (py "```json" ++ [10] ++ py "```") = [].
Proof. vm_compute. reflexivity. Qed.

(** ** Further properties *)

(** *** The analysis of one image, whatever the model does *)

Lemma model_calls_backoff k : forall call retries tail,
  length (model_calls (backoff k call retries ++ tail))
  = (k + length (model_calls tail))%nat.
Proof.
  induction k as [|k IH]; intros call retries tail; [reflexivity|].
  cbn [backoff app model_calls flat_map length]. fold (model_calls).
  change (flat_map _ (backoff k (S call) (S retries) ++ tail))
    with (model_calls (backoff k (S call) (S retries) ++ tail)).
  rewrite IH. reflexivity.
Qed.

Lemma sleeps_backoff k : forall call retries tail,
  sleeps (backoff k call retries ++ tail) = doubling retries k ++ sleeps tail.
Proof.
  induction k as [|k IH]; intros call retries tail; [reflexivity|].
  cbn [backoff app sleeps flat_map].
  change (flat_map _ (backoff k (S call) (S retries) ++ tail))
    with (sleeps (backoff k (S call) (S retries) ++ tail)).
  rewrite IH. reflexivity.
Qed.

Section AnyModel.

Variable E : externals.
Variables api_key image : pystr.
Variable max_retries : nat.

(** The loop always returns, after some number [j] of failed attempts,
    each followed by its sleep, and one last attempt. *)
Lemma retry_loop_shape k : forall retries w,
  (retries + k = max_retries)%nat ->
  exists j v,
    (j <= k)%nat
    /\ retry_loop E api_key image max_retries retries w
       = (Ret v,
          after_calls (S j)
            (backoff j (calls w) retries ++ [EvGenerate (calls w + j)]) w).
Proof.
  induction k as [|k IH]; intros retries w Hk;
    (rewrite retry_loop_step; [|lia]).
  - exists 0%nat. unfold try_except, bind, call_model, lift.
    destruct (generate_content E (calls w) api_key image) as [text|e].
    + destruct (interpret_response E text) as [v|e].
      * exists v. split; [lia|].
        unfold after_calls, count_call, emit; simpl.
        rewrite Nat.add_0_r. repeat f_equal. lia.
      * destruct (lt_dec retries max_retries); [lia|].
        exists PNone. split; [lia|].
        unfold ret, after_calls, count_call, emit; simpl.
        rewrite Nat.add_0_r. repeat f_equal. lia.
    + destruct (lt_dec retries max_retries); [lia|].
      exists PNone. split; [lia|].
      unfold ret, after_calls, count_call, emit; simpl.
      rewrite Nat.add_0_r. repeat f_equal. lia.
  - assert (Hretry : forall w1,
               w1 = count_call (emit (EvGenerate (calls w)) w) ->
               exists j v,
                 (j <= S k)%nat
                 /\ bind (sleep (2 ^ N.of_nat retries))
                      (fun _ => retry_loop E api_key image max_retries
                                  (S retries)) w1
                    = (Ret v,
                       after_calls (S j)
                         (backoff j (calls w) retries
                          ++ [EvGenerate (calls w + j)]) w)).
    { intros w1 ->. unfold bind, sleep, modify.
      destruct (IH (S retries)
                  (emit (EvSleep (2 ^ N.of_nat retries))
                     (count_call (emit (EvGenerate (calls w)) w))))
        as (j & v & Hj & ->); [lia|].
      exists (S j), v. split; [lia|].
      unfold after_calls; simpl. f_equal. f_equal; [lia|].
      rewrite <- !app_assoc. simpl. repeat f_equal. lia. }
    unfold try_except, bind at 1. unfold call_model.
    destruct (generate_content E (calls w) api_key image) as [text|e].
    + unfold lift. destruct (interpret_response E text) as [v|e].
      * exists 0%nat, v. split; [lia|].
        unfold after_calls, count_call, emit; simpl.
        rewrite Nat.add_0_r. repeat f_equal. lia.
      * destruct (lt_dec retries max_retries); [|lia].
        apply Hretry. reflexivity.
    + destruct (lt_dec retries max_retries); [|lia].
      apply Hretry. reflexivity.
Qed.

(** Every attempt ends in the handler: the retries are used up. *)
Lemma retry_loop_all_fail k : forall retries w,
  (retries + k = max_retries)%nat ->
  (forall n, (calls w <= n <= calls w + k)%nat ->
     attempt_fails E api_key image n) ->
  retry_loop E api_key image max_retries retries w =
    (Ret PNone,
     after_calls (S k)
       (backoff k (calls w) retries ++ [EvGenerate (calls w + k)]) w).
Proof.
  assert (Hfail : forall n, attempt_fails E api_key image n ->
            exists e,
              rbind (generate_content E n api_key image)
                (interpret_response E) = Raise e).
  { intros n [[e He] | (text & e & Ht & Hne & Hs & Hj & He)].
    - exists e. rewrite He. reflexivity.
    - exists e. rewrite Ht. cbn [rbind]. unfold interpret_response.
      destruct text; [congruence|].
      destruct (sanitize _); [congruence|]. rewrite Hj.
      destruct e; congruence. }
  assert (Hattempt : forall w,
            attempt_fails E api_key image (calls w) ->
            exists e,
              bind (call_model E api_key image)
                (fun text => lift (interpret_response E text)) w
              = (Raise e, count_call (emit (EvGenerate (calls w)) w))).
  { intros w Hw. destruct (Hfail _ Hw) as [e He]. exists e.
    unfold bind, call_model, lift.
    destruct (generate_content E (calls w) api_key image) as [text|e'];
      cbn [rbind] in He; [rewrite He | injection He as ->]; reflexivity. }
  induction k as [|k IH]; intros retries w Hk Hr;
    (rewrite retry_loop_step; [|lia]); unfold try_except;
    (destruct (Hattempt w) as [e ->]; [apply Hr; lia|]).
  - destruct (lt_dec retries max_retries); [lia|].
    unfold ret, after_calls, count_call, emit; simpl.
    rewrite Nat.add_0_r. repeat f_equal. lia.
  - destruct (lt_dec retries max_retries); [|lia].
    unfold bind, sleep, modify.
    rewrite IH; [|lia|].
    + unfold after_calls; simpl. f_equal. f_equal; [lia|].
      rewrite <- !app_assoc. simpl. repeat f_equal. lia.
    + intros n Hn. apply Hr. simpl in *. lia.
Qed.

End AnyModel.

(** X1.  Whatever the model and the parser do, [analyze_image] returns
    (it never raises), touches neither the files nor the session state,
    and either makes no model call or makes [j + 1] calls for some
    [j <= max_retries], with the sleeps [1, 2, ..., 2^(j-1)] between
    them: at most [max_retries + 1] calls. *)
Theorem X1_analysis_is_bounded
    (E : externals) (image_file : uploaded_file) (api_key : pystr)
    (max_retries : nat) (w : world) :
  exists v trace,
    analyze_image E image_file api_key max_retries w
    = (Ret v,
       mkWorld (fs w) (temp_dir w) (processed_files w)
         (calls w + length (model_calls trace)) (log w ++ trace))
    /\ (length (model_calls trace) <= S max_retries)%nat
    /\ (trace = []
        \/ exists j,
             (j <= max_retries)%nat
             /\ trace = backoff j (calls w) 0 ++ [EvGenerate (calls w + j)]
             /\ length (model_calls trace) = S j
             /\ sleeps trace = doubling 0 j).
Proof.
  unfold analyze_image.
  assert (Hnone : exists v trace,
            ret PNone w
            = (Ret v,
               mkWorld (fs w) (temp_dir w) (processed_files w)
                 (calls w + length (model_calls trace)) (log w ++ trace))
            /\ (length (model_calls trace) <= S max_retries)%nat
            /\ (trace = []
                \/ exists j,
                     (j <= max_retries)%nat
                     /\ trace = backoff j (calls w) 0
                                ++ [EvGenerate (calls w + j)]
                     /\ length (model_calls trace) = S j
                     /\ sleeps trace = doubling 0 j)).
  { exists PNone, []. split; [|split; [simpl; lia | left; reflexivity]].
    unfold ret. simpl. rewrite Nat.add_0_r, app_nil_r.
    destruct w; reflexivity. }
  destruct (encode_image E image_file) as [base64_image|]; [|exact Hnone].
  destruct (genai_configure E api_key); [|exact Hnone].
  destruct (retry_loop_shape E api_key base64_image max_retries max_retries
              0 w eq_refl) as (j & v & Hj & ->).
  exists v, (backoff j (calls w) 0 ++ [EvGenerate (calls w + j)]).
  assert (Hlen : length (model_calls
                           (backoff j (calls w) 0
                            ++ [EvGenerate (calls w + j)])) = S j)
    by (rewrite model_calls_backoff; simpl; lia).
  split; [|split; [lia|]].
  - unfold after_calls. rewrite Hlen. reflexivity.
  - right. exists j. split; [exact Hj|]. split; [reflexivity|].
    split; [exact Hlen|].
    rewrite sleeps_backoff. simpl. apply app_nil_r.
Qed.

(** X2.  When the first [k <= max_retries] calls raise and the next one
    answers with text that the parser accepts once sanitized,
    [analyze_image] returns the parsed value, whatever JSON value it is,
    right after that call. *)
Theorem X2_retry_recovers
    (E : externals) (image_file : uploaded_file) (api_key : pystr)
    (max_retries k : nat) (w : world) (b : bytes) (text : pystr)
    (json_data : pyval) :
  getvalue image_file = Ret b ->
  genai_configure E api_key = Ret tt ->
  (k <= max_retries)%nat ->
  raising E api_key (b64encode E b) (calls w) k ->
  generate_content E (calls w + k) api_key (b64encode E b) = Ret text ->
  text <> [] -> sanitize text <> [] ->
  json_loads E (sanitize text) = Ret json_data ->
  analyze_image E image_file api_key max_retries w
  = (Ret json_data,
     after_calls (S k)
       (backoff k (calls w) 0 ++ [EvGenerate (calls w + k)]) w).
Proof.
  intros Hb Hc Hk Hr Hg Ht Hs Hj.
  unfold analyze_image, encode_image. rewrite Hb, Hc.
  apply (retry_loop_answer E api_key (b64encode E b) max_retries k 0 w text);
    [lia | exact Hr | exact Hg |].
  unfold interpret_response. destruct text; [congruence|].
  destruct (sanitize _); [congruence|]. rewrite Hj. reflexivity.
Qed.

Lemma X2_witness :
  analyze_image
    (sample_env true
       (model_script [Raise (LibraryError 503); Raise (LibraryError 503);
                      Ret (py "```json" ++ [10] ++ py "ok" ++ [10] ++ py "```")]))
    (photo "a.jpg") (py "key") 5 sample_world
  = (Ret (PDict {[ py "caption" := PStr (py "tee") ]}),
     after_calls 3
       [EvGenerate 0; EvSleep 1; EvGenerate 1; EvSleep 2; EvGenerate 2]
       sample_world).
Proof.
  apply (X2_retry_recovers _ (photo "a.jpg") (py "key") 5 2 sample_world []
           (py "```json" ++ [10] ++ py "ok" ++ [10] ++ py "```")).
  - reflexivity.
  - reflexivity.
  - lia.
  - intros n Hn. simpl in Hn.
    assert (n = 0 \/ n = 1)%nat as [-> | ->] by lia; eexists; reflexivity.
  - reflexivity.
  - discriminate.
  - vm_compute. discriminate.
  - vm_compute. reflexivity.
Defined.

(** X3.  For every [max_retries]: when every attempt ends in the
    handler of the loop, because the call raises or because the parser
    raises something other than [json.JSONDecodeError], [analyze_image]
    makes [max_retries + 1] calls, sleeps [2^i] seconds after the [i]-th
    failure, and returns [None]. *)
Theorem X3_every_exception_is_retried
    (E : externals) (image_file : uploaded_file) (api_key : pystr)
    (max_retries : nat) (w : world) (b : bytes) :
  getvalue image_file = Ret b ->
  genai_configure E api_key = Ret tt ->
  (forall n, attempt_fails E api_key (b64encode E b) n) ->
  let trace :=
    backoff max_retries (calls w) 0 ++ [EvGenerate (calls w + max_retries)] in
  analyze_image E image_file api_key max_retries w
  = (Ret PNone, after_calls (S max_retries) trace w)
  /\ length (model_calls trace) = S max_retries
  /\ sleeps trace = doubling 0 max_retries.
Proof.
  intros Hb Hc Hfail trace. split; [|split].
  - unfold analyze_image, encode_image. rewrite Hb, Hc.
    apply retry_loop_all_fail; [reflexivity|]. intros n _. apply Hfail.
  - unfold trace. rewrite model_calls_backoff. simpl. lia.
  - unfold trace. rewrite sleeps_backoff. simpl. apply app_nil_r.
Qed.

Lemma X3_witness :
  analyze_image sample_env_parser_crash (photo "a.jpg") (py "key") 2
    sample_world
  = (Ret PNone,
     after_calls 3
       [EvGenerate 0; EvSleep 1; EvGenerate 1; EvSleep 2; EvGenerate 2]
       sample_world).
Proof.
  apply (X3_every_exception_is_retried sample_env_parser_crash
           (photo "a.jpg") (py "key") 2 sample_world []).
  - reflexivity.
  - reflexivity.
  - intros n. right. exists (py "[[[["), ValueError.
    repeat split; try discriminate; vm_compute; (reflexivity || discriminate).
Defined.

(** *** Markdown fences *)

Lemma lstrip_app_nonspace a c b :
  isspace c = false -> lstrip (a ++ c :: b) = lstrip a ++ c :: b.
Proof.
  intros Hc. induction a as [|x a IH]; cbn [app lstrip].
  - rewrite Hc. reflexivity.
  - destruct (isspace x); [exact IH | reflexivity].
Qed.

(** A string that begins and ends with a backtick has nothing to strip. *)
Lemma strip_between_backticks s :
  strip (96 :: s ++ [96]) = 96 :: s ++ [96].
Proof.
  unfold strip, rstrip. cbn [lstrip].
  change (isspace 96) with false. cbv iota.
  change (96 :: s ++ [96]) with ((96 :: s) ++ [96]).
  rewrite rev_app_distr. cbn [rev app lstrip].
  change (isspace 96) with false. cbv iota.
  change (96 :: rev s ++ [96]) with (rev [96] ++ rev s ++ rev [96]).
  rewrite <- !rev_app_distr, rev_involutive. reflexivity.
Qed.

(** The opening line of a fence, stripped, still begins with the fence. *)
Lemma strip_fence_line lang :
  startswith fence (strip (fence ++ lang)) = true.
Proof.
  unfold strip, rstrip. change (fence ++ lang) with (96 :: 96 :: 96 :: lang).
  cbn [lstrip]. change (isspace 96) with false. cbv iota.
  change (96 :: 96 :: 96 :: lang) with ([96; 96; 96] ++ lang).
  rewrite rev_app_distr. cbn [rev app].
  rewrite (lstrip_app_nonspace (rev lang) 96 [96; 96] eq_refl).
  rewrite rev_app_distr. reflexivity.
Qed.

Lemma splitlines_aux_line s : forall cur rest,
  single_line s ->
  splitlines_aux cur (s ++ 10 :: rest)
  = (rev cur ++ s) :: splitlines_aux [] rest.
Proof.
  induction s as [|c s IH]; intros cur rest Hs.
  - cbn [app splitlines_aux]. change (islinebreak 10) with true. cbv iota.
    rewrite app_nil_r. reflexivity.
  - apply Forall_cons in Hs as [Hc Hs]. cbn [app splitlines_aux].
    rewrite Hc, IH by exact Hs. cbn [rev]. rewrite <- app_assoc. reflexivity.
Qed.

(** The text between the fences, when it is one line. *)
Lemma strip_fences_fenced lang body :
  single_line lang -> single_line body ->
  strip_fences (fence ++ lang ++ 10 :: body ++ 10 :: fence) = strip body.
Proof.
  intros Hlang Hbody. unfold strip_fences.
  change (startswith fence (fence ++ lang ++ 10 :: body ++ 10 :: fence))
    with true. cbv iota.
  assert (Hlines : splitlines (fence ++ lang ++ 10 :: body ++ 10 :: fence)
                   = [fence ++ lang; body; fence]).
  { unfold splitlines. rewrite app_assoc.
    rewrite splitlines_aux_line.
    - rewrite splitlines_aux_line by exact Hbody. reflexivity.
    - apply Forall_app. split; [|exact Hlang].
      repeat constructor. }
  rewrite Hlines, strip_fence_line.
  cbn [last]. change (eqb (strip fence) fence) with true. cbv iota.
  reflexivity.
Qed.

(** X4.  A response that wraps one line of text in a Markdown fence,
    with any language tag, is interpreted like the bare line (provided
    the bare line does not itself begin with a fence): the same string
    reaches the JSON parser. *)
Theorem X4_fence_is_transparent
    (E : externals) (lang body : pystr) :
  single_line lang -> single_line body -> body <> [] ->
  startswith fence (strip body) = false ->
  let fenced := fence ++ lang ++ 10 :: body ++ 10 :: fence in
  sanitize fenced = remove_control (strip body)
  /\ sanitize body = remove_control (strip body)
  /\ interpret_response E fenced = interpret_response E body.
Proof.
  intros Hlang Hbody Hne Hbare fenced.
  assert (Hfenced : sanitize fenced = remove_control (strip body)).
  { assert (Hshape : fenced
                     = 96 :: (96 :: 96 :: lang ++ 10 :: body ++ [10; 96; 96])
                             ++ [96]).
    { unfold fenced. change fence with [96; 96; 96]. cbn [app].
      do 3 f_equal. rewrite <- app_assoc. cbn [app].
      rewrite <- app_assoc. reflexivity. }
    unfold sanitize. rewrite Hshape, strip_between_backticks, <- Hshape.
    unfold fenced.
    rewrite (strip_fences_fenced lang body Hlang Hbody). reflexivity. }
  assert (Hplain : sanitize body = remove_control (strip body)).
  { unfold sanitize, strip_fences. rewrite Hbare. reflexivity. }
  split; [exact Hfenced|]. split; [exact Hplain|].
  unfold interpret_response. fold fenced. rewrite Hfenced, Hplain.
  destruct body; [congruence|]. reflexivity.
Qed.

Lemma X4_witness :
  interpret_response (sample_env true model_down)
    (fence ++ py "json" ++ 10 :: py " ok " ++ 10 :: fence)
  = interpret_response (sample_env true model_down) (py " ok ").
Proof.
  apply (X4_fence_is_transparent (sample_env true model_down)
           (py "json") (py " ok ")).
  - repeat constructor.
  - repeat constructor.
  - discriminate.
  - reflexivity.
Defined.

(** *** The scratch copy *)

Section Scratch.

Variable E : externals.

(** A guarded pipeline returns, and its scratch file is gone. *)
Lemma guarded_cleanup (body : M bool) image_file path w :
  exists success w',
    try_finally (try_except body (report_failure image_file))
      (remove_if_exists path) w = (Ret success, w')
    /\ fs w' !! path = None.
Proof.
  unfold try_finally, try_except.
  destruct (body w) as [[success|e] w1].
  - rewrite remove_if_exists_run. eexists _, _. split; [reflexivity|].
    unfold set_fs; cbn [fs]. apply lookup_delete_eq.
  - unfold report_failure, bind, modify, ret. rewrite remove_if_exists_run.
    eexists _, _. split; [reflexivity|].
    unfold set_fs; cbn [fs]. apply lookup_delete_eq.
Qed.

Ltac scratch_cleanup Ho Hb :=
  unfold bind at 1, gets; unfold bind at 1; unfold opens in Ho;
  rewrite Ho, Hb, write_file_run; apply guarded_cleanup.

Lemma write_image_metadata_cleanup image_file output_path metadata w :
  opens E (temp_dir w) image_file -> readable image_file ->
  exists success w',
    write_image_metadata E image_file output_path metadata w
    = (Ret success, w')
    /\ fs w' !! OsPath.join (temp_dir w) (name image_file) = None.
Proof.
  intros Ho [b Hb]. unfold write_image_metadata. scratch_cleanup Ho Hb.
Qed.

Lemma remove_metadata_image_cleanup image_file output_path w :
  opens E (temp_dir w) image_file -> readable image_file ->
  exists success w',
    remove_metadata_image E image_file output_path w = (Ret success, w')
    /\ fs w' !! OsPath.join (temp_dir w) (name image_file) = None.
Proof.
  intros Ho [b Hb]. unfold remove_metadata_image. scratch_cleanup Ho Hb.
Qed.

Lemma process_raw_cr2_cleanup image_file output_path w :
  opens E (temp_dir w) image_file -> readable image_file ->
  RAW_SUCCESS E = true ->
  exists success w',
    process_raw_cr2 E image_file output_path w = (Ret success, w')
    /\ fs w' !! OsPath.join (temp_dir w) (name image_file) = None.
Proof.
  intros Ho [b Hb] Hraw. unfold process_raw_cr2. rewrite Hraw. cbn [negb].
  scratch_cleanup Ho Hb.
Qed.

End Scratch.

(** X5.  For a file whose scratch copy can be opened and whose content
    can be read, the three per-file functions return [True] or [False]
    (no exception leaves them) and the scratch copy [temp_dir/name] does
    not exist afterwards, whatever happened.  The two strippers return
    [True] only with the output file on disk; so does the writer in its
    PNG branch, and in its JPEG branch when [info.save_as] writes
    whenever it returns.  ([process_raw_cr2] makes no scratch copy
    without the RAW library.) *)
Theorem X5_scratch_copy_is_removed
    (E : externals) (image_file : uploaded_file) (output_path : pystr)
    (metadata : pyval) (w : world) :
  opens E (temp_dir w) image_file ->
  readable image_file ->
  let temp_file_path := OsPath.join (temp_dir w) (name image_file) in
  let written := write_image_metadata E image_file output_path metadata w in
  output_path <> temp_file_path ->
  (exists success,
     fst written = Ret success /\ fs (snd written) !! temp_file_path = None)
  /\ (save_as_writes E image_file
      \/ is_jpeg_ext (extension image_file) = false ->
      cleaned temp_file_path output_path written)
  /\ cleaned temp_file_path output_path
       (remove_metadata_image E image_file output_path w)
  /\ (RAW_SUCCESS E = true ->
      cleaned temp_file_path output_path
        (process_raw_cr2 E image_file output_path w)).
Proof.
  intros Ho Hr temp_file_path written Hne. unfold cleaned.
  destruct (write_image_metadata_cleanup E image_file output_path metadata
              w Ho Hr) as (success & w' & Hrun & Hgone).
  split; [|split; [|split]].
  - unfold written. rewrite Hrun. exists success. split; [reflexivity|].
    exact Hgone.
  - intros Hsaved. unfold written. rewrite Hrun. exists success.
    repeat split; [exact Hgone|]. intros ->.
    exact (write_image_metadata_output E _ _ _ _ _ Hsaved Hne Hrun).
  - clear success w' Hrun Hgone.
    destruct (remove_metadata_image_cleanup E image_file output_path w Ho Hr)
      as (success & w' & Hrun & Hgone).
    rewrite Hrun. exists success. repeat split; [exact Hgone|].
    intros ->. exact (remove_metadata_image_output E _ _ _ _ Hne Hrun).
  - intros Hraw. clear success w' Hrun Hgone.
    destruct (process_raw_cr2_cleanup E image_file output_path w Ho Hr Hraw)
      as (success & w' & Hrun & Hgone).
    rewrite Hrun. exists success. repeat split; [exact Hgone|].
    intros ->.
    destruct (process_raw_cr2_success E _ _ _ _ Hrun Hne)
      as (_ & b & rgb & img & _ & _ & _ & Hout).
    cbn [snd]. rewrite Hout. eauto.
Qed.

Lemma X5_witness :
  cleaned (py "/tmp/session/a.png") (py "/tmp/session/tagged_images/a.png")
    (write_image_metadata (sample_env true model_down) (photo "a.png")
       (py "/tmp/session/tagged_images/a.png") (PInt 5) sample_world).
Proof.
  apply (X5_scratch_copy_is_removed (sample_env true model_down)
           (photo "a.png") (py "/tmp/session/tagged_images/a.png") (PInt 5)
           sample_world).
  - reflexivity.
  - exists []. reflexivity.
  - vm_compute. discriminate.
  - right. reflexivity.
Defined.

(** *** Files that cannot be read *)

Lemma ignores_session_keeps_list {A} (m : M A) w :
  ignores_session m -> processed_files (snd (m w)) = processed_files w.
Proof.
  intros Hm. specialize (Hm (processed_files w) w).
  assert (Hw : set_processed_files (processed_files w) w = w)
    by (destruct w; reflexivity).
  rewrite Hw in Hm. rewrite Hm at 1. reflexivity.
Qed.

Section Unreadable.

Variable E : externals.

(** The [open] of the scratch copy is outside the [try]: when it raises,
    the exception leaves the stripping pipeline and nothing has changed. *)
Lemma strip_file_blocked output_dir file e w :
  open_wb E (OsPath.join (temp_dir w) (name file)) = Raise e ->
  is_raw file = false \/ RAW_SUCCESS E = true ->
  strip_file E output_dir file w = (Raise e, w).
Proof.
  intros Ho Hkind. unfold strip_file.
  destruct (is_raw file).
  - destruct Hkind as [Hkind|Hkind]; [discriminate|].
    apply process_raw_cr2_blocked; assumption.
  - unfold remove_metadata_image. unfold bind at 1, gets. unfold bind at 1.
    rewrite Ho. reflexivity.
Qed.

(** [getvalue()] is evaluated outside the [try] too: when it raises, the
    exception leaves the stripping pipeline, and the scratch file, just
    created, stays behind, empty. *)
Lemma strip_file_unreadable output_dir file e w :
  opens E (temp_dir w) file ->
  getvalue file = Raise e ->
  is_raw file = false \/ RAW_SUCCESS E = true ->
  strip_file E output_dir file w
  = (Raise e,
     set_fs (insert (OsPath.join (temp_dir w) (name file)) (FBytes [])) w).
Proof.
  intros Ho He Hkind. unfold strip_file. unfold opens in Ho.
  destruct (is_raw file).
  - destruct Hkind as [Hkind|Hkind]; [discriminate|].
    unfold process_raw_cr2. rewrite Hkind. cbn [negb].
    unfold bind at 1, gets. unfold bind at 1. rewrite Ho, He. reflexivity.
  - unfold remove_metadata_image.
    unfold bind at 1, gets. unfold bind at 1. rewrite Ho, He. reflexivity.
Qed.

Lemma world_after_keeps_list (pipeline : uploaded_file -> M bool) files :
  (forall file, ignores_session (pipeline file)) ->
  forall w,
    processed_files (world_after pipeline files w) = processed_files w.
Proof.
  intros Hig. induction files as [|file files IH]; intros w; [reflexivity|].
  cbn [world_after].
  pose proof (ignores_session_keeps_list (pipeline file) w (Hig file)) as Hpf.
  destruct (pipeline file w) as [[success|e] w1]; cbn [snd] in Hpf.
  - rewrite IH. exact Hpf.
  - exact Hpf.
Qed.

Lemma world_after_fixes_dir (pipeline : uploaded_file -> M bool) files :
  (forall file, fixes_dir (pipeline file)) ->
  forall w, temp_dir (world_after pipeline files w) = temp_dir w.
Proof.
  intros Hfix. induction files as [|file files IH]; intros w; [reflexivity|].
  cbn [world_after]. pose proof (Hfix file w) as Hd.
  destruct (pipeline file w) as [[success|e] w1]; cbn [snd] in Hd.
  - rewrite IH. exact Hd.
  - exact Hd.
Qed.

(** The loop of a batch in which the pipeline of one file raises. *)
Lemma for_fold_aborts (pipeline : uploaded_file -> M bool)
    (out : uploaded_file -> pystr) before file after :
  forall acc w,
    (forall f, f ∈ before ->
       returns_in (temp_dir w) (pipeline f) /\ fixes_dir (pipeline f)) ->
    fst (pipeline file (world_after pipeline before w)) <> Ret true ->
    fst (pipeline file (world_after pipeline before w)) <> Ret false ->
    exists e,
      pipeline file (world_after pipeline before w)
      = (Raise e, snd (pipeline file (world_after pipeline before w)))
      /\ for_fold (before ++ file :: after)
           (fun file processed_files =>
              bind (pipeline file)
                (fun success : bool =>
                   if success then ret (processed_files ++ [out file])
                   else ret processed_files))
           acc w
         = (Raise e, snd (pipeline file (world_after pipeline before w))).
Proof.
  induction before as [|f before IH]; intros acc w Hret Ht Hf.
  - cbn [app for_fold world_after] in *. unfold bind.
    destruct (pipeline file w) as [[[]|e] w']; cbn [fst snd] in *;
      try congruence.
    exists e. auto.
  - cbn [app for_fold world_after] in *. unfold bind at 1. unfold bind at 1.
    destruct (Hret f ltac:(left)) as [Hfile Hfix].
    destruct (Hfile w eq_refl) as (success & w1 & Hrun).
    specialize (Hfix w). rewrite Hrun in *. cbn [snd] in Hfix.
    assert (Hrest : forall f0, f0 ∈ before ->
              returns_in (temp_dir w1) (pipeline f0)
              /\ fixes_dir (pipeline f0))
      by (intros f0 Hf0; rewrite Hfix; apply Hret; right; exact Hf0).
    destruct success; unfold ret; apply (IH _ _ Hrest Ht Hf).
Qed.

End Unreadable.

(** X6.  In a stripping batch, a file whose scratch copy cannot be
    opened, or whose [getvalue()] raises, ends the batch: the exception
    leaves [process_stripping], the files after it are not processed and
    the session keeps the result list it had (the outputs of the files
    before are on disk but not listed).  When it was the [open] that
    raised nothing else has changed; when it was [getvalue()], the empty
    scratch file of the unreadable file stays behind. *)
Theorem X6_unreadable_file_aborts_stripping
    (E : externals) (before after : list uploaded_file)
    (file : uploaded_file) (w : world) :
  Forall (opens E (temp_dir w)) before ->
  Forall readable before ->
  is_raw file = false \/ RAW_SUCCESS E = true ->
  let output_dir := OsPath.join (temp_dir w) (py "stripped_images") in
  let temp_file_path := OsPath.join (temp_dir w) (name file) in
  let w1 := world_after (strip_file E output_dir) before w in
  let run := process_stripping E (before ++ file :: after) w in
  (forall e, open_wb E temp_file_path = Raise e -> run = (Raise e, w1))
  /\ (forall e,
        open_wb E temp_file_path = Ret tt -> getvalue file = Raise e ->
        run = (Raise e, set_fs (insert temp_file_path (FBytes [])) w1))
  /\ processed_files w1 = processed_files w.
Proof.
  intros Hopen Hbefore Hkind output_dir temp_file_path w1 run.
  assert (Hd1 : temp_dir w1 = temp_dir w)
    by (apply world_after_fixes_dir; intros f; apply fixes_dir_strip_file).
  assert (Hloop : forall e w',
            strip_file E output_dir file w1 = (Raise e, w') ->
            run = (Raise e, w')).
  { intros e w' Hfile. unfold run, process_stripping.
    unfold bind at 1, gets. fold output_dir. unfold bind at 1.
    destruct (for_fold_aborts (strip_file E output_dir)
                (stripping_output output_dir) before file after [] w)
      as (e' & Hfile' & ->).
    - apply stripping_returns; assumption.
    - fold w1. rewrite Hfile. discriminate.
    - fold w1. rewrite Hfile. discriminate.
    - fold w1 in Hfile'. rewrite Hfile in Hfile'. injection Hfile' as <-.
      fold w1. rewrite Hfile. reflexivity. }
  split; [|split].
  - intros e Ho. apply Hloop. apply strip_file_blocked; [|exact Hkind].
    rewrite Hd1. exact Ho.
  - intros e Ho He. apply Hloop. unfold temp_file_path. rewrite <- Hd1.
    apply strip_file_unreadable; [|exact He|exact Hkind].
    unfold opens. rewrite Hd1. exact Ho.
  - apply world_after_keeps_list. intros f. apply ignores_strip_file.
Qed.

Lemma X6_witness :
  process_stripping (sample_env true model_down)
    ([photo "a.png"] ++ mkUpload (py "b.png") (Raise ValueError)
                        :: [photo "c.png"])
    sample_world
  = (Raise ValueError,
     mkWorld
       {[ py "/tmp/session/stripped_images/a.png"
            := FImage sample_image None None [];
          py "/tmp/session/b.png" := FBytes [] ]}
       (py "/tmp/session") [] 0 []).
Proof.
  destruct (X6_unreadable_file_aborts_stripping
              (sample_env true model_down) [photo "a.png"] [photo "c.png"]
              (mkUpload (py "b.png") (Raise ValueError))
              sample_world) as (_ & Hrun & _).
  - repeat constructor.
  - repeat constructor. exists []. reflexivity.
  - left. reflexivity.
  - rewrite (Hrun ValueError eq_refl eq_refl). vm_compute. reflexivity.
Defined.

(** *** What the stripper writes *)

(** X7.  When [remove_metadata_image] returns [True], the file at the
    output path is an image saved without format or quality argument
    and without text chunks, that has the mode, the size and the pixel
    data of the decoded upload and an empty [info] dictionary; no
    [st.error] message has been shown. *)
Theorem X7_stripped_image_has_no_info
    (E : externals) (image_file : uploaded_file) (output_path : pystr)
    (w w' : world) :
  output_path <> OsPath.join (temp_dir w) (name image_file) ->
  remove_metadata_image E image_file output_path w = (Ret true, w') ->
  exists b img,
    getvalue image_file = Ret b
    /\ Image_open E (FBytes b) = Ret img
    /\ fs w' !! output_path
       = Some (FImage (mkImage (mode img) (size img) (pixels img) [])
                 None None [])
    /\ log w' = log w.
Proof.
  intros Hne. unfold remove_metadata_image.
  unfold bind at 1, gets. unfold bind at 1.
  destruct (write_file _ _ _ w) as [[[]|e] w0] eqn:Hcopy; [|discriminate].
  apply write_file_inv in Hcopy as (b & _ & Hb & ->).
  intros H.
  apply guarded_success in H as (w1 & Hbody & ->).
  unfold bind at 1, read_file in Hbody. unfold set_fs in Hbody at 1.
  cbn [fs] in Hbody. rewrite lookup_insert_eq in Hbody.
  unfold bind at 1, lift at 1 in Hbody.
  destruct (Image_open E (FBytes b)) as [img|] eqn:Himg; [|discriminate].
  unfold bind in Hbody.
  destruct (library_save _ _ _ _ _) as [[[]|e] w2] eqn:Hs; [|discriminate].
  apply image_save_inv in Hs as [_ ->].
  unfold ret in Hbody. injection Hbody as <-.
  exists b, img. split; [exact Hb|]. repeat split; [exact Himg|].
  unfold set_fs; cbn [fs]. rewrite lookup_delete_ne by congruence.
  apply lookup_insert_eq.
Qed.

Lemma X7_witness :
  exists b img,
    getvalue (photo "a.gif") = Ret b
    /\ Image_open (sample_env true model_down) (FBytes b) = Ret img
    /\ fs (snd (remove_metadata_image (sample_env true model_down)
                  (photo "a.gif") (py "/tmp/session/stripped_images/a.gif")
                  sample_world))
         !! py "/tmp/session/stripped_images/a.gif"
       = Some (FImage (mkImage (mode img) (size img) (pixels img) [])
                 None None []).
Proof.
  destruct (X7_stripped_image_has_no_info (sample_env true model_down)
              (photo "a.gif") (py "/tmp/session/stripped_images/a.gif")
              sample_world
              (snd (remove_metadata_image (sample_env true model_down)
                      (photo "a.gif")
                      (py "/tmp/session/stripped_images/a.gif")
                      sample_world)))
    as (b & img & Hb & Himg & Hfs & _).
  - vm_compute. discriminate.
  - vm_compute. reflexivity.
  - exists b, img. auto.
Defined.

(** *** Model calls of a batch *)

Section CallsWithin.

Context {A B : Type}.

Lemma calls_within_weaken n n' (m : M A) :
  (n <= n')%nat -> calls_within n m -> calls_within n' m.
Proof. intros Hn Hm w. specialize (Hm w). lia. Qed.

Lemma calls_within_ret (a : A) : calls_within 0 (ret a).
Proof. intros w. cbn. lia. Qed.

Lemma calls_within_raise e : calls_within 0 (@raise A e).
Proof. intros w. cbn. lia. Qed.

Lemma calls_within_lift (r : result A) : calls_within 0 (lift r).
Proof. intros w. cbn. lia. Qed.

Lemma calls_within_gets (f : world -> A) : calls_within 0 (gets f).
Proof. intros w. cbn. lia. Qed.

Lemma calls_within_bind n1 n2 (m : M A) (f : A -> M B) :
  calls_within n1 m -> (forall a, calls_within n2 (f a)) ->
  calls_within (n1 + n2) (bind m f).
Proof.
  intros Hm Hf w. unfold bind. specialize (Hm w).
  destruct (m w) as [[a|e] w1]; cbn [snd] in *; [|lia].
  specialize (Hf a w1). lia.
Qed.

Lemma calls_within_try_except n1 n2 (body : M A) handler :
  calls_within n1 body -> (forall e, calls_within n2 (handler e)) ->
  calls_within (n1 + n2) (try_except body handler).
Proof.
  intros Hb Hh w. unfold try_except. specialize (Hb w).
  destruct (body w) as [[a|e] w1]; cbn [snd] in *; [lia|].
  specialize (Hh e w1). lia.
Qed.

Lemma calls_within_try_finally n1 n2 (body : M A) cleanup :
  calls_within n1 body -> calls_within n2 cleanup ->
  calls_within (n1 + n2) (try_finally body cleanup).
Proof.
  intros Hb Hc w. unfold try_finally. specialize (Hb w).
  destruct (body w) as [r w1]; cbn [snd] in *. specialize (Hc w1).
  destruct (cleanup w1) as [[[]|e] w2]; cbn [snd] in *; lia.
Qed.

End CallsWithin.

Lemma calls_within_set_fs f : calls_within 0 (modify (set_fs f)).
Proof. intros w. cbn. lia. Qed.

Lemma calls_within_emit e : calls_within 0 (modify (emit e)).
Proof. intros w. cbn. lia. Qed.

Lemma calls_within_read_file path : calls_within 0 (read_file path).
Proof. intros w. unfold read_file. destruct (fs w !! path); cbn; lia. Qed.

Create HintDb silent discriminated.

#[local] Hint Resolve calls_within_ret calls_within_raise calls_within_lift
  calls_within_gets calls_within_set_fs calls_within_emit
  calls_within_read_file : silent.

(** Decompose a goal stating that a computation makes no model call. *)
Ltac silent_step :=
  match goal with
  | |- calls_within 0 (bind _ _) =>
      apply (calls_within_bind 0 0); [|intros ?]
  | |- calls_within 0 (try_except _ _) =>
      apply (calls_within_try_except 0 0); [|intros ?]
  | |- calls_within 0 (try_finally _ _) =>
      apply (calls_within_try_finally 0 0)
  | |- calls_within 0 (if ?c then _ else _) => destruct c
  | |- calls_within 0 (match ?r with Ret _ => _ | Raise _ => _ end) =>
      destruct r
  | |- calls_within 0 (match ?o with Some _ => _ | None => _ end) =>
      destruct o
  | |- calls_within 0 _ => solve [auto with silent]
  end.

Ltac silent := repeat silent_step.

Section CallsOfPipelines.

Variable E : externals.

Lemma calls_within_retry_loop api_key image max_retries k : forall retries,
  (S max_retries - retries <= k)%nat ->
  calls_within k (retry_loop E api_key image max_retries retries).
Proof.
  induction k as [|k IH]; intros retries Hk; rewrite retry_loop_equation_1.
  - assert (Hf : Nat.leb retries max_retries = false)
      by (apply Nat.leb_gt; lia).
    rewrite Hf. silent.
  - destruct (Nat.leb retries max_retries);
      [|apply (calls_within_weaken 0); [lia | silent]].
    apply (calls_within_try_except 1 k).
    + apply (calls_within_bind 1 0); [|intros text; silent].
      intros w. cbn. lia.
    + intros _. destruct (lt_dec retries max_retries);
        [|apply (calls_within_weaken 0); [lia | silent]].
      apply (calls_within_bind 0 k); [unfold sleep; silent|]. intros _.
      apply IH. lia.
Qed.

Lemma calls_within_analyze_image image_file api_key max_retries :
  calls_within (S max_retries)
    (analyze_image E image_file api_key max_retries).
Proof.
  unfold analyze_image.
  destruct (encode_image E image_file);
    [|apply (calls_within_weaken 0); [lia | silent]].
  destruct (genai_configure E api_key);
    [|apply (calls_within_weaken 0); [lia | silent]].
  apply calls_within_retry_loop. lia.
Qed.

Lemma silent_write_image_metadata image_file output_path metadata :
  calls_within 0 (write_image_metadata E image_file output_path metadata).
Proof.
  unfold write_image_metadata, write_jpeg, write_png, write_file,
    library_save, report_failure, remove_if_exists, path_exists, os_remove.
  silent.
Qed.

Lemma silent_strip_file output_dir file :
  calls_within 0 (strip_file E output_dir file).
Proof.
  unfold strip_file, remove_metadata_image, process_raw_cr2, write_file,
    library_save, report_failure, remove_if_exists, path_exists, os_remove.
  silent.
Qed.

Lemma calls_within_tag_file output_dir api_key file :
  calls_within 6 (tag_file E output_dir api_key file).
Proof.
  unfold tag_file. apply (calls_within_bind 6 0).
  - apply calls_within_analyze_image.
  - intros metadata. destruct (truthy metadata);
      [apply silent_write_image_metadata | silent].
Qed.

(** The loop of a batch makes at most [n] calls per file. *)
Lemma calls_within_collect n (pipeline : uploaded_file -> M bool)
    (out : uploaded_file -> pystr) files : forall acc,
  (forall file, calls_within n (pipeline file)) ->
  calls_within (n * length files)
    (for_fold files
       (fun file processed_files =>
          bind (pipeline file)
            (fun success : bool =>
               if success then ret (processed_files ++ [out file])
               else ret processed_files))
       acc).
Proof.
  intros acc Hp. revert acc.
  induction files as [|file files IH]; intros acc; cbn [for_fold length].
  - rewrite Nat.mul_0_r. silent.
  - replace (n * S (length files))%nat with ((n + 0) + n * length files)%nat
      by lia.
    apply calls_within_bind; [|intros acc'; apply IH].
    apply calls_within_bind; [apply Hp|].
    intros success. destruct success; silent.
Qed.

End CallsOfPipelines.

(** X8.  A tagging batch of [n] files makes at most [6 n] model calls;
    a stripping batch makes none. *)
Theorem X8_calls_of_a_batch
    (E : externals) (files : list uploaded_file) (api_key : pystr)
    (w : world) :
  (calls w <= calls (snd (process_tagging E files api_key w))
   <= calls w + 6 * length files)%nat
  /\ calls (snd (process_stripping E files w)) = calls w.
Proof.
  split.
  - assert (H : calls_within (0 + (6 * length files + 0))
                  (process_tagging E files api_key)).
    { unfold process_tagging. apply calls_within_bind; [silent|].
      intros dir. apply calls_within_bind; [|intros pf; intros w0; cbn; lia].
      apply calls_within_collect. intros file. apply calls_within_tag_file. }
    specialize (H w). lia.
  - assert (H : calls_within (0 + (0 * length files + 0))
                  (process_stripping E files)).
    { unfold process_stripping. apply calls_within_bind; [silent|].
      intros dir. apply calls_within_bind; [|intros pf; intros w0; cbn; lia].
      apply calls_within_collect. intros file. apply silent_strip_file. }
    specialize (H w). lia.
Qed.

(** *** Rendering and clearing the outputs *)

Lemma removed_others_kept (files : list pystr) :
  forall (disk : gmap pystr file_content) path,
    ~ In path files ->
    fold_left (fun disk path => delete path disk) files disk !! path
    = disk !! path.
Proof.
  induction files as [|file files IH]; intros disk path Hn; [reflexivity|].
  cbn [fold_left]. rewrite IH by (intros H; apply Hn; right; exact H).
  apply lookup_delete_ne. intros ->. apply Hn. left. reflexivity.
Qed.

(** X9.  The clear-outputs action never raises, removes no file but
    those of the result list, and shows its success message exactly
    when the list was not empty. *)
Theorem X9_clear_outputs_removes_only_the_outputs (w : world) :
  fst (clear_outputs w) = Ret tt
  /\ (forall path, ~ In path (processed_files w) ->
        fs (snd (clear_outputs w)) !! path = fs w !! path)
  /\ log (snd (clear_outputs w))
     = log w ++ match processed_files w with [] => [] | _ => [EvSuccess] end
  /\ temp_dir (snd (clear_outputs w)) = temp_dir w
  /\ calls (snd (clear_outputs w)) = calls w.
Proof.
  rewrite clear_outputs_run. cbn [fst snd].
  destruct (processed_files w) as [|file rest] eqn:Hpf.
  - repeat split; [rewrite app_nil_r; reflexivity].
  - repeat split. intros path Hn.
    unfold emit, set_processed_files, set_fs; cbn [fs].
    apply removed_others_kept, Hn.
Qed.

Section Rendering.

Lemma archive_fresh (disk : gmap pystr file_content) zip_path content files :
  ~ In zip_path files ->
  archive (<[zip_path := content]> disk) files = archive disk files
  /\ download_buttons (<[zip_path := content]> disk) files
     = download_buttons disk files.
Proof.
  intros Hn. unfold archive, download_buttons.
  induction files as [|file files IH]; [split; reflexivity|].
  cbn [flat_map].
  assert (Hne : zip_path <> file) by (intros ->; apply Hn; left; reflexivity).
  rewrite lookup_insert_ne by exact Hne.
  destruct IH as [-> ->]; [intros H; apply Hn; right; exact H|].
  split; reflexivity.
Qed.

(** What one rendering of the download section does. *)
Lemma download_section_run zip_name w :
  outputs_on_disk w ->
  ~ In (OsPath.join (temp_dir w) zip_name) (processed_files w) ->
  let files := processed_files w in
  let zip_path := OsPath.join (temp_dir w) zip_name in
  download_section zip_name w
  = (Ret tt,
     if Nat.ltb 1 (length files) then
       mkWorld (<[zip_path := FZip (archive (fs w) files)]> (fs w))
         (temp_dir w) files (calls w)
         (log w
          ++ EvZip zip_path
               (map (fun file => (OsPath.basename file, file)) files)
          :: EvDownload zip_name (FZip (archive (fs w) files))
          :: download_buttons (fs w) files)
     else
       mkWorld (fs w) (temp_dir w) files (calls w)
         (log w ++ download_buttons (fs w) files)).
Proof.
  intros Hdisk Hzip files zip_path.
  unfold download_section. unfold bind at 1, gets.
  unfold outputs_on_disk in Hdisk.
  change (processed_files w) with files in Hdisk, Hzip.
  change (processed_files w) with files.
  assert (Hpf : processed_files w = files) by reflexivity.
  clearbody files. destruct files as [|file rest].
  - unfold ret, download_buttons. cbn [length Nat.ltb Nat.leb flat_map].
    rewrite app_nil_r. destruct w; simpl in *; subst; reflexivity.
  - set (files := file :: rest) in *. unfold bind at 1.
    destruct (Nat.ltb 1 (length files)) eqn:Hlen.
    + unfold bind at 1, gets. fold zip_path.
      unfold bind at 1, modify at 1.
      unfold bind at 1.
      rewrite (zip_writes zip_path (fs w) files []);
        [| reflexivity | exact Hdisk | exact Hzip].
      unfold bind at 1, modify at 1.
      unfold bind at 1, read_file.
      unfold set_fs, emit; cbn [fs temp_dir processed_files calls log].
      rewrite lookup_insert_eq. unfold modify.
      rewrite (download_buttons_run (fs w) files);
        [| | exact Hdisk].
      * cbn [fs temp_dir processed_files calls log app].
        rewrite <- !app_assoc, Hpf. reflexivity.
      * intros f Hf. cbn [fs]. apply lookup_insert_ne.
        intros Heq. apply Hzip. fold zip_path. rewrite Heq. exact Hf.
    + unfold ret.
      rewrite (download_buttons_run (fs w) files);
        [| reflexivity | exact Hdisk].
      rewrite Hpf. reflexivity.
Qed.

End Rendering.

(** X10.  Rendering the download section again changes nothing on disk
    and shows the same archive and the same buttons: a rerun of the
    script without action is idempotent on the files. *)
Theorem X10_rendering_is_idempotent (zip_name : pystr) (w : world) :
  outputs_on_disk w ->
  ~ In (OsPath.join (temp_dir w) zip_name) (processed_files w) ->
  let w1 := snd (download_section zip_name w) in
  let w2 := snd (download_section zip_name w1) in
  fs w2 = fs w1
  /\ processed_files w2 = processed_files w
  /\ exists shown, log w1 = log w ++ shown /\ log w2 = log w1 ++ shown.
Proof.
  intros Hdisk Hzip w1 w2.
  pose proof (download_section_run zip_name w Hdisk Hzip) as Hrun1.
  cbv zeta in Hrun1.
  assert (Hw1 : temp_dir w1 = temp_dir w /\ processed_files w1 = processed_files w)
    by (unfold w1; rewrite Hrun1; cbn [snd];
        destruct (Nat.ltb 1 _); split; reflexivity).
  destruct Hw1 as [Hd1 Hp1].
  assert (Hfs1 : fs w1 = fs w
                 \/ fs w1 = <[OsPath.join (temp_dir w) zip_name
                               := FZip (archive (fs w) (processed_files w))]>
                              (fs w))
    by (unfold w1; rewrite Hrun1; cbn [snd];
        destruct (Nat.ltb 1 _); [right | left]; reflexivity).
  assert (Hdisk1 : outputs_on_disk w1).
  { unfold outputs_on_disk in *. rewrite Hp1.
    eapply Forall_impl; [exact Hdisk|]. intros path Hex. cbv beta in *.
    destruct Hfs1 as [-> | ->]; [exact Hex|].
    destruct (decide (OsPath.join (temp_dir w) zip_name = path)) as [->|Hne].
    - rewrite lookup_insert_eq. eauto.
    - rewrite lookup_insert_ne by exact Hne. exact Hex. }
  assert (Hzip1 : ~ In (OsPath.join (temp_dir w1) zip_name)
                    (processed_files w1))
    by (rewrite Hd1, Hp1; exact Hzip).
  pose proof (download_section_run zip_name w1 Hdisk1 Hzip1) as Hrun2.
  cbv zeta in Hrun2. fold w2 in Hrun2.
  assert (Hsame :
            archive (fs w1) (processed_files w)
            = archive (fs w) (processed_files w)
            /\ download_buttons (fs w1) (processed_files w)
               = download_buttons (fs w) (processed_files w)).
  { destruct Hfs1 as [-> | ->]; [split; reflexivity|].
    apply archive_fresh, Hzip. }
  destruct Hsame as [Harch Hbuttons].
  unfold w2. rewrite Hrun2. cbn [snd]. rewrite Hd1, Hp1, Harch, Hbuttons.
  unfold w1 in *. rewrite Hrun1 in *. cbn [snd] in *.
  destruct (Nat.ltb 1 (length (processed_files w))); cbn [fs log processed_files].
  - split; [apply insert_insert_eq|]. split; [reflexivity|].
    eexists. split; reflexivity.
  - split; [reflexivity|]. split; [reflexivity|].
    eexists. split; reflexivity.
Qed.

Lemma X10_witness :
  fs (snd (download_section (py "tagged_images.zip")
             (snd (download_section (py "tagged_images.zip")
                     two_outputs_world))))
  = fs (snd (download_section (py "tagged_images.zip") two_outputs_world)).
Proof.
  destruct (X10_rendering_is_idempotent (py "tagged_images.zip")
              two_outputs_world) as [Hfs _].
  - repeat constructor; vm_compute; eauto.
  - vm_compute. intros H. repeat destruct H as [H|H]; try discriminate.
    exact H.
  - exact Hfs.
Defined.

(** X11.  The archive outlives the outputs: after the download section
    has written the archive of several outputs, clear-outputs removes
    the outputs and empties the list, and leaves the archive on disk. *)
Theorem X11_archive_survives_clear_outputs (zip_name : pystr) (w : world) :
  outputs_on_disk w ->
  ~ In (OsPath.join (temp_dir w) zip_name) (processed_files w) ->
  (1 < length (processed_files w))%nat ->
  let w2 := snd (clear_outputs (snd (download_section zip_name w))) in
  fs w2 !! OsPath.join (temp_dir w) zip_name
  = Some (FZip (archive (fs w) (processed_files w)))
  /\ processed_files w2 = []
  /\ Forall (fun path => fs w2 !! path = None) (processed_files w).
Proof.
  intros Hdisk Hzip Hlen w2. unfold w2.
  rewrite (download_section_run zip_name w Hdisk Hzip). cbn [snd].
  apply Nat.ltb_lt in Hlen. rewrite Hlen.
  rewrite clear_outputs_run. cbn [snd processed_files].
  destruct (processed_files w) as [|file rest] eqn:Hpf;
    [apply Nat.ltb_lt in Hlen; simpl in Hlen; lia|].
  unfold emit, set_processed_files, set_fs;
    cbn [fs processed_files]. split; [|split; [reflexivity|]].
  - rewrite removed_others_kept by exact Hzip. apply lookup_insert_eq.
  - apply Forall_forall. intros path Hin. apply list_elem_of_In in Hin.
    apply removed_all_absent. left. exact Hin.
Qed.

Lemma X11_witness :
  fs (snd (clear_outputs
             (snd (download_section (py "tagged_images.zip")
                     two_outputs_world))))
    !! py "/tmp/session/tagged_images.zip"
  = Some (FZip [(py "1.jpg", FBytes []); (py "3.jpg", FBytes [])]).
Proof.
  destruct (X11_archive_survives_clear_outputs (py "tagged_images.zip")
              two_outputs_world) as [Hkept _].
  - repeat constructor; vm_compute; eauto.
  - vm_compute. intros H. repeat destruct H as [H|H]; try discriminate.
    exact H.
  - vm_compute. lia.
  - etransitivity; [exact Hkept|]. vm_compute. reflexivity.
Defined.

(** *** A run of the script *)

Section ScriptRuns.

Variable E : externals.

Variable dir : pystr.

Lemma runs_ok_ret : runs_ok dir (ret tt).
Proof. intros w Hd Hok. repeat split; assumption. Qed.

Lemma runs_ok_bind (m k : M unit) :
  runs_ok dir m -> runs_ok dir k -> runs_ok dir (bind m (fun _ => k)).
Proof.
  intros Hm Hk w Hd Hok. unfold bind.
  destruct (Hm w Hd Hok) as (Hret & Hok1 & Hd1).
  destruct (m w) as [[[]|e] w1]; cbn [fst snd] in *; [|discriminate].
  apply Hk; assumption.
Qed.

Lemma session_ok_outputs_on_disk w : session_ok w -> outputs_on_disk w.
Proof.
  unfold session_ok, listed, outputs_on_disk. intros H.
  eapply Forall_impl; [exact H|]. intros path [Hex _]. exact Hex.
Qed.

Lemma session_ok_zip_fresh w zip_name :
  session_ok w -> basename_only zip_name ->
  ~ In (OsPath.join (temp_dir w) zip_name) (processed_files w).
Proof.
  unfold session_ok, listed. intros Hok Hzip Hin.
  rewrite List.Forall_forall in Hok. destruct (Hok _ Hin) as [_ Hsub].
  exact (scratch_not_in_subdir (temp_dir w) zip_name Hzip Hsub).
Qed.

Lemma runs_ok_download_section zip_name :
  basename_only zip_name -> runs_ok dir (download_section zip_name).
Proof.
  intros Hzip w Hd Hok.
  split; [|split; [apply download_section_session_ok, Hok|]].
  - rewrite (download_section_run zip_name w
               (session_ok_outputs_on_disk w Hok)
               (session_ok_zip_fresh w zip_name Hok Hzip)).
    reflexivity.
  - destruct (preserving_download_section dir zip_name w Hd) as (Hd1 & _).
    congruence.
Qed.

Lemma runs_ok_clear_outputs : runs_ok dir clear_outputs.
Proof.
  intros w Hd _. split; [|split; [apply clear_outputs_session_ok|]].
  - rewrite clear_outputs_run. reflexivity.
  - rewrite clear_outputs_run. cbn [snd].
    destruct (processed_files w); exact Hd.
Qed.

Lemma runs_ok_process_tagging files api_key :
  sound_action E dir (AnalyzeImages files api_key) ->
  runs_ok dir (process_tagging E files api_key).
Proof.
  intros (Hnames & Hopen & Hsaved) w Hd Hok. subst dir.
  split; [|split; [apply process_tagging_session_ok; assumption|]].
  - rewrite (process_tagging_run E files api_key w Hopen). reflexivity.
  - rewrite (process_tagging_run E files api_key w Hopen). cbn [snd].
    unfold set_processed_files; cbn [temp_dir].
    apply world_after_fixes_dir. intros file. apply fixes_dir_tag_file.
Qed.

Lemma runs_ok_process_stripping files :
  sound_action E dir (RemoveMetadata files) ->
  runs_ok dir (process_stripping E files).
Proof.
  intros (Hnames & Hopen & Hread) w Hd Hok. subst dir.
  split; [|split; [apply process_stripping_session_ok; assumption|]].
  - rewrite (process_stripping_run E files w Hopen Hread). reflexivity.
  - rewrite (process_stripping_run E files w Hopen Hread). cbn [snd].
    unfold set_processed_files; cbn [temp_dir].
    apply world_after_fixes_dir. intros file. apply fixes_dir_strip_file.
Qed.

End ScriptRuns.

(** X12.  In a session whose listed outputs are on disk, below
    subdirectories of the session directory, a run of the script ends
    without an uncaught exception and leaves such a session again, for
    every action whose uploads are named by base names, have scratch
    copies that can be opened, are readable (stripping) and, when they
    go to the JPEG branch of the writer, are written by [info.save_as]
    whenever it returns (tagging): no download button opens a missing
    file. *)
Theorem X12_script_runs_do_not_crash
    (E : externals) (a : action) (w : world) :
  session_ok w ->
  sound_action E (temp_dir w) a ->
  fst (main E a w) = Ret tt
  /\ session_ok (snd (main E a w))
  /\ temp_dir (snd (main E a w)) = temp_dir w.
Proof.
  intros Hok Hsound.
  assert (Hzip1 : basename_only (py "tagged_images.zip"))
    by (vm_compute; intros H; repeat destruct H as [H|H];
        try discriminate H; exact H).
  assert (Hzip2 : basename_only (py "stripped_images.zip"))
    by (vm_compute; intros H; repeat destruct H as [H|H];
        try discriminate H; exact H).
  assert (Hmain : runs_ok (temp_dir w) (main E a)).
  { unfold main.
    apply runs_ok_bind.
    { destruct a as [| [|file files] [|c api_key] | | |];
        try apply runs_ok_ret.
      apply runs_ok_process_tagging. exact Hsound. }
    apply runs_ok_bind; [apply runs_ok_download_section, Hzip1|].
    apply runs_ok_bind.
    { destruct a; try apply runs_ok_ret. apply runs_ok_clear_outputs. }
    apply runs_ok_bind.
    { destruct a as [| | [|file files] | |]; try apply runs_ok_ret.
      apply runs_ok_process_stripping; assumption. }
    apply runs_ok_bind; [apply runs_ok_download_section, Hzip2|].
    destruct a; try apply runs_ok_ret. apply runs_ok_clear_outputs. }
  exact (Hmain w eq_refl Hok).
Qed.

Lemma X12_witness :
  fst (main (checking_env (model_says (py "ok")))
         (AnalyzeImages [jpeg_photo "1.jpg"; photo "2.png"; photo "3.gif"]
            (py "key"))
         sample_world) = Ret tt.
Proof.
  apply (X12_script_runs_do_not_crash (checking_env (model_says (py "ok")))
           (AnalyzeImages [jpeg_photo "1.jpg"; photo "2.png"; photo "3.gif"]
              (py "key"))
           sample_world).
  - constructor.
  - split; [|split].
    + repeat constructor; vm_compute; intros H;
        repeat destruct H as [H|H]; try discriminate H; exact H.
    + repeat constructor.
    + constructor; [|constructor; [|constructor; [|constructor]]].
      * left. intros b data path [= <-]. vm_compute. discriminate.
      * right. reflexivity.
      * right. reflexivity.
Defined.

(** *** The layout of the file lists *)

(** X13.  The number of columns is between 2 and 6 for every number of
    files, so the column [i % num_columns] of the [i]-th file is one of
    the columns created; up to 11 files there are two columns, from 24
    files on there are six. *)
Theorem X13_columns_are_in_range (num_files i : nat) :
  (2 <= num_columns num_files <= 6)%nat
  /\ (column_of num_files i < num_columns num_files)%nat
  /\ (num_files < 12 -> num_columns num_files = 2)%nat
  /\ (24 <= num_files -> num_columns num_files = 6)%nat.
Proof.
  unfold column_of, num_columns.
  assert (Hrange : (2 <= Nat.min (Nat.max 2 (num_files / 4)) 6 <= 6)%nat)
    by lia.
  split; [exact Hrange|]. split; [|split].
  - apply Nat.mod_upper_bound. lia.
  - intros Hn.
    assert (num_files / 4 < 3)%nat
      by (apply Nat.Div0.div_lt_upper_bound; lia).
    lia.
  - intros Hn.
    assert (6 <= num_files / 4)%nat
      by (apply Nat.div_le_lower_bound; lia).
    lia.
Qed.

Lemma X13_witness :
  num_columns 5 = 2%nat /\ num_columns 100 = 6%nat.
Proof.
  split.
  - apply (X13_columns_are_in_range 5 0). lia.
  - apply (X13_columns_are_in_range 100 0). lia.
Defined.

(** *** Answers that carry nothing *)

(** X14.  An answer that the response handling turns into a falsy value
    (no text, text that is not JSON, or a JSON value such as [{}],
    [null], [[]] or [0]) is final: the file is given up after that one
    call, nothing is written for it and the pipeline reports failure. *)
Theorem X14_falsy_answer_skips_the_file
    (E : externals) (output_dir api_key : pystr) (file : uploaded_file)
    (w : world) (b : bytes) (text : pystr) (metadata : pyval) :
  getvalue file = Ret b ->
  genai_configure E api_key = Ret tt ->
  generate_content E (calls w) api_key (b64encode E b) = Ret text ->
  interpret_response E text = Ret metadata ->
  truthy metadata = false ->
  tag_file E output_dir api_key file w
  = (Ret false, after_calls 1 [EvGenerate (calls w)] w).
Proof.
  intros Hb Hc Hg Hv Hfalsy.
  assert (Hrun : analyze_image E file api_key 5 w
                 = (Ret metadata, after_calls 1 [EvGenerate (calls w)] w)).
  { unfold analyze_image, encode_image. rewrite Hb, Hc.
    rewrite (retry_loop_answer E api_key (b64encode E b) 5 0 0 w text metadata);
      [ rewrite Nat.add_0_r; reflexivity
      | lia
      | intros n Hn; lia
      | rewrite Nat.add_0_r; exact Hg
      | exact Hv ]. }
  unfold tag_file, bind. rewrite Hrun, Hfalsy. reflexivity.
Qed.

Lemma X14_witness :
  tag_file (sample_env true (model_says (py "{}")))
    (py "/tmp/session/tagged_images") (py "key") (photo "a.jpg") sample_world
  = (Ret false, after_calls 1 [EvGenerate 0] sample_world).
Proof.
  apply (X14_falsy_answer_skips_the_file
           (sample_env true (model_says (py "{}")))
           (py "/tmp/session/tagged_images") (py "key") (photo "a.jpg")
           sample_world [] (py "{}") (PDict ∅)).
  - reflexivity.
  - reflexivity.
  - reflexivity.
  - vm_compute. reflexivity.
  - reflexivity.
Defined.

(** *** The names of the outputs *)

Lemma join_prefix_shape dir :
  join_prefix dir = [] \/ exists d, join_prefix dir = d ++ [sep].
Proof.
  unfold join_prefix. destruct dir as [|c dir]; [left; reflexivity|].
  right. destruct (endswith [sep] (c :: dir)) eqn:Hends; [|eauto].
  unfold endswith in Hends. cbn [rev app] in Hends.
  destruct (rev dir ++ [c]) as [|x r] eqn:Hrev; [discriminate|].
  cbn [startswith] in Hends.
  apply andb_prop in Hends as [Hx _].
  apply N.eqb_eq in Hx. subst x.
  exists (rev r).
  change (c :: dir) with ([c] ++ dir).
  rewrite <- (rev_involutive dir), <- (rev_involutive ([c] ++ rev (rev dir))).
  rewrite rev_app_distr, rev_involutive. cbn [rev app].
  rewrite Hrev. reflexivity.
Qed.

Lemma basename_join dir n :
  basename_only n -> OsPath.basename (OsPath.join dir n) = n.
Proof.
  intros Hn. rewrite (join_basename dir n Hn). unfold OsPath.basename.
  destruct (join_prefix_shape dir) as [-> | [d ->]].
  - cbn [app]. unfold OsPath.rfind.
    rewrite (rfind_aux_absent sep n 0 (-1)%Z Hn). reflexivity.
  - rewrite <- app_assoc. cbn [app].
    rewrite (rfind_last sep d n Hn).
    replace (Z.to_nat (Z.of_nat (length d) + 1)) with (length (d ++ [sep]))
      by (rewrite length_app; simpl; lia).
    change (d ++ sep :: n) with (d ++ [sep] ++ n).
    rewrite app_assoc, skipn_app, Nat.sub_diag, skipn_all.
    reflexivity.
Qed.

(** X15.  The last component of an output path is the name the output
    has for the user: for an upload named by a base name it is the
    uploaded name, except for a raw file that is stripped, whose output
    is named by the root of the uploaded name with [.jpg].  It is the
    label of the download button and the member name in the archive. *)
Theorem X15_outputs_keep_the_uploaded_name
    (output_dir : pystr) (file : uploaded_file) :
  basename_only (name file) ->
  OsPath.basename (tagging_output output_dir file) = name file
  /\ OsPath.basename (stripping_output output_dir file)
     = if is_raw file
       then fst (OsPath.splitext (name file)) ++ py ".jpg"
       else name file.
Proof.
  intros Hn. unfold tagging_output, stripping_output. split.
  - apply basename_join, Hn.
  - destruct (is_raw file); apply basename_join;
      [apply splitext_root_basename, Hn | exact Hn].
Qed.

Lemma X15_witness :
  OsPath.basename
    (stripping_output (py "/tmp/session/stripped_images") (photo "IMG_1.CR2"))
  = py "IMG_1.jpg".
Proof.
  destruct (X15_outputs_keep_the_uploaded_name
              (py "/tmp/session/stripped_images") (photo "IMG_1.CR2"))
    as [_ Hstrip].
  - vm_compute. intros H. repeat destruct H as [H|H]; try discriminate.
    exact H.
  - etransitivity; [exact Hstrip|]. vm_compute. reflexivity.
Defined.

(** *** One result list for two tabs *)

(** X16.  The two tabs render the same result list.  A run of the script
    without action, in a session with several outputs, all on disk below
    subdirectories of the session directory, writes both
    [tagged_images.zip] and [stripped_images.zip] with the same members
    and shows every output twice, once under each archive. *)
Theorem X16_both_tabs_offer_the_outputs (E : externals) (w : world) :
  session_ok w ->
  (1 < length (processed_files w))%nat ->
  let files := processed_files w in
  let members := archive (fs w) files in
  let tagged_zip := OsPath.join (temp_dir w) (py "tagged_images.zip") in
  let stripped_zip := OsPath.join (temp_dir w) (py "stripped_images.zip") in
  let names := map (fun file => (OsPath.basename file, file)) files in
  let w' := snd (main E Rerun w) in
  fs w' = <[stripped_zip := FZip members]>
            (<[tagged_zip := FZip members]> (fs w))
  /\ tagged_zip <> stripped_zip
  /\ processed_files w' = files
  /\ log w'
     = log w
       ++ (EvZip tagged_zip names
           :: EvDownload (py "tagged_images.zip") (FZip members)
           :: download_buttons (fs w) files)
       ++ (EvZip stripped_zip names
           :: EvDownload (py "stripped_images.zip") (FZip members)
           :: download_buttons (fs w) files).
Proof.
  intros Hok Hlen files members tagged_zip stripped_zip names w'.
  assert (Hb1 : basename_only (py "tagged_images.zip"))
    by (vm_compute; intros H; repeat destruct H as [H|H];
        try discriminate; exact H).
  assert (Hb2 : basename_only (py "stripped_images.zip"))
    by (vm_compute; intros H; repeat destruct H as [H|H];
        try discriminate; exact H).
  assert (Hne : tagged_zip <> stripped_zip).
  { unfold tagged_zip, stripped_zip.
    rewrite (join_basename _ _ Hb1), (join_basename _ _ Hb2).
    intros Heq. apply app_inv_head in Heq. vm_compute in Heq.
    discriminate. }
  pose proof (download_section_run (py "tagged_images.zip") w
                (session_ok_outputs_on_disk w Hok)
                (session_ok_zip_fresh w _ Hok Hb1)) as Hrun1.
  cbv zeta in Hrun1.
  apply Nat.ltb_lt in Hlen. rewrite Hlen in Hrun1.
  fold files tagged_zip members names in Hrun1.
  set (w1 := mkWorld (<[tagged_zip := FZip members]> (fs w)) (temp_dir w)
               files (calls w)
               (log w ++ EvZip tagged_zip names
                  :: EvDownload (py "tagged_images.zip") (FZip members)
                  :: download_buttons (fs w) files)) in *.
  assert (Hfresh2 : ~ In stripped_zip files)
    by exact (session_ok_zip_fresh w _ Hok Hb2).
  assert (Hdisk1 : outputs_on_disk w1).
  { unfold outputs_on_disk, w1; cbn [fs processed_files].
    eapply Forall_impl; [exact (session_ok_outputs_on_disk w Hok)|].
    intros path Hex. cbv beta in *.
    destruct (decide (tagged_zip = path)) as [->|Hp].
    - rewrite lookup_insert_eq. eauto.
    - rewrite lookup_insert_ne by exact Hp. exact Hex. }
  pose proof (download_section_run (py "stripped_images.zip") w1
                Hdisk1 Hfresh2) as Hrun2.
  cbv zeta in Hrun2.
  change (processed_files w1) with files in Hrun2.
  change (temp_dir w1) with (temp_dir w) in Hrun2.
  change (fs w1) with (<[tagged_zip := FZip members]> (fs w)) in Hrun2.
  change (log w1)
    with (log w ++ EvZip tagged_zip names
            :: EvDownload (py "tagged_images.zip") (FZip members)
            :: download_buttons (fs w) files) in Hrun2.
  change (calls w1) with (calls w) in Hrun2.
  fold stripped_zip names in Hrun2. fold files in Hlen. rewrite Hlen in Hrun2.
  destruct (archive_fresh (fs w) tagged_zip (FZip members) files
              (session_ok_zip_fresh w _ Hok Hb1)) as [Harch Hbuttons].
  fold members in Harch. rewrite Harch, Hbuttons in Hrun2.
  assert (Hmain : main E Rerun w
                  = download_section (py "stripped_images.zip") w1).
  { unfold main. unfold bind at 1, ret at 1. unfold bind at 1.
    rewrite Hrun1. unfold bind at 1, ret at 1. unfold bind at 1, ret at 1.
    unfold bind, ret.
    destruct (download_section (py "stripped_images.zip") w1) as [[[]|e] w2];
      reflexivity. }
  unfold w'. rewrite Hmain, Hrun2. cbn [snd fs processed_files log].
  repeat split; [exact Hne|]. rewrite <- app_assoc. reflexivity.
Qed.

Lemma X16_witness :
  fs (snd (main (sample_env true model_down) Rerun two_outputs_world))
    !! py "/tmp/session/stripped_images.zip"
  = Some (FZip [(py "1.jpg", FBytes []); (py "3.jpg", FBytes [])]).
Proof.
  destruct (X16_both_tabs_offer_the_outputs (sample_env true model_down)
              two_outputs_world) as (Hfs & _).
  - constructor; [|constructor; [|constructor]].
    + split; [vm_compute; eauto|].
      exists (py "tagged_images/1.jpg").
      split; [vm_compute; tauto | vm_compute; reflexivity].
    + split; [vm_compute; eauto|].
      exists (py "tagged_images/3.jpg").
      split; [vm_compute; tauto | vm_compute; reflexivity].
  - vm_compute. lia.
  - rewrite Hfs.
    etransitivity; [apply lookup_insert_eq|]. vm_compute. reflexivity.
Defined.

(** *** What stays on disk *)

Lemma preserving_batch dir (pipeline : uploaded_file -> M bool)
    (out : uploaded_file -> pystr) files :
  Forall (fun file => preserving dir (pipeline file)) files ->
  forall acc,
    preserving dir
      (for_fold files
         (fun file processed_files =>
            bind (pipeline file)
              (fun success : bool =>
                 if success then ret (processed_files ++ [out file])
                 else ret processed_files))
         acc).
Proof.
  induction 1 as [|file files Hfile _ IH]; intros acc; cbn [for_fold].
  - apply preserving_ret.
  - apply preserving_bind; [|intros acc'; apply IH].
    apply preserving_bind; [exact Hfile|].
    intros []; apply preserving_ret.
Qed.

Lemma batch_keeps_files dir (pipeline : uploaded_file -> M bool)
    (out : uploaded_file -> pystr) files w path :
  Forall (fun file => preserving dir (pipeline file)) files ->
  temp_dir w = dir -> in_subdir dir path -> is_Some (fs w !! path) ->
  is_Some
    (fs (snd (bind
                (for_fold files
                   (fun file processed_files =>
                      bind (pipeline file)
                        (fun success : bool =>
                           if success then ret (processed_files ++ [out file])
                           else ret processed_files))
                   [])
                (fun processed_files =>
                   modify (set_processed_files processed_files)) w))
     !! path).
Proof.
  intros Hfiles Hd Hsub Hex.
  pose proof (preserving_batch dir pipeline out files Hfiles [] w Hd)
    as (_ & _ & Hkept).
  unfold bind at 1.
  destruct (for_fold _ _ _ w) as [[acc|e] w1]; cbn [snd] in *;
    [unfold modify, set_processed_files; cbn [snd fs]|];
    apply Hkept; assumption.
Qed.

(** X17.  No operation removes a file from a subdirectory of the session
    directory, except the clear-outputs action on the files of its
    result list.  An output of an earlier batch that a later batch has
    dropped from the list therefore stays on disk whatever is done next. *)
Theorem X17_only_listed_outputs_are_removed
    (E : externals) (op : operation) (w : world) (path : pystr) :
  well_named op ->
  in_subdir (temp_dir w) path ->
  is_Some (fs w !! path) ->
  (op = OpClearOutputs -> ~ In path (processed_files w)) ->
  is_Some (fs (snd (run_operation E op w)) !! path).
Proof.
  intros Hnames Hsub Hex Hlisted.
  destruct op as [files api_key|files|zip_name|]; cbn [run_operation well_named] in *.
  - unfold process_tagging. unfold bind at 1, gets.
    apply (batch_keeps_files (temp_dir w)); [|reflexivity|exact Hsub|exact Hex].
    eapply Forall_impl; [exact Hnames|]. intros file Hn.
    apply preserving_tag_file, Hn.
  - unfold process_stripping. unfold bind at 1, gets.
    apply (batch_keeps_files (temp_dir w)); [|reflexivity|exact Hsub|exact Hex].
    eapply Forall_impl; [exact Hnames|]. intros file Hn.
    apply preserving_strip_file, Hn.
  - destruct (preserving_download_section (temp_dir w) zip_name w eq_refl)
      as (_ & _ & Hkept).
    apply Hkept; assumption.
  - rewrite clear_outputs_run. cbn [snd].
    destruct (processed_files w) as [|file files] eqn:Hfiles; [exact Hex|].
    unfold emit, set_processed_files, set_fs; cbn [fs].
    rewrite removed_others_kept by (apply Hlisted; reflexivity).
    exact Hex.
Qed.

Lemma X17_witness :
  let E := sample_env true model_down in
  let w1 := snd (run_operation E (OpTagging [photo "2.jpg"] (py "key"))
                   two_outputs_world) in
  processed_files w1 = []
  /\ is_Some (fs (snd (run_operation E OpClearOutputs w1))
              !! py "/tmp/session/tagged_images/1.jpg").
Proof.
  intros E w1. split; [vm_compute; reflexivity|].
  apply (X17_only_listed_outputs_are_removed E OpClearOutputs w1).
  - exact I.
  - exists (py "tagged_images/1.jpg"). split; [|vm_compute; reflexivity].
    vm_compute. tauto.
  - apply (X17_only_listed_outputs_are_removed E
             (OpTagging [photo "2.jpg"] (py "key")) two_outputs_world).
    + repeat constructor; vm_compute; intros H;
        repeat destruct H as [H|H]; try discriminate; exact H.
    + exists (py "tagged_images/1.jpg"). split; [|vm_compute; reflexivity].
      vm_compute. tauto.
    + vm_compute. eauto.
    + discriminate.
  - intros _. vm_compute. tauto.
Defined.

(** *** The invariant of the session, when every save writes *)

(** X18.  The listed outputs are on disk, below subdirectories of the
    session directory: every operation on uploads named by base names
    keeps this, whether it returns or raises, provided that the uploads
    of a tagging batch that go to the JPEG branch are written by
    [info.save_as] whenever it returns. *)
Theorem X18_saves_that_write_keep_the_outputs_on_disk
    (E : externals) (op : operation) (w : world) :
  well_named op -> jpegs_saved E op -> session_ok w ->
  session_ok (snd (run_operation E op w))
  /\ outputs_on_disk (snd (run_operation E op w)).
Proof.
  intros Hnames Hsaved Hok.
  assert (Hok' : session_ok (snd (run_operation E op w)))
    by (apply operation_session_ok; assumption).
  split; [exact Hok'|]. unfold session_ok, listed in Hok'.
  unfold outputs_on_disk.
  eapply Forall_impl; [exact Hok'|]. intros path [Hex _]. exact Hex.
Qed.

Lemma X18_witness :
  outputs_on_disk
    (snd (run_operation (checking_env (model_says (py "ok")))
            (OpTagging [jpeg_photo "1.jpg"; photo "2.png"] (py "key"))
            sample_world)).
Proof.
  apply (X18_saves_that_write_keep_the_outputs_on_disk
           (checking_env (model_says (py "ok")))
           (OpTagging [jpeg_photo "1.jpg"; photo "2.png"] (py "key"))
           sample_world).
  - repeat constructor; vm_compute; intros H;
      repeat destruct H as [H|H]; try discriminate H; exact H.
  - constructor; [|constructor; [|constructor]].
    + left. intros b data path [= <-]. vm_compute. discriminate.
    + right. reflexivity.
  - constructor.
Defined.
